(** * Kanban board client: state handlers of [App] and [TaskDetails]

    A shallow embedding of the React handlers of the kanban client
    (the [App] component, the [selectedBoard] effect and the comment
    handler of [TaskDetails]) together with the properties of the
    reorder engine, the mutation handlers and the selection state.

    JavaScript values are modelled as follows.
    - strings are [string]; [null] is [None] of an option type;
    - arrays are lists; [Array.prototype.splice] follows ECMAScript's
      clamping of its start index, written out on [Z];
    - an object used as a dictionary ([Columns]) is an association list
      in own-property order: array-index keys in ascending numeric order,
      then the other string keys in insertion order;
    - an [async] handler is a computation in a small monad that threads
      the component state, records the observable effects (requests,
      state updates, console output, alerts) and can throw;
    - the outcome of a request is an argument of the handler. *)

From Stdlib Require Import String Ascii List ZArith NArith Lia Bool Permutation Arith.
From Stdlib Require Import DecimalString DecimalN.
Import ListNotations.

Local Open Scope string_scope.
Local Open Scope list_scope.

(** ** JavaScript arrays *)

Module JsArray.

Section Defs.
Context {A : Type}.

(** [arr.findIndex(p)]: [None] stands for the result [-1]. *)
Fixpoint findIndex (p : A -> bool) (l : list A) : option nat :=
  match l with
  | [] => None
  | x :: r => if p x then Some 0%nat else option_map S (findIndex p r)
  end.

(** The relative start of [splice]: a negative [start] counts from the
    end and stops at 0, a non-negative one stops at the length. *)
Definition relative_start (start : Z) (len : nat) : nat :=
  if (start <? 0)%Z
  then Z.to_nat (Z.max (Z.of_nat len + start) 0)
  else Z.to_nat (Z.min start (Z.of_nat len)).

(** [arr.splice(start, deleteCount, ...items)] as a pair: the array of
    removed elements (its return value) and the array afterwards. *)
Definition splice (start : Z) (deleteCount : Z) (items : list A) (l : list A)
  : list A * list A :=
  let s := relative_start start (length l) in
  let d := Z.to_nat (Z.min (Z.max deleteCount 0) (Z.of_nat (length l - s))) in
  (firstn d (skipn s l), firstn s l ++ items ++ skipn (s + d) l).

End Defs.

End JsArray.

(** ** JavaScript objects used as dictionaries *)

Module JsObject.

Definition digit_of (c : ascii) : option N :=
let n := N_of_ascii c in
if ((48 <=? n) && (n <=? 57))%N then Some (n - 48)%N else None.

Fixpoint digits_value (s : string) (acc : N) : option N :=
match s with
| EmptyString => Some acc
| String c r =>
    match digit_of c with
    | Some d => digits_value r (10 * acc + d)%N
    | None => None
    end
end.

(** A property key is an array index when it is the canonical decimal
  form of an integer between 0 and 2^32 - 2. *)
Definition array_index (s : string) : option N :=
match s with
| EmptyString => None
| String c r =>
    if (N_of_ascii c =? 48)%N
    then match r with EmptyString => Some 0%N | _ => None end
    else match digits_value s 0 with
         | Some n => if (n <? 4294967295)%N then Some n else None
         | None => None
         end
end.

Definition plain_key (s : string) : bool :=
match array_index s with Some _ => false | None => true end.

(** The names that every object created by a literal, by [JSON.parse] or
    by [Object.fromEntries] inherits from [Object.prototype]. Reading one
    of them on an object that has no property of this name itself gives
    the inherited value: a function, or for [__proto__] the prototype
    object. Each is truthy and has no property [tasks]. *)
Definition inherited_names : list string :=
[ "constructor"; "hasOwnProperty"; "isPrototypeOf"; "propertyIsEnumerable";
  "toLocaleString"; "toString"; "valueOf"; "__proto__";
  "__defineGetter__"; "__defineSetter__"; "__lookupGetter__"; "__lookupSetter__" ].

Definition inherited (k : string) : bool := existsb (String.eqb k) inherited_names.

Section Defs.
Context {V : Type}.

(** Own properties in [Object.entries] order. *)
Definition t := list (string * V).

Definition empty : t := [].

Definition entries (o : t) : list (string * V) := o.
Definition keys (o : t) : list string := map fst o.
Definition values (o : t) : list V := map snd o.

(** The property [k] of [o] itself; [None] when [o] has no such
    property. This is [o[k]] for every [k] that is not inherited. *)
Fixpoint get (k : string) (o : t) : option V :=
  match o with
  | [] => None
  | (k', v) :: r => if String.eqb k' k then Some v else get k r
  end.

Definition has (k : string) (o : t) : bool :=
  match get k o with Some _ => true | None => false end.

(** [o[k]]: the property of [o] itself, else the value inherited from
    [Object.prototype], else [undefined]. *)
Inductive property :=
| Own (v : V)
| Inherited
| Undefined.

Definition lookup (k : string) (o : t) : property :=
  match get k o with
  | Some v => Own v
  | None => if inherited k then Inherited else Undefined
  end.

(** Assignment to a property that exists keeps its position. *)
Fixpoint update (k : string) (v : V) (o : t) : t :=
  match o with
  | [] => []
  | (k', v') :: r =>
      if String.eqb k' k then (k, v) :: r else (k', v') :: update k v r
  end.

(** A new array-index key goes among the array-index keys, which come
    first and ascend. *)
Fixpoint insert_index (n : N) (k : string) (v : V) (o : t) : t :=
  match o with
  | [] => [(k, v)]
  | (k', v') :: r =>
      match array_index k' with
      | Some m =>
          if (m <? n)%N then (k', v') :: insert_index n k v r
          else (k, v) :: o
      | None => (k, v) :: o
      end
  end.

(** Defining the property [k] of [o] as [v]: the effect of a [[k]: v]
    member of an object literal after a spread, and of [o[k] = v] for
    every [k] but [__proto__]. *)
Definition set (k : string) (v : V) (o : t) : t :=
  if has k o then update k v o
  else match array_index k with
       | Some n => insert_index n k v o
       | None => o ++ [(k, v)]
       end.

(** [o[k] = v] for an object [v]. When [k] is [__proto__] and [o] has no
    property of this name itself, the assignment replaces the prototype
    of [o] and creates no property. *)
Definition assign (k : string) (v : V) (o : t) : t :=
  if String.eqb k "__proto__" && negb (has k o) then o else set k v o.

(** [Object.fromEntries(l)] defines the properties in the order of [l]. *)
Definition fromEntries (l : list (string * V)) : t :=
  fold_left (fun o kv => set (fst kv) (snd kv) o) l empty.

(** [{ ...o }]: a shallow copy has the properties of [o] in the same
    order. *)
Definition spread (o : t) : t := o.

(** [const { [k]: removed, ...rest } = o]. *)
Definition rest_without (k : string) (o : t) : t :=
  filter (fun kv => negb (String.eqb (fst kv) k)) o.

Definition map_values (f : V -> V) (o : t) : t :=
  map (fun kv => (fst kv, f (snd kv))) o.

End Defs.

Arguments t : clear implicits.
Arguments property : clear implicits.

End JsObject.


(** ** Data model

    The type declarations of the client ([types.ts]) are not part of the
    sources at hand; the records below carry the fields that the
    handlers and the server read and write. *)

Module TeamMember.
Record t := mk { id : string; name : string; color : string }.
End TeamMember.

Inductive Priority := low | medium | high.

Module Attachment.
Record t := mk { id : string; name : string; url : string; type : string; size : Z }.
End Attachment.

Module Comment.
Record t := mk {
  id : string;
  text : string;
  authorId : string;
  createdAt : string;
  attachments : list Attachment.t;
  taskId : string
}.
End Comment.

Module Task.
Record t := mk {
  id : string;
  title : string;
  description : string;
  memberId : string;
  startDate : string;
  effort : Z;
  columnId : string;
  priority : Priority;
  requesterId : string;
  boardId : string;
  comments : list Comment.t
}.

(** [{ ...task, columnId }] *)
Definition with_columnId (c : string) (x : t) : t :=
  mk (id x) (title x) (description x) (memberId x) (startDate x) (effort x)
     c (priority x) (requesterId x) (boardId x) (comments x).

(** [{ ...task, comments }] *)
Definition with_comments (cs : list Comment.t) (x : t) : t :=
  mk (id x) (title x) (description x) (memberId x) (startDate x) (effort x)
     (columnId x) (priority x) (requesterId x) (boardId x) cs.

(** [t.id === i] *)
Definition has_id (i : string) (x : t) : bool := String.eqb (id x) i.
End Task.

Module Column.
Record t := mk {
  id : string;
  title : string;
  tasks : list Task.t;
  boardId : string
}.

Definition with_tasks (ts : list Task.t) (c : t) : t :=
  mk (id c) (title c) ts (boardId c).

Definition with_title (s : string) (c : t) : t :=
  mk (id c) s (tasks c) (boardId c).
End Column.

(** [Columns]: column objects keyed by column id. *)
Definition Columns := JsObject.t Column.t.

Module Board.
Record t := mk { id : string; title : string; columns : Columns }.

Definition with_title (s : string) (b : t) : t := mk (id b) s (columns b).
End Board.

Record DraggedTask := mkDraggedTask {
  dragged_id : string;
  sourceColumnId : string;
  currentIndex : Z
}.

(** The state variables of [App]. *)
Record AppState := mkApp {
  members : list TeamMember.t;
  boards : list Board.t;
  selectedBoard : option string;
  columns : Columns;
  selectedMember : option string;
  draggedColumn : option string;
  draggedTask : option DraggedTask;
  selectedTask : option Task.t
}.

(** The state variables of [TaskDetails] that its handlers write. *)
Record DetailsState := mkDetails {
  editedTask : Task.t;
  isSubmitting : bool
}.

(** A [string | null] value in a condition: [null] and the empty string
    are falsy. *)
Definition truthy (s : option string) : bool :=
  match s with
  | Some x => negb (String.eqb x "")
  | None => false
  end.

(** [a === b] on [string | null]. *)
Definition opt_eqb (a b : option string) : bool :=
  match a, b with
  | Some x, Some y => String.eqb x y
  | None, None => true
  | _, _ => false
  end.

(** [s || ''] *)
Definition or_empty (s : option string) : string :=
  if truthy s then match s with Some x => x | None => "" end else "".

(** ** Effects *)

(** The requests of [api.ts]. *)
Inductive api_call :=
| CreateMember (m : TeamMember.t)
| DeleteMember (id : string)
| CreateBoard (b : Board.t)
| UpdateBoard (id title : string)
| DeleteBoard (id : string)
| CreateColumn (c : Column.t)
| UpdateColumn (id title : string)
| DeleteColumn (id : string)
| CreateTask (t : Task.t)
| UpdateTask (t : Task.t)
| DeleteTask (id : string)
| CreateComment (c : Comment.t).

(** How a request ends: the promise resolves with the response body or
    rejects. *)
Inductive response (A : Type) :=
| Resolved (a : A)
| Rejected.
Arguments Resolved {A} a.
Arguments Rejected {A}.

Inductive state_var :=
| Members | Boards | SelectedBoard | ColumnsVar | SelectedMember
| DraggedColumnVar | DraggedTaskVar | SelectedTask
| EditedTask | IsSubmitting.

(** What a handler does that can be seen from outside, in order. *)
Inductive event :=
| Request (c : api_call)
| SetState (v : state_var)
| ConsoleError (msg : string)
| Alert (msg : string)
| OnUpdate (t : Task.t)
| RenderError.

Inductive result (A : Type) :=
| Ok (a : A)
| Thrown.
Arguments Ok {A} a.
Arguments Thrown {A}.

(** A handler body over the component state [S]: its completion, the
    state after the queued updates, and the trace of its effects. *)
Definition M (S A : Type) := S -> result A * S * list event.

Definition ret {S A} (a : A) : M S A := fun s => (Ok a, s, []).

Definition bind {S A B} (m : M S A) (k : A -> M S B) : M S B :=
  fun s =>
    match m s with
    | (Ok a, s1, l1) =>
        match k a s1 with
        | (r, s2, l2) => (r, s2, l1 ++ l2)
        end
    | (Thrown, s1, l1) => (Thrown, s1, l1)
    end.

Definition throw {S A} : M S A := fun s => (Thrown, s, []).

(** [try { body } catch (error) { handler }] *)
Definition try_catch {S A} (body : M S A) (handler : M S A) : M S A :=
  fun s =>
    match body s with
    | (Ok a, s1, l1) => (Ok a, s1, l1)
    | (Thrown, s1, l1) =>
        match handler s1 with
        | (r, s2, l2) => (r, s2, l1 ++ l2)
        end
    end.

(** [try { body } finally { final }] *)
Definition try_finally {S A} (body : M S A) (final : M S unit) : M S A :=
  fun s =>
    match body s with
    | (r, s1, l1) =>
        match final s1 with
        | (Ok _, s2, l2) => (r, s2, l1 ++ l2)
        | (Thrown, s2, l2) => (Thrown, s2, l1 ++ l2)
        end
    end.

Definition emit {S} (e : event) : M S unit := fun s => (Ok tt, s, [e]).

(** [await api.call(...)]: the request is issued; a rejection is thrown. *)
Definition await {S A} (c : api_call) (r : response A) : M S A :=
  fun s =>
    (match r with Resolved a => Ok a | Rejected => Thrown end, s, [Request c]).

(** A state setter called with an updater function. *)
Definition update_state {S} (v : state_var) (f : S -> S) : M S unit :=
  fun s => (Ok tt, f s, [SetState v]).

(** A value that is [undefined] when absent: reading a property of it
    throws a [TypeError]. *)
Definition defined {S A} (o : option A) : M S A :=
  match o with
  | Some a => ret a
  | None => throw
  end.

Declare Scope handler_scope.
Delimit Scope handler_scope with handler.
Notation "x <- m ;; k" := (bind m (fun x => k))
  (at level 61, m at next level, right associativity) : handler_scope.
Notation "m ;; k" := (bind m (fun _ => k))
  (at level 61, right associativity) : handler_scope.
Local Open Scope handler_scope.

Definition console_error {S} (msg : string) : M S unit := emit (ConsoleError msg).
Definition alert {S} (msg : string) : M S unit := emit (Alert msg).

(** ** The state setters of [App] *)

Definition setMembers (f : list TeamMember.t -> list TeamMember.t) : M AppState unit :=
  update_state Members
    (fun s => mkApp (f (members s)) (boards s) (selectedBoard s) (columns s)
                    (selectedMember s) (draggedColumn s) (draggedTask s) (selectedTask s)).

Definition setBoards (f : list Board.t -> list Board.t) : M AppState unit :=
  update_state Boards
    (fun s => mkApp (members s) (f (boards s)) (selectedBoard s) (columns s)
                    (selectedMember s) (draggedColumn s) (draggedTask s) (selectedTask s)).

Definition setSelectedBoard (v : option string) : M AppState unit :=
  update_state SelectedBoard
    (fun s => mkApp (members s) (boards s) v (columns s)
                    (selectedMember s) (draggedColumn s) (draggedTask s) (selectedTask s)).

Definition setColumns (f : Columns -> Columns) : M AppState unit :=
  update_state ColumnsVar
    (fun s => mkApp (members s) (boards s) (selectedBoard s) (f (columns s))
                    (selectedMember s) (draggedColumn s) (draggedTask s) (selectedTask s)).

Definition setSelectedMember (v : option string) : M AppState unit :=
  update_state SelectedMember
    (fun s => mkApp (members s) (boards s) (selectedBoard s) (columns s)
                    v (draggedColumn s) (draggedTask s) (selectedTask s)).

Definition setDraggedColumn (v : option string) : M AppState unit :=
  update_state DraggedColumnVar
    (fun s => mkApp (members s) (boards s) (selectedBoard s) (columns s)
                    (selectedMember s) v (draggedTask s) (selectedTask s)).

Definition setDraggedTask (v : option DraggedTask) : M AppState unit :=
  update_state DraggedTaskVar
    (fun s => mkApp (members s) (boards s) (selectedBoard s) (columns s)
                    (selectedMember s) (draggedColumn s) v (selectedTask s)).

(** An updater of [columns] that reads a property of [undefined] throws
    when React applies it, outside the handler's [try]: the setter
    returns normally, the state is not replaced and the render fails. *)
Definition setColumns_partial (f : Columns -> option Columns) : M AppState unit :=
  fun s =>
    match f (columns s) with
    | Some c => setColumns (fun _ => c) s
    | None => (Ok tt, s, [SetState ColumnsVar; RenderError])
    end.

(** ** The handlers of [App]

    A handler reads the state variables of the render it was created in
    (its closure, the argument [cl]); a setter called with a function
    reads the state at the time the update is applied. The response of
    the request, and the values of [crypto.randomUUID()] and of the
    clock, are arguments. [e.preventDefault()] has no effect on the
    state and is left out. *)

Section Handlers.
Variable cl : AppState.

Definition handleAddMember (member : TeamMember.t) (resp : response TeamMember.t)
  : M AppState unit :=
  try_catch
    (createdMember <- await (CreateMember member) resp ;;
     setMembers (fun _ => members cl ++ [createdMember]) ;;
     if negb (truthy (selectedMember cl))
     then setSelectedMember (Some (TeamMember.id createdMember))
     else ret tt)
    (console_error "Failed to add member:").

Definition handleRemoveMember (id : string) (resp : response unit)
  : M AppState unit :=
  try_catch
    (await (DeleteMember id) resp ;;
     setMembers (fun _ =>
       filter (fun m => negb (String.eqb (TeamMember.id m) id)) (members cl)) ;;
     if opt_eqb (selectedMember cl) (Some id)
     then
       if (1 <? length (members cl))%nat
       then m0 <- defined (hd_error (members cl)) ;;
            setSelectedMember (Some (TeamMember.id m0))
       else setSelectedMember None
     else ret tt)
    (console_error "Failed to remove member:").

(** The entries of [DEFAULT_COLUMNS]: key, id and title ([tasks] is
    empty in each). *)
Definition DEFAULT_COLUMNS : list (string * (string * string)) :=
  [ ("todo", ("todo", "To Do"));
    ("progress", ("progress", "In Progress"));
    ("testing", ("testing", "Testing"));
    ("completed", ("completed", "Completed")) ].

Definition newBoard_columns : Columns :=
  fold_left
    (fun acc kc =>
       JsObject.set (fst kc)
         (Column.mk (fst (snd kc)) (snd (snd kc)) [] (or_empty (selectedBoard cl)))
         (JsObject.spread acc))
    DEFAULT_COLUMNS JsObject.empty.

Definition handleAddBoard (uuid : string) (resp : response Board.t)
  : M AppState unit :=
  try_catch
    (let newBoard := Board.mk uuid "New Board" newBoard_columns in
     createdBoard <- await (CreateBoard newBoard) resp ;;
     setBoards (fun prev => prev ++ [createdBoard]) ;;
     setSelectedBoard (Some (Board.id createdBoard)) ;;
     setColumns (fun _ => Board.columns createdBoard))
    (console_error "Failed to add board:").

Definition handleEditBoard (boardId title : string) (resp : response unit)
  : M AppState unit :=
  try_catch
    (await (UpdateBoard boardId title) resp ;;
     setBoards (fun prev =>
       map (fun b => if String.eqb (Board.id b) boardId
                     then Board.with_title title b else b) prev))
    (console_error "Failed to update board:").

Definition handleRemoveBoard (boardId : string) (resp : response unit)
  : M AppState unit :=
  if (length (boards cl) <=? 1)%nat
  then alert "Cannot delete the last board"
  else
    try_catch
      (await (DeleteBoard boardId) resp ;;
       let newBoards :=
         filter (fun b => negb (String.eqb (Board.id b) boardId)) (boards cl) in
       setBoards (fun _ => newBoards) ;;
       if opt_eqb (selectedBoard cl) (Some boardId)
       then firstBoard <- defined (hd_error newBoards) ;;
            setSelectedBoard (Some (Board.id firstBoard)) ;;
            setColumns (fun _ => Board.columns firstBoard)
       else ret tt)
      (console_error "Failed to remove board:").

(** [{ ...prev, [columnId]: { ...prev[columnId], tasks: [...prev[columnId].tasks, task] } }].
    When [columnId] is no property of [prev] itself, [prev[columnId]] is
    [undefined] or an inherited value without [tasks]: the updater throws
    either way. *)
Definition append_task (columnId : string) (task : Task.t) (prev : Columns)
  : option Columns :=
  match JsObject.get columnId prev with
  | Some c =>
      Some (JsObject.set columnId (Column.with_tasks (Column.tasks c ++ [task]) c)
              (JsObject.spread prev))
  | None => None
  end.

Definition handleAddTask (columnId uuid today : string) (resp : response Task.t)
  : M AppState unit :=
  if negb (truthy (selectedMember cl)) || negb (truthy (selectedBoard cl))
  then ret tt
  else
    let task :=
      Task.mk uuid "New Task" "Task description" (or_empty (selectedMember cl))
              today 1 columnId medium (or_empty (selectedMember cl))
              (or_empty (selectedBoard cl)) [] in
    try_catch
      (createdTask <- await (CreateTask task) resp ;;
       setColumns_partial (append_task columnId createdTask))
      (console_error "Failed to create task:").

(** The updater of [handleEditTask]: every column's [tasks] is mapped.
    The assignment writes the [tasks] property of the column objects of
    [prev] themselves, which the board they were taken from shares; it
    is the state variable [columns] that is modelled here, by value. *)
Definition replace_task (id : string) (updatedTask : Task.t) (prev : Columns)
  : Columns :=
  JsObject.map_values
    (fun c =>
       Column.with_tasks
         (map (fun t => if Task.has_id id t then updatedTask else t) (Column.tasks c))
         c)
    (JsObject.spread prev).

Definition handleEditTask (task : Task.t) (resp : response Task.t)
  : M AppState unit :=
  try_catch
    (updatedTask <- await (UpdateTask task) resp ;;
     setColumns (replace_task (Task.id task) updatedTask))
    (console_error "Failed to update task:").

(** The updater of [handleRemoveTask]: every column's [tasks] is filtered. *)
Definition drop_task (taskId : string) (prev : Columns) : Columns :=
  JsObject.map_values
    (fun c =>
       Column.with_tasks
         (filter (fun t => negb (Task.has_id taskId t)) (Column.tasks c))
         c)
    (JsObject.spread prev).

Definition handleRemoveTask (taskId : string) (resp : response unit)
  : M AppState unit :=
  try_catch
    (await (DeleteTask taskId) resp ;;
     setColumns (drop_task taskId))
    (console_error "Failed to remove task:").

Definition handleCopyTask (task : Task.t) (uuid : string) (resp : response Task.t)
  : M AppState unit :=
  let newTask :=
    Task.mk uuid (Task.title task ++ " (Copy)") (Task.description task)
            (Task.memberId task) (Task.startDate task) (Task.effort task)
            (Task.columnId task) (Task.priority task) (Task.requesterId task)
            (Task.boardId task) [] in
  try_catch
    (createdTask <- await (CreateTask newTask) resp ;;
     setColumns_partial (append_task (Task.columnId task) createdTask))
    (console_error "Failed to copy task:").

(** [{ ...prev, [columnId]: { ...prev[columnId], title } }]. When
    [columnId] is no property of [prev] itself, the spread of
    [prev[columnId]] ([undefined], or an inherited value) copies nothing
    and the new object has the property [title] alone; the properties it
    lacks are written as empty values. *)
Definition retitle_column (columnId title : string) (prev : Columns) : Columns :=
  let c := match JsObject.get columnId prev with
           | Some c => Column.with_title title c
           | None => Column.mk "" title [] ""
           end in
  JsObject.set columnId c (JsObject.spread prev).

Definition handleEditColumn (columnId title : string) (resp : response unit)
  : M AppState unit :=
  try_catch
    (await (UpdateColumn columnId title) resp ;;
     setColumns (retitle_column columnId title))
    (console_error "Failed to update column:").

Definition handleRemoveColumn (columnId : string) (resp : response unit)
  : M AppState unit :=
  try_catch
    (await (DeleteColumn columnId) resp ;;
     let remainingColumns := JsObject.rest_without columnId (columns cl) in
     setColumns (fun _ => remainingColumns))
    (console_error "Failed to delete column:").

Definition handleAddColumn (uuid : string) (resp : response Column.t)
  : M AppState unit :=
  if negb (truthy (selectedBoard cl))
  then ret tt
  else
    let columnId := uuid in
    let newColumn := Column.mk columnId "New Column" [] (or_empty (selectedBoard cl)) in
    try_catch
      (createdColumn <- await (CreateColumn newColumn) resp ;;
       setColumns (fun prev => JsObject.set columnId createdColumn (JsObject.spread prev)))
      (console_error "Failed to create column:").

End Handlers.

(** ** The reorder engine *)

Definition handleColumnDragStart (columnId : string) : M AppState unit :=
  setDraggedColumn (Some columnId).

Definition handleTaskDragStart (taskId sourceColumnId : string) (currentIndex : Z)
  : M AppState unit :=
  setDraggedTask (Some (mkDraggedTask taskId sourceColumnId currentIndex)).

Definition handleTaskDragEnd : M AppState unit :=
  (setDraggedTask None ;; setDraggedColumn None)%handler.

(** The updater of [handleColumnDragOver]. *)
Definition reorder_columns (draggedColumn targetColumnId : string) (prev : Columns)
  : Columns :=
  let entries := JsObject.entries prev in
  let draggedIndex := JsArray.findIndex (fun kv => String.eqb (fst kv) draggedColumn) entries in
  let targetIndex := JsArray.findIndex (fun kv => String.eqb (fst kv) targetColumnId) entries in
  match draggedIndex, targetIndex with
  | Some di, Some ti =>
      let newEntries := entries in
      let '(removed, newEntries) := JsArray.splice (Z.of_nat di) 1 [] newEntries in
      match removed with
      | draggedEntry :: _ =>
          let '(_, newEntries) :=
            JsArray.splice (Z.of_nat ti) 0 [draggedEntry] newEntries in
          JsObject.fromEntries newEntries
      | [] => prev
      end
  | _, _ => prev
  end.

Definition handleColumnDragOver (cl : AppState) (targetColumnId : string)
  : M AppState unit :=
  match draggedColumn cl with
  | Some dragged =>
      if negb (truthy (Some dragged)) || String.eqb dragged targetColumnId
      then ret tt
      else setColumns (reorder_columns dragged targetColumnId)
  | None => ret tt
  end.

(** The updater of [handleTaskDragOver]; [sourceColumn], [targetColumn]
    and [updatedTask] are the values the handler computed from its
    closure before the request. *)
Definition move_task (draggedTaskId sourceColumnId targetColumnId : string)
  (targetIndex : Z) (sourceColumn targetColumn : Column.t) (updatedTask : Task.t)
  (prev : Columns) : Columns :=
  let newColumns := JsObject.spread prev in
  let newColumns :=
    JsObject.assign sourceColumnId
      (Column.with_tasks
         (filter (fun t => negb (Task.has_id draggedTaskId t)) (Column.tasks sourceColumn))
         sourceColumn)
      newColumns in
  let targetTasks := Column.tasks targetColumn in
  let '(_, targetTasks) := JsArray.splice targetIndex 0 [updatedTask] targetTasks in
  JsObject.assign targetColumnId (Column.with_tasks targetTasks targetColumn) newColumns.

(** [columns[sourceColumnId]] and [columns[targetColumnId]] are read
    through the prototype chain, so the guard lets an inherited name
    pass. With such a source, [sourceColumn.tasks] is [undefined] and
    [.find] throws before the [try]; with such a target the request is
    sent and the spread of [targetColumn.tasks] throws inside the
    updater. *)
Definition handleTaskDragOver (cl : AppState) (targetColumnId : string)
  (targetIndex : Z) (resp : response Task.t) : M AppState unit :=
  match draggedTask cl with
  | None => ret tt
  | Some dt =>
      let draggedTaskId := dragged_id dt in
      let sourceColumnId := sourceColumnId dt in
      match JsObject.lookup sourceColumnId (columns cl),
            JsObject.lookup targetColumnId (columns cl) with
      | JsObject.Undefined, _ | _, JsObject.Undefined => ret tt
      | JsObject.Inherited, _ => throw
      | JsObject.Own sourceColumn, targetColumn =>
          match find (Task.has_id draggedTaskId) (Column.tasks sourceColumn) with
          | None => ret tt
          | Some taskToMove =>
              let updatedTask := Task.with_columnId targetColumnId taskToMove in
              try_catch
                (await (UpdateTask updatedTask) resp ;;
                 match targetColumn with
                 | JsObject.Own targetColumn =>
                     setColumns
                       (move_task draggedTaskId sourceColumnId targetColumnId targetIndex
                          sourceColumn targetColumn updatedTask)
                 | _ => setColumns_partial (fun _ => None)
                 end)
                (console_error "Failed to move task:")
          end
      end
  end.

(** ** Selection *)

(** The effect with dependencies [selectedBoard] and [boards]. The board's
    [columns] is an object in every response of the server, so
    [board.columns || {}] is [board.columns]. *)
Definition selectedBoardEffect (cl : AppState) : M AppState unit :=
  if truthy (selectedBoard cl)
  then
    match find (fun b => opt_eqb (Some (Board.id b)) (selectedBoard cl)) (boards cl) with
    | Some board => setColumns (fun _ => Board.columns board)
    | None => ret tt
    end
  else ret tt.

(** [onSelectBoard={setSelectedBoard}], then the render that follows: the
    effect runs when [selectedBoard] is not the value of the previous
    render ([boards] is the same array). *)
Definition selectBoard (boardId : string) : M AppState unit :=
  fun st =>
    match setSelectedBoard (Some boardId) st with
    | (r, st1, l1) =>
        if opt_eqb (selectedBoard st) (selectedBoard st1)
        then (r, st1, l1)
        else match selectedBoardEffect st1 st1 with
             | (r2, st2, l2) => (r2, st2, l1 ++ l2)
             end
    end.

(** ** The handlers of [TaskDetails] *)

Definition setEditedTask (t : Task.t) : M DetailsState unit :=
  update_state EditedTask (fun s => mkDetails t (isSubmitting s)).

Definition setIsSubmitting (b : bool) : M DetailsState unit :=
  update_state IsSubmitting (fun s => mkDetails (editedTask s) b).

(** [onUpdate] is a property of the component: the call is an effect, and
    [App] passes [handleEditTask], whose promise never rejects. *)
Definition onUpdate (t : Task.t) : M DetailsState unit := emit (OnUpdate t).

(** [updatedFields] acts on the task as the spread [{ ...editedTask,
    ...updatedFields }] does. *)
Definition handleUpdate (cl : DetailsState) (updatedFields : Task.t -> Task.t)
  : M DetailsState unit :=
  if isSubmitting cl then ret tt
  else
    let updatedTask := updatedFields (editedTask cl) in
    (setEditedTask updatedTask ;;
     try_finally
       (try_catch
          (setIsSubmitting true ;; onUpdate updatedTask)
          (console_error "Failed to update task:" ;;
           alert "Failed to update task. Please try again."))
       (setIsSubmitting false))%handler.

(** [newAttachments] is the list built from the files, with their
    generated ids and object URLs; [uuid] and [now] are the values of
    [crypto.randomUUID()] and [new Date().toISOString()]. *)
Definition handleAddComment (cl : DetailsState) (content : string)
  (newAttachments : list Attachment.t) (uuid now : string)
  (resp : response Comment.t) : M DetailsState unit :=
  if isSubmitting cl then ret tt
  else
    let newComment :=
      Comment.mk uuid content (Task.memberId (editedTask cl)) now newAttachments
                 (Task.id (editedTask cl)) in
    try_finally
      (try_catch
         (setIsSubmitting true ;;
          savedComment <- await (CreateComment newComment) resp ;;
          let updatedTask :=
            Task.with_comments (Task.comments (editedTask cl) ++ [savedComment])
                               (editedTask cl) in
          setEditedTask updatedTask ;;
          onUpdate updatedTask)
         (console_error "Failed to add comment:" ;;
          alert "Failed to add comment. Please try again."))
      (setIsSubmitting false).

(** ** Running a handler *)

(** A handler invoked on the state of the current render. *)
Definition run {S A} (h : S -> M S A) (st : S) : result A * S * list event :=
  h st st.

Definition state_of {S A} (x : result A * S * list event) : S := snd (fst x).
Definition trace_of {S A} (x : result A * S * list event) : list event := snd x.

(** The mutations of [App] that reach the persistence collaborator, each
    with the outcome of its request. *)
Inductive mutation :=
| AddMember (member : TeamMember.t) (resp : response TeamMember.t)
| RemoveMember (id : string) (resp : response unit)
| AddBoard (uuid : string) (resp : response Board.t)
| EditBoard (boardId title : string) (resp : response unit)
| RemoveBoard (boardId : string) (resp : response unit)
| AddTask (columnId uuid today : string) (resp : response Task.t)
| EditTask (task : Task.t) (resp : response Task.t)
| RemoveTask (taskId : string) (resp : response unit)
| CopyTask (task : Task.t) (uuid : string) (resp : response Task.t)
| EditColumn (columnId title : string) (resp : response unit)
| RemoveColumn (columnId : string) (resp : response unit)
| AddColumn (uuid : string) (resp : response Column.t)
| MoveTask (targetColumnId : string) (targetIndex : Z) (resp : response Task.t).

Definition handler_of (m : mutation) (cl : AppState) : M AppState unit :=
  match m with
  | AddMember member resp => handleAddMember cl member resp
  | RemoveMember id resp => handleRemoveMember cl id resp
  | AddBoard uuid resp => handleAddBoard cl uuid resp
  | EditBoard boardId title resp => handleEditBoard boardId title resp
  | RemoveBoard boardId resp => handleRemoveBoard cl boardId resp
  | AddTask columnId uuid today resp => handleAddTask cl columnId uuid today resp
  | EditTask task resp => handleEditTask task resp
  | RemoveTask taskId resp => handleRemoveTask taskId resp
  | CopyTask task uuid resp => handleCopyTask task uuid resp
  | EditColumn columnId title resp => handleEditColumn columnId title resp
  | RemoveColumn columnId resp => handleRemoveColumn cl columnId resp
  | AddColumn uuid resp => handleAddColumn cl uuid resp
  | MoveTask targetColumnId targetIndex resp =>
      handleTaskDragOver cl targetColumnId targetIndex resp
  end.

Definition is_rejected {A} (r : response A) : bool :=
  match r with Rejected => true | Resolved _ => false end.

Definition rejected (m : mutation) : bool :=
  match m with
  | AddMember _ r => is_rejected r
  | RemoveMember _ r => is_rejected r
  | AddBoard _ r => is_rejected r
  | EditBoard _ _ r => is_rejected r
  | RemoveBoard _ r => is_rejected r
  | AddTask _ _ _ r => is_rejected r
  | EditTask _ r => is_rejected r
  | RemoveTask _ r => is_rejected r
  | CopyTask _ _ r => is_rejected r
  | EditColumn _ _ r => is_rejected r
  | RemoveColumn _ r => is_rejected r
  | AddColumn _ r => is_rejected r
  | MoveTask _ _ r => is_rejected r
  end.

Definition is_request (e : event) : bool :=
  match e with Request _ => true | _ => false end.
Definition is_update (e : event) : bool :=
  match e with SetState _ => true | _ => false end.
Definition is_error (e : event) : bool :=
  match e with ConsoleError _ => true | Alert _ => true | _ => false end.
Definition is_callback (e : event) : bool :=
  match e with OnUpdate _ => true | _ => false end.
Definition updates_of (v : state_var) (e : event) : bool :=
  match e, v with
  | SetState Members, Members | SetState Boards, Boards
  | SetState SelectedBoard, SelectedBoard | SetState ColumnsVar, ColumnsVar
  | SetState SelectedMember, SelectedMember
  | SetState DraggedColumnVar, DraggedColumnVar
  | SetState DraggedTaskVar, DraggedTaskVar
  | SetState SelectedTask, SelectedTask
  | SetState EditedTask, EditedTask | SetState IsSubmitting, IsSubmitting => true
  | _, _ => false
  end.

(** The part of a trace before its first request. *)
Fixpoint before_request (l : list event) : list event :=
  match l with
  | [] => []
  | e :: r => if is_request e then [] else e :: before_request r
  end.

(** Column drag gestures, for sequences of reorder operations. *)
Inductive column_gesture :=
| ColumnDragStart (columnId : string)
| ColumnDragOver (targetColumnId : string)
| DragEnd.

Definition gesture (g : column_gesture) (st : AppState) : AppState :=
  match g with
  | ColumnDragStart c => state_of (handleColumnDragStart c st)
  | ColumnDragOver t => state_of (run (fun cl => handleColumnDragOver cl t) st)
  | DragEnd => state_of (handleTaskDragEnd st)
  end.

Definition gestures (gs : list column_gesture) (st : AppState) : AppState :=
  fold_left (fun s g => gesture g s) gs st.

(** Task ids of a column's sequence, and the columns that hold a task id. *)
Definition task_ids (c : Column.t) : list string := map Task.id (Column.tasks c).

Definition holds_task (taskId : string) (c : Column.t) : bool :=
  existsb (Task.has_id taskId) (Column.tasks c).

Definition columns_holding (taskId : string) (cols : Columns) : list string :=
  JsObject.keys (filter (fun kv => holds_task taskId (snd kv)) cols).

(** Decidable well-formedness conditions on a state, for use as
    hypotheses. *)
Fixpoint distinct (l : list string) : bool :=
  match l with
  | [] => true
  | x :: r => negb (existsb (String.eqb x) r) && distinct r
  end.

(** The keys of an object are pairwise different. *)
Definition distinct_keys {V} (o : JsObject.t V) : bool := distinct (JsObject.keys o).

(** No key is an array index: own-property order is insertion order. *)
Definition plain_keys {V} (o : JsObject.t V) : bool :=
  forallb JsObject.plain_key (JsObject.keys o).

(** Every stored task names the column it is stored in. *)
Definition placedb (cols : Columns) : bool :=
  forallb
    (fun kv => forallb (fun t => String.eqb (Task.columnId t) (fst kv))
                       (Column.tasks (snd kv)))
    cols.

(** Removing the element at [i] and inserting [x] at [j] of what is left. *)
Definition move_to {A} (i j : nat) (l : list A) : list A :=
  match nth_error l i with
  | Some x =>
      let rest := firstn i l ++ skipn (S i) l in
      firstn j rest ++ x :: skipn j rest
  | None => l
  end.

(** ** Sample states *)

Module Sample.

Definition task (id columnId : string) : Task.t :=
  Task.mk id "Task" "" "m1" "2024-01-01" 1 columnId medium "m1" "b1" [].

Definition column (id : string) (ts : list Task.t) : Column.t :=
  Column.mk id id ts "b1".

Definition alice : TeamMember.t := TeamMember.mk "m1" "Alice" "#ff0000".
Definition bob : TeamMember.t := TeamMember.mk "m2" "Bob" "#00ff00".

(** The scenario of the specification: [todo = [T1, T2]], [doing = []]. *)
Definition two_columns : Columns :=
  [ ("todo", column "todo" [task "T1" "todo"; task "T2" "todo"]);
    ("doing", column "doing" []) ].

Definition busy_columns : Columns :=
  [ ("todo", column "todo" [task "T1" "todo"]);
    ("doing", column "doing" [task "A" "doing"; task "B" "doing"]) ].

Definition three_columns : Columns :=
  [ ("todo", column "todo" []);
    ("progress", column "progress" []);
    ("testing", column "testing" []) ].

(** Column ids that are array indices, next to one that is not. *)
Definition numbered_columns : Columns :=
  [ ("1", column "1" []); ("2", column "2" []); ("backlog", column "backlog" []) ].

(** One task and two empty columns to drag it over. *)
Definition lanes : Columns :=
  [ ("todo", column "todo" [task "T1" "todo"]);
    ("doing", column "doing" []);
    ("done", column "done" []) ].

Definition board1 : Board.t := Board.mk "b1" "Main Board" two_columns.
Definition board2 : Board.t := Board.mk "b2" "Second Board" three_columns.

Definition app (cols : Columns) : AppState :=
  mkApp [alice; bob] [board1; board2] (Some "b1") cols (Some "m1") None None None.

Definition dragging_column (c : string) (cols : Columns) : AppState :=
  mkApp [alice; bob] [board1; board2] (Some "b1") cols (Some "m1") (Some c) None None.

Definition dragging_task (taskId source : string) (cols : Columns) : AppState :=
  mkApp [alice; bob] [board1; board2] (Some "b1") cols (Some "m1") None
        (Some (mkDraggedTask taskId source 0)) None.

Definition one_board : AppState :=
  mkApp [alice] [board1] (Some "b1") two_columns (Some "m1") None None None.

Definition details : DetailsState := mkDetails (task "T1" "todo") false.

Definition comment : Comment.t :=
  Comment.mk "c1" "Looks good" "m1" "2024-01-02T00:00:00.000Z" [] "T1".

End Sample.

(** [a] directly followed by [b] in a sequence of ids. *)
Fixpoint immediately_before (a b : string) (l : list string) : bool :=
  match l with
  | x :: r =>
      match r with
      | y :: _ => (String.eqb x a && String.eqb y b) || immediately_before a b r
      | [] => false
      end
  | [] => false
  end.

(** ** Initial load and layout of [App] *)

(** The two requests of the initial load ([api.getMembers],
    [api.getBoards]). *)
Inductive fetch := GetMembers | GetBoards.

Inductive load_effect :=
| Fetch (f : fetch)
| Effect (e : event).

(** [loadInitialData]: both requests are issued, [Promise.all] rejects as
    soon as one of them does. *)
Definition loadInitialData (rm : response (list TeamMember.t))
  (rb : response (list Board.t)) (st : AppState)
  : result unit * AppState * list load_effect :=
  match rm, rb with
  | Resolved loadedMembers, Resolved loadedBoards =>
      match try_catch
              (setMembers (fun _ => loadedMembers) ;;
               setBoards (fun _ => loadedBoards) ;;
               if (0 <? length loadedBoards)%nat
               then b0 <- defined (hd_error loadedBoards) ;;
                    setSelectedBoard (Some (Board.id b0)) ;;
                    setColumns (fun _ => Board.columns b0)
               else ret tt)
              (console_error "Failed to load initial data:") st with
      | (r, st', l) => (r, st', Fetch GetMembers :: Fetch GetBoards :: map Effect l)
      end
  | _, _ =>
      (Ok tt, st,
       [Fetch GetMembers; Fetch GetBoards;
        Effect (ConsoleError "Failed to load initial data:")])
  end.

(** The render after a load that resolved: [boards] is a new array, so
    the effect on [selectedBoard] and [boards] runs. *)
Definition loadAndRender (rm : response (list TeamMember.t))
  (rb : response (list Board.t)) (st : AppState) : AppState :=
  let st1 := snd (fst (loadInitialData rm rb st)) in
  match rm, rb with
  | Resolved _, Resolved _ => state_of (selectedBoardEffect st1 st1)
  | _, _ => st1
  end.

(** [Object.keys(columns).length] and the number of grid columns. *)
Definition columnCount (cols : Columns) : nat := length (JsObject.keys cols).

Definition gridCols (cols : Columns) : nat :=
  if (columnCount cols <=? 4)%nat then 4%nat else Nat.min 6 (columnCount cols).

(** ** The column and card components *)

Module KanbanColumn.

(** [column.tasks.filter(task => task.boardId === column.boardId)] *)
Definition columnTasks (column : Column.t) : list Task.t :=
  filter (fun task => String.eqb (Task.boardId task) (Column.boardId column))
         (Column.tasks column).

(** [arr.map((x, index) => ...)]: the elements with their indices. *)
Fixpoint indexed {A} (i : nat) (l : list A) : list (nat * A) :=
  match l with
  | [] => []
  | x :: r => (i, x) :: indexed (S i) r
  end.

(** The cards of a column: the tasks of [columnTasks] whose assignee is
    a known member, each with its index in [columnTasks]. *)
Definition cards (members : list TeamMember.t) (column : Column.t)
  : list (nat * Task.t) :=
  filter
    (fun it => existsb (fun m => String.eqb (TeamMember.id m) (Task.memberId (snd it)))
                       members)
    (indexed 0 (columnTasks column)).

(** [handleDragStart] of the column; [onTaskCard] is
    [target.closest('.task-card')] being an element. *)
Definition handleDragStart (onTaskCard : bool) (column : Column.t) : M AppState unit :=
  if onTaskCard then ret tt else handleColumnDragStart (Column.id column).

Definition handleDragOver (cl : AppState) (onTaskCard : bool) (column : Column.t)
  : M AppState unit :=
  if negb onTaskCard then handleColumnDragOver cl (Column.id column) else ret tt.

(** [onDragOver] of the task area of the column. *)
Definition areaDragOver (cl : AppState) (column : Column.t) (resp : response Task.t)
  : M AppState unit :=
  if (length (columnTasks column) =? 0)%nat
  then handleTaskDragOver cl (Column.id column) 0%Z resp
  else ret tt.

(** [handleTaskDragOver] of the column, called by a card with its index. *)
Definition handleTaskDragOver (cl : AppState) (column : Column.t) (index : nat)
  (resp : response Task.t) : M AppState unit :=
  handleTaskDragOver cl (Column.id column) (Z.of_nat index) resp.

End KanbanColumn.

Module TaskCard.

(** [handleDragStart] of a card: the source column is the task's
    [columnId]. *)
Definition handleDragStart (task : Task.t) (index : nat) : M AppState unit :=
  handleTaskDragStart (Task.id task) (Task.columnId task) (Z.of_nat index).

End TaskCard.

(** ** The server: assembling the boards and logging the queries *)

Module Server.

Record ColumnRow := mkColumnRow { id : string; boardId : string; title : string }.
Record BoardRow := mkBoardRow { board_id : string; board_title : string }.

(** [columnsObj] of [GET /api/boards], from the rows of the columns query
    and the tasks of the tasks query (comments parsed). *)
Definition columnsObj (columns : list ColumnRow) (tasks : list Task.t) : Columns :=
  fold_left
    (fun obj column =>
       JsObject.assign (id column)
         (Column.mk (id column) (title column)
            (filter (fun task => String.eqb (Task.columnId task) (id column)) tasks)
            (boardId column))
         obj)
    columns JsObject.empty.

(** What [columnsObj] keeps: one property per key, each column stored
    under its id with the tasks that name it. *)
Definition assembled (tasks : list Task.t) (obj : Columns) : Prop :=
  NoDup (JsObject.keys obj) /\
  forall k c, In (k, c) obj ->
    Column.id c = k /\
    Column.tasks c = filter (fun task => String.eqb (Task.columnId task) k) tasks.

(** [boardsWithData]; [columnsStmt] and [tasksStmt] give the result of the
    two queries for a board id. *)
Definition boardsWithData (boards : list BoardRow)
  (columnsStmt : string -> list ColumnRow) (tasksStmt : string -> list Task.t)
  : list Board.t :=
  map (fun board =>
         Board.mk (board_id board) (board_title board)
           (columnsObj (columnsStmt (board_id board)) (tasksStmt (board_id board))))
      boards.

Record QueryLog := mkQueryLog {
  log_id : string;
  log_type : string;
  query : string;
  params : list string;
  error : option string;
  timestamp : string
}.

(** [queryLogs] and [queryId]. *)
Record LogState := mkLogState { queryLogs : list QueryLog; queryId : N }.

(** [queryId++] on a JavaScript number: exact up to 2^53, where adding 1
    no longer changes the value. *)
Definition increment (n : N) : N :=
  if (n <? 9007199254740992)%N then (n + 1)%N else n.

(** [`query-${queryId}`] *)
Definition query_id (n : N) : string :=
  "query-" ++ NilEmpty.string_of_uint (N.to_uint n).

Inductive method := Run | Get | All.

(** How the wrapped statement ends. *)
Inductive outcome (R : Type) :=
| Returned (r : R)
| Raised (message : string).
Arguments Returned {R} r.
Arguments Raised {R} message.

(** A call of a method of [wrapQuery(stmt, type)]: one entry is pushed,
    and the result is returned or the error thrown again. *)
Definition wrapQuery {R} (m : method) (type source : string) (params : list string)
  (o : outcome R) (now : string) (s : LogState) : outcome R * LogState :=
  let entry :=
    match o with
    | Returned _ =>
        mkQueryLog (query_id (queryId s))
          (match m with Run => type | Get => "SELECT" | All => "SELECT" end)
          source params None now
    | Raised message =>
        mkQueryLog (query_id (queryId s)) "ERROR" source params (Some message) now
    end in
  (o, mkLogState (queryLogs s ++ [entry]) (increment (queryId s))).

(** [POST /api/debug/logs/clear]: [queryLogs.length = 0]. *)
Definition clearLogs (s : LogState) : LogState := mkLogState [] (queryId s).

(** What happens to the log, one after the other. *)
Inductive log_step :=
| Query (m : method) (type source : string) (params : list string)
        (failure : option string) (now : string)
| Clear.

Definition log_step_run (s : LogState) (x : log_step) : LogState :=
  match x with
  | Query m type source params None now =>
      snd (wrapQuery m type source params (Returned tt) now s)
  | Query m type source params (Some message) now =>
      snd (wrapQuery (R := unit) m type source params (Raised message) now s)
  | Clear => clearLogs s
  end.

Definition log_steps (xs : list log_step) (s : LogState) : LogState :=
  fold_left log_step_run xs s.

(** The number of wrapped calls among the steps. *)
Definition queries (xs : list log_step) : nat :=
  length (filter (fun x => match x with Query _ _ _ _ _ _ => true | Clear => false end) xs).

(** The entries have pairwise different ids, all made from numbers below
    the counter. *)
Definition log_ok (s : LogState) : Prop :=
  NoDup (map log_id (queryLogs s)) /\
  forall e, In e (queryLogs s) ->
            exists n, (n < queryId s)%N /\ log_id e = query_id n.

End Server.

(** * Properties *)

(** Evaluation of a handler body by cases on the tests it makes. *)
Ltac unfold_monad :=
  unfold try_catch, try_finally, bind, ret, throw, await, defined, emit,
    console_error, alert, update_state, setMembers, setBoards, setSelectedBoard,
    setColumns, setSelectedMember, setColumns_partial in *.

Ltac run_handler :=
  unfold_monad;
  repeat (cbn;
          match goal with
          | |- context [match ?x with _ => _ end] =>
              lazymatch x with
              | context [match _ with _ => _ end] => fail
              | _ => destruct x eqn:?
              end
          end);
  cbn.

(** ** Lists and strings *)

Lemma distinct_NoDup (l : list string) : distinct l = true <-> NoDup l.
Proof.
  induction l as [|x r IH]; simpl.
  - split; [constructor | reflexivity].
  - rewrite andb_true_iff, negb_true_iff, IH. split.
    + intros [Hx Hr]. constructor; [|assumption].
      intros Hin. assert (E : existsb (String.eqb x) r = true).
      { apply existsb_exists. exists x. split; [assumption | apply String.eqb_refl]. }
      congruence.
    + intros H. inversion H as [|? ? Hx Hr]; subst. split; [|assumption].
      destruct (existsb (String.eqb x) r) eqn:E; [|reflexivity].
      apply existsb_exists in E. destruct E as [y [Hy Exy]].
      apply String.eqb_eq in Exy. subst y. contradiction.
Qed.

Lemma NoDup_singleton_In {A} (l : list A) (a : A) :
  NoDup l -> (forall x, In x l <-> x = a) -> l = [a].
Proof.
  intros Hnd Hin. destruct l as [|x r].
  - exfalso. apply (proj2 (Hin a) eq_refl).
  - assert (x = a) by (apply Hin; left; reflexivity). subst x.
    destruct r as [|y r']; [reflexivity|].
    assert (y = a) by (apply Hin; right; left; reflexivity). subst y.
    inversion Hnd as [|? ? Hx _]; subst. exfalso. apply Hx. left. reflexivity.
Qed.

(** ** Arrays *)

Section ArrayFacts.
Context {A : Type}.
Implicit Types (l : list A) (p : A -> bool).

Lemma relative_start_le (start : Z) (len : nat) :
  (JsArray.relative_start start len <= len)%nat.
Proof. unfold JsArray.relative_start. destruct (start <? 0)%Z eqn:E; lia. Qed.

Lemma relative_start_nat (i len : nat) :
  JsArray.relative_start (Z.of_nat i) len = Nat.min i len.
Proof.
  unfold JsArray.relative_start.
  destruct (Z.of_nat i <? 0)%Z eqn:E; [apply Z.ltb_lt in E; lia | lia].
Qed.

(** [splice(start, 0, x)] inserts [x] at the relative start. *)
Lemma splice_insert (start : Z) (x : A) l :
  snd (JsArray.splice start 0 [x] l) =
  firstn (JsArray.relative_start start (length l)) l
  ++ x :: skipn (JsArray.relative_start start (length l)) l.
Proof.
  unfold JsArray.splice. cbn [snd].
  replace (Z.to_nat (Z.min (Z.max 0 0) _)) with 0%nat by lia.
  rewrite Nat.add_0_r. reflexivity.
Qed.

(** [splice(i, 1)] at a valid index removes the element at [i]. *)
Lemma splice_remove (i : nat) (x : A) l :
  nth_error l i = Some x ->
  JsArray.splice (Z.of_nat i) 1 [] l = ([x], firstn i l ++ skipn (S i) l).
Proof.
  intros Hx. assert (Hlt : (i < length l)%nat) by (apply nth_error_Some; congruence).
  unfold JsArray.splice. rewrite relative_start_nat.
  replace (Nat.min i (length l)) with i by lia.
  replace (Z.to_nat (Z.min (Z.max 1 0) (Z.of_nat (length l - i)))) with 1%nat by lia.
  replace (i + 1)%nat with (S i) by lia. f_equal.
  clear Hlt. revert i Hx. induction l as [|y r IH]; intros [|i] Hx; simpl in *;
    try discriminate.
  - injection Hx as ->. reflexivity.
  - apply IH. assumption.
Qed.

Lemma findIndex_Some p l (i : nat) :
  JsArray.findIndex p l = Some i ->
  exists x, nth_error l i = Some x /\ p x = true /\
            forall j y, (j < i)%nat -> nth_error l j = Some y -> p y = false.
Proof.
  revert i. induction l as [|a r IH]; intros i H; simpl in H; [discriminate|].
  destruct (p a) eqn:Ea.
  - injection H as <-. exists a. repeat split; [assumption | intros; lia].
  - destruct (JsArray.findIndex p r) as [i'|] eqn:Er; [|discriminate].
    injection H as <-. destruct (IH i' eq_refl) as [x [Hx [Hp Hmin]]].
    exists x. repeat split; try assumption.
    intros [|j] y Hj Hy; simpl in Hy.
    + injection Hy as <-. assumption.
    + apply (Hmin j); [lia | assumption].
Qed.

Lemma findIndex_None p l :
  JsArray.findIndex p l = None <-> forall x, In x l -> p x = false.
Proof.
  induction l as [|a r IH]; simpl.
  - split; [intros _ x [] | reflexivity].
  - destruct (p a) eqn:Ea.
    + split; [discriminate|]. intros H. specialize (H a (or_introl eq_refl)). congruence.
    + destruct (JsArray.findIndex p r) eqn:Er; simpl.
      * split; [discriminate|]. intros H.
        assert (Some n = None) as C; [|discriminate].
        apply IH. intros x Hx. apply H. right. assumption.
      * split; [|reflexivity]. intros _ x [<-|Hx]; [assumption|].
        apply (proj1 IH eq_refl). assumption.
Qed.

End ArrayFacts.

(** ** Objects *)

Section ObjectFacts.
Context {V : Type}.
Implicit Types (o : JsObject.t V) (k : string) (v : V).

Lemma get_In k v o : JsObject.get k o = Some v -> In (k, v) o.
Proof.
  induction o as [|[k' v'] r IH]; simpl; [discriminate|].
  destruct (String.eqb_spec k' k) as [->|Hne].
  - intros [= ->]. left. reflexivity.
  - intros H. right. apply IH. assumption.
Qed.

Lemma get_None k o : JsObject.get k o = None <-> ~ In k (JsObject.keys o).
Proof.
  induction o as [|[k' v'] r IH]; simpl.
  - split; [intros _ [] | reflexivity].
  - destruct (String.eqb_spec k' k) as [->|Hne].
    + split; [discriminate|]. intros H. exfalso. apply H. left. reflexivity.
    + rewrite IH. split; intros H; [intros [?|?]; [congruence|contradiction]|].
      intros Hin. apply H. right. assumption.
Qed.

Lemma In_get k v o : NoDup (JsObject.keys o) -> In (k, v) o -> JsObject.get k o = Some v.
Proof.
  induction o as [|[k' v'] r IH]; simpl; intros Hnd Hin; [contradiction|].
  inversion Hnd as [|? ? Hk Hr]; subst.
  destruct Hin as [[= -> ->]|Hin].
  - rewrite String.eqb_refl. reflexivity.
  - destruct (String.eqb_spec k' k) as [->|Hne].
    + exfalso. apply Hk. apply (in_map fst) in Hin. exact Hin.
    + apply IH; assumption.
Qed.

Lemma keys_update k v o : JsObject.keys (JsObject.update k v o) = JsObject.keys o.
Proof.
  induction o as [|[k' v'] r IH]; simpl; [reflexivity|].
  destruct (String.eqb_spec k' k) as [->|Hne]; simpl; [reflexivity|].
  f_equal. exact IH.
Qed.

Lemma set_existing k v o c :
  JsObject.get k o = Some c -> JsObject.set k v o = JsObject.update k v o.
Proof. intros H. unfold JsObject.set, JsObject.has. rewrite H. reflexivity. Qed.

Lemma assign_existing k v o c :
  JsObject.get k o = Some c -> JsObject.assign k v o = JsObject.update k v o.
Proof.
  intros H. unfold JsObject.assign, JsObject.set, JsObject.has. rewrite H.
  rewrite Bool.andb_false_r. reflexivity.
Qed.

Lemma lookup_own k (o : Columns) c :
  JsObject.get k o = Some c -> JsObject.lookup k o = JsObject.Own c.
Proof. intros H. unfold JsObject.lookup. rewrite H. reflexivity. Qed.

Lemma lookup_Own_get k (o : Columns) c :
  JsObject.lookup k o = JsObject.Own c <-> JsObject.get k o = Some c.
Proof.
  unfold JsObject.lookup. destruct (JsObject.get k o) as [v|].
  - split; intros H; injection H as ->; reflexivity.
  - destruct (JsObject.inherited k); split; discriminate.
Qed.

Lemma get_update_same k v o c :
  JsObject.get k o = Some c -> JsObject.get k (JsObject.update k v o) = Some v.
Proof.
  induction o as [|[k' v'] r IH]; simpl; [discriminate|].
  destruct (String.eqb_spec k' k) as [->|Hne]; simpl.
  - intros _. rewrite String.eqb_refl. reflexivity.
  - intros H. destruct (String.eqb_spec k' k); [contradiction|]. apply IH. assumption.
Qed.

Lemma get_update_other k k' v o :
  k' <> k -> JsObject.get k' (JsObject.update k v o) = JsObject.get k' o.
Proof.
  intros Hne. induction o as [|[k0 v0] r IH]; simpl; [reflexivity|].
  destruct (String.eqb_spec k0 k) as [->|Hk]; simpl.
  - destruct (String.eqb_spec k k'); [congruence | reflexivity].
  - destruct (String.eqb_spec k0 k'); [reflexivity | exact IH].
Qed.

(** With pairwise different keys, an update replaces exactly the entry
    of its key. *)
Lemma In_update k v o k' v' :
  NoDup (JsObject.keys o) ->
  In (k', v') (JsObject.update k v o) <->
  (k' = k /\ v' = v /\ In k (JsObject.keys o)) \/ (k' <> k /\ In (k', v') o).
Proof.
  induction o as [|[k0 v0] r IH]; simpl; intros Hnd.
  - split; [intros [] | intros [[_ [_ []]]|[_ []]]].
  - inversion Hnd as [|? ? Hk Hr]; subst.
    destruct (String.eqb_spec k0 k) as [->|Hne]; simpl.
    + split.
      * intros [[= <- <-]|Hin]; [left; auto|].
        right. split; [|right; assumption].
        intros ->. apply Hk. apply (in_map fst) in Hin. exact Hin.
      * intros [[-> [-> _]]|[Hne [[= E1 E2]|Hin]]]; [left; reflexivity | congruence | right; assumption].
    + rewrite (IH Hr). split.
      * intros [[= <- <-]|[[-> [-> Hin]]|[Hne' Hin]]].
        -- right. split; [assumption | left; reflexivity].
        -- left. auto.
        -- right. auto.
      * intros [[-> [-> [E|Hin]]]|[Hne' [[= <- <-]|Hin]]].
        -- congruence.
        -- right. left. auto.
        -- left. reflexivity.
        -- right. right. auto.
Qed.

(** A new key is added without disturbing the other entries. *)
Lemma insert_index_perm (n : N) k v o :
  Permutation (JsObject.insert_index n k v o) ((k, v) :: o).
Proof.
  induction o as [|[k0 v0] r IH]; simpl; [reflexivity|].
  destruct (JsObject.array_index k0) as [m|]; [|reflexivity].
  destruct (m <? n)%N; [|reflexivity].
  rewrite IH. apply perm_swap.
Qed.

Lemma set_new_perm k v o :
  JsObject.get k o = None -> Permutation (JsObject.set k v o) (o ++ [(k, v)]).
Proof.
  intros H. unfold JsObject.set, JsObject.has. rewrite H.
  destruct (JsObject.array_index k) as [n|]; [|reflexivity].
  rewrite insert_index_perm. apply Permutation_cons_append.
Qed.

Lemma set_new_plain k v o :
  JsObject.get k o = None -> JsObject.plain_key k = true ->
  JsObject.set k v o = o ++ [(k, v)].
Proof.
  intros H Hp. unfold JsObject.set, JsObject.has. rewrite H.
  unfold JsObject.plain_key in Hp.
  destruct (JsObject.array_index k); [discriminate | reflexivity].
Qed.

Lemma fold_set_perm (l : list (string * V)) : forall acc,
  NoDup (JsObject.keys (acc ++ l)) ->
  Permutation (fold_left (fun o kv => JsObject.set (fst kv) (snd kv) o) l acc) (acc ++ l).
Proof.
  induction l as [|[k v] r IH]; intros acc Hnd; simpl.
  - rewrite app_nil_r. reflexivity.
  - assert (Hk : JsObject.get k acc = None).
    { apply get_None. unfold JsObject.keys in *. rewrite map_app in Hnd. simpl in Hnd.
      apply NoDup_remove_2 in Hnd. intros Hin. apply Hnd. apply in_or_app. left. exact Hin. }
    pose proof (set_new_perm k v acc Hk) as Hp.
    rewrite IH.
    + rewrite Hp. rewrite <- app_assoc. reflexivity.
    + unfold JsObject.keys in *.
      apply (Permutation_NoDup (l := map fst (acc ++ (k, v) :: r))); [|assumption].
      apply Permutation_map. change ((k, v) :: r) with ([(k, v)] ++ r).
      rewrite app_assoc. apply Permutation_app_tail. symmetry. exact Hp.
Qed.

(** [Object.fromEntries] keeps the entries, whatever the keys. *)
Lemma fromEntries_perm (l : list (string * V)) :
  NoDup (JsObject.keys l) -> Permutation (JsObject.fromEntries l) l.
Proof. intros H. apply (fold_set_perm l []). exact H. Qed.

Lemma fold_set_plain (l : list (string * V)) : forall acc,
  NoDup (JsObject.keys (acc ++ l)) ->
  forallb JsObject.plain_key (JsObject.keys l) = true ->
  fold_left (fun o kv => JsObject.set (fst kv) (snd kv) o) l acc = acc ++ l.
Proof.
  induction l as [|[k v] r IH]; intros acc Hnd Hpl; simpl.
  - rewrite app_nil_r. reflexivity.
  - simpl in Hpl. apply andb_true_iff in Hpl. destruct Hpl as [Hk Hr].
    assert (Hg : JsObject.get k acc = None).
    { apply get_None. unfold JsObject.keys in *. rewrite map_app in Hnd. simpl in Hnd.
      apply NoDup_remove_2 in Hnd. intros Hin. apply Hnd. apply in_or_app. left. exact Hin. }
    rewrite (set_new_plain k v acc Hg Hk).
    rewrite IH; [rewrite <- app_assoc; reflexivity | | exact Hr].
    rewrite <- app_assoc. exact Hnd.
Qed.

(** With no array-index key, [Object.fromEntries] keeps the order too. *)
Lemma fromEntries_plain (l : list (string * V)) :
  NoDup (JsObject.keys l) -> forallb JsObject.plain_key (JsObject.keys l) = true ->
  JsObject.fromEntries l = l.
Proof. intros Hnd Hpl. apply (fold_set_plain l [] Hnd Hpl). Qed.

End ObjectFacts.

(** ** Moving one element of a list *)

Section MoveFacts.
Context {A : Type}.
Implicit Types (l : list A).

Lemma nth_error_without (i n : nat) l :
  nth_error (firstn i l ++ skipn (S i) l) n =
  if (n <? i)%nat then nth_error l n else nth_error l (S n).
Proof.
  destruct (Nat.ltb_spec n i) as [Hlt|Hge].
  - destruct (Nat.le_gt_cases (length l) n) as [Hout|Hin].
    + rewrite (proj2 (nth_error_None l n) Hout). apply nth_error_None.
      rewrite length_app, length_firstn, length_skipn. lia.
    + rewrite nth_error_app1 by (rewrite length_firstn; lia).
      rewrite nth_error_firstn. destruct (Nat.ltb_spec n i); [reflexivity | lia].
  - destruct (Nat.le_gt_cases (length l) i) as [Hout|Hin].
    + rewrite (proj2 (nth_error_None l (S n))) by lia. apply nth_error_None.
      rewrite length_app, length_firstn, length_skipn. lia.
    + rewrite nth_error_app2 by (rewrite length_firstn; lia).
      rewrite nth_error_skipn, length_firstn. f_equal. lia.
Qed.

Lemma nth_error_inserted (j n : nat) (x : A) l :
  (j <= length l)%nat ->
  nth_error (firstn j l ++ x :: skipn j l) n =
  if (n <? j)%nat then nth_error l n
  else if (n =? j)%nat then Some x else nth_error l (n - 1).
Proof.
  intros Hj. destruct (Nat.ltb_spec n j) as [Hlt|Hge].
  - rewrite nth_error_app1 by (rewrite length_firstn; lia).
    rewrite nth_error_firstn. destruct (Nat.ltb_spec n j); [reflexivity | lia].
  - rewrite nth_error_app2 by (rewrite length_firstn; lia).
    rewrite length_firstn. replace (Nat.min j (length l)) with j by lia.
    destruct (Nat.eqb_spec n j) as [->|Hne].
    + rewrite Nat.sub_diag. reflexivity.
    + destruct (n - j)%nat as [|d] eqn:E; [lia|]. simpl.
      rewrite nth_error_skipn. f_equal. lia.
Qed.

Lemma length_without (i : nat) (x : A) l :
  nth_error l i = Some x -> length (firstn i l ++ skipn (S i) l) = (length l - 1)%nat.
Proof.
  intros H. assert ((i < length l)%nat) by (apply nth_error_Some; congruence).
  rewrite length_app, length_firstn, length_skipn. lia.
Qed.

Lemma without_perm (i : nat) (x : A) l :
  nth_error l i = Some x -> Permutation (x :: firstn i l ++ skipn (S i) l) l.
Proof.
  intros H. destruct (nth_error_split l i H) as [l1 [l2 [-> Hlen]]]. subst i.
  assert (E : firstn (length l1) (l1 ++ x :: l2)
              ++ skipn (S (length l1)) (l1 ++ x :: l2) = l1 ++ l2).
  { clear H. induction l1 as [|a r IH]; simpl; [reflexivity | f_equal; exact IH]. }
  rewrite E. apply Permutation_middle.
Qed.

Lemma move_to_perm (i j : nat) l : Permutation (move_to i j l) l.
Proof.
  unfold move_to. destruct (nth_error l i) as [x|] eqn:Hx; [|reflexivity].
  rewrite <- Permutation_middle, firstn_skipn. apply without_perm. exact Hx.
Qed.

(** Where the moved element and the element that was at the target
    index end up. *)
Lemma move_to_positions (i j : nat) (x y : A) l :
  nth_error l i = Some x -> nth_error l j = Some y -> i <> j ->
  nth_error (move_to i j l) j = Some x /\
  ((j < i)%nat -> nth_error (move_to i j l) (S j) = Some y) /\
  ((i < j)%nat -> nth_error (move_to i j l) (j - 1) = Some y).
Proof.
  intros Hx Hy Hne. unfold move_to. rewrite Hx.
  assert (Hi : (i < length l)%nat) by (apply nth_error_Some; congruence).
  assert (Hj : (j < length l)%nat) by (apply nth_error_Some; congruence).
  pose proof (length_without i x l Hx) as Hlen.
  repeat split.
  - rewrite nth_error_inserted by lia.
    destruct (Nat.ltb_spec j j); [lia|]. rewrite Nat.eqb_refl. reflexivity.
  - intros Hlt. rewrite nth_error_inserted by lia.
    destruct (Nat.ltb_spec (S j) j); [lia|].
    destruct (Nat.eqb_spec (S j) j); [lia|].
    rewrite nth_error_without. simpl. rewrite Nat.sub_0_r.
    destruct (Nat.ltb_spec j i); [exact Hy | lia].
  - intros Hlt. rewrite nth_error_inserted by lia.
    destruct (Nat.ltb_spec (j - 1) j); [|lia].
    rewrite nth_error_without.
    destruct (Nat.ltb_spec (j - 1) i); [lia|].
    replace (S (j - 1)) with j by lia. exact Hy.
Qed.

End MoveFacts.

(** ** Column reorder *)

Lemma findIndex_key_Some {V} (k : string) (o : JsObject.t V) (i : nat) :
  JsArray.findIndex (fun kv => String.eqb (fst kv) k) o = Some i ->
  exists v, nth_error o i = Some (k, v).
Proof.
  intros H. destruct (findIndex_Some _ _ _ H) as [[k' v] [Hn [Hk _]]].
  simpl in Hk. apply String.eqb_eq in Hk. subst k'. exists v. exact Hn.
Qed.

Lemma findIndex_key_None {V} (k : string) (o : JsObject.t V) :
  JsArray.findIndex (fun kv => String.eqb (fst kv) k) o = None <->
  JsObject.get k o = None.
Proof.
  rewrite findIndex_None, get_None. split.
  - intros H Hin. apply in_map_iff in Hin. destruct Hin as [[k' v] [E Hin]].
    simpl in E. subst k'. specialize (H _ Hin). simpl in H.
    rewrite String.eqb_refl in H. discriminate.
  - intros H [k' v] Hin. simpl. destruct (String.eqb_spec k' k) as [->|]; [|reflexivity].
    exfalso. apply H. apply (in_map fst) in Hin. exact Hin.
Qed.

(** When both columns are found, the updater moves the dragged entry to
    the index of the target and rebuilds the object. *)
Lemma reorder_columns_found (dragged target : string) (prev : Columns) (di ti : nat) :
  JsArray.findIndex (fun kv => String.eqb (fst kv) dragged) prev = Some di ->
  JsArray.findIndex (fun kv => String.eqb (fst kv) target) prev = Some ti ->
  reorder_columns dragged target prev = JsObject.fromEntries (move_to di ti prev).
Proof.
  intros Hd Ht. unfold reorder_columns, JsObject.entries. rewrite Hd, Ht.
  destruct (findIndex_key_Some _ _ _ Hd) as [vd Hvd].
  destruct (findIndex_key_Some _ _ _ Ht) as [vt Hvt].
  rewrite (splice_remove di _ prev Hvd).
  pose proof (splice_insert (Z.of_nat ti) (dragged, vd)
                (firstn di prev ++ skipn (S di) prev)) as Hs.
  destruct (JsArray.splice (Z.of_nat ti) 0 [(dragged, vd)]
              (firstn di prev ++ skipn (S di) prev)) as [rm ne].
  cbn [snd] in Hs. subst ne. f_equal.
  unfold move_to. rewrite Hvd. rewrite relative_start_nat.
  rewrite (length_without di _ prev Hvd).
  assert ((ti < length prev)%nat) by (apply nth_error_Some; congruence).
  replace (Nat.min ti (length prev - 1)) with ti by lia. reflexivity.
Qed.

Lemma reorder_columns_absent (dragged target : string) (prev : Columns) :
  JsObject.get dragged prev = None \/ JsObject.get target prev = None ->
  reorder_columns dragged target prev = prev.
Proof.
  intros H. unfold reorder_columns, JsObject.entries.
  destruct H as [H|H]; apply findIndex_key_None in H; rewrite H.
  - reflexivity.
  - clear H. destruct (JsArray.findIndex _ prev); reflexivity.
Qed.

Lemma reorder_columns_perm (dragged target : string) (prev : Columns) :
  NoDup (JsObject.keys prev) ->
  Permutation (reorder_columns dragged target prev) prev.
Proof.
  intros Hnd.
  destruct (JsArray.findIndex (fun kv => String.eqb (fst kv) dragged) prev) as [di|] eqn:Hd.
  - destruct (JsArray.findIndex (fun kv => String.eqb (fst kv) target) prev) as [ti|] eqn:Ht.
    + rewrite (reorder_columns_found _ _ _ _ _ Hd Ht).
      rewrite fromEntries_perm; [apply move_to_perm|].
      apply (Permutation_NoDup (l := JsObject.keys prev)); [|exact Hnd].
      apply Permutation_map. symmetry. apply move_to_perm.
    + rewrite reorder_columns_absent; [reflexivity|].
      right. apply findIndex_key_None. exact Ht.
  - rewrite reorder_columns_absent; [reflexivity|].
    left. apply findIndex_key_None. exact Hd.
Qed.

Lemma columns_after_drag_over (st : AppState) (target : string) :
  columns (state_of (run (fun cl => handleColumnDragOver cl target) st)) =
  match draggedColumn st with
  | Some d =>
      if String.eqb d "" || String.eqb d target then columns st
      else reorder_columns d target (columns st)
  | None => columns st
  end.
Proof.
  unfold run, handleColumnDragOver, state_of, truthy.
  destruct (draggedColumn st) as [d|]; [|reflexivity].
  rewrite negb_involutive.
  destruct (String.eqb d "" || String.eqb d target); reflexivity.
Qed.

Lemma findIndex_of_key {V} (o : JsObject.t V) (k : string) (i : nat) :
  NoDup (JsObject.keys o) -> nth_error (JsObject.keys o) i = Some k ->
  JsArray.findIndex (fun kv => String.eqb (fst kv) k) o = Some i.
Proof.
  intros Hnd Hi.
  destruct (JsArray.findIndex (fun kv => String.eqb (fst kv) k) o) as [j|] eqn:E.
  - destruct (findIndex_key_Some _ _ _ E) as [v Hv].
    assert (Hj : nth_error (JsObject.keys o) j = Some k).
    { unfold JsObject.keys. rewrite nth_error_map, Hv. reflexivity. }
    f_equal. symmetry. apply (proj1 (NoDup_nth_error (JsObject.keys o)) Hnd).
    + apply nth_error_Some. congruence.
    + congruence.
  - exfalso. apply findIndex_key_None in E. apply get_None in E.
    apply E. apply nth_error_In with i. exact Hi.
Qed.

Lemma gesture_perm (g : column_gesture) (st : AppState) :
  NoDup (JsObject.keys (columns st)) ->
  Permutation (columns (gesture g st)) (columns st).
Proof.
  intros Hnd. destruct g as [c|t|]; simpl; try reflexivity.
  rewrite columns_after_drag_over.
  destruct (draggedColumn st) as [d|]; [|reflexivity].
  destruct (String.eqb d "" || String.eqb d t); [reflexivity|].
  apply reorder_columns_perm. exact Hnd.
Qed.

(** C6. Whatever sequence of column drag gestures is applied (drag
    start, drag over a target column, drag end), the resulting column
    collection is a permutation of the original entries (column id,
    column value): no column is created, duplicated or lost. *)
Theorem column_reorders_permute (gs : list column_gesture) (st : AppState) :
  distinct_keys (columns st) = true ->
  Permutation (columns (gestures gs st)) (columns st).
Proof.
  intros Hd. apply distinct_NoDup in Hd. unfold gestures.
  revert st Hd. induction gs as [|g gs IH]; intros st Hd; simpl.
  - reflexivity.
  - pose proof (gesture_perm g st Hd) as Hg.
    rewrite IH; [exact Hg|].
    apply (Permutation_NoDup (l := JsObject.keys (columns st))); [|exact Hd].
    apply Permutation_map. symmetry. exact Hg.
Qed.

(** C5 (as amended). A column drag-over leaves the column sequence as it
    is when no column is being dragged, when the dragged id equals the
    target id, or when either id is not a key of the collection.
    Otherwise, for column ids none of which is an array index, the
    dragged column is removed and reinserted at the index the target
    column occupied: the target column comes right after it when the
    dragged column was behind the target, and right before it when the
    dragged column was ahead of the target. *)
Theorem column_drag_over_takes_target_index (st : AppState) (target : string) :
  let st' := state_of (run (fun cl => handleColumnDragOver cl target) st) in
  (draggedColumn st = None \/ draggedColumn st = Some target \/
   (exists d, draggedColumn st = Some d /\
              (JsObject.get d (columns st) = None \/
               JsObject.get target (columns st) = None)) ->
   columns st' = columns st) /\
  (forall (dragged : string) (di ti : nat),
     draggedColumn st = Some dragged ->
     distinct_keys (columns st) = true ->
     plain_keys (columns st) = true ->
     nth_error (JsObject.keys (columns st)) di = Some dragged ->
     nth_error (JsObject.keys (columns st)) ti = Some target ->
     dragged <> target -> dragged <> "" ->
     columns st' = move_to di ti (columns st) /\
     nth_error (JsObject.keys (columns st')) ti = Some dragged /\
     ((ti < di)%nat -> nth_error (JsObject.keys (columns st')) (S ti) = Some target) /\
     ((di < ti)%nat -> nth_error (JsObject.keys (columns st')) (ti - 1) = Some target)).
Proof.
  intros st'. subst st'. rewrite columns_after_drag_over. split.
  - intros [H|[H|[d [H Habs]]]]; rewrite H; try reflexivity.
    + rewrite String.eqb_refl, orb_true_r. reflexivity.
    + destruct (String.eqb d "" || String.eqb d target); [reflexivity|].
      apply reorder_columns_absent. exact Habs.
  - intros dragged di ti Hdr Hdist Hplain Hdi Hti Hne Hnz. rewrite Hdr.
    apply distinct_NoDup in Hdist.
    destruct (String.eqb_spec dragged ""); [contradiction|].
    destruct (String.eqb_spec dragged target); [contradiction|]. cbn [orb].
    rewrite (reorder_columns_found dragged target (columns st) di ti)
      by (apply findIndex_of_key; assumption).
    assert (Hperm : Permutation (move_to di ti (columns st)) (columns st))
      by apply move_to_perm.
    rewrite fromEntries_plain.
    + split; [reflexivity|].
      assert (Hidx : di <> ti) by (intros ->; congruence).
      unfold JsObject.keys in *. rewrite nth_error_map in Hdi, Hti.
      destruct (nth_error (columns st) di) as [[kd vd]|] eqn:Ed; [|discriminate].
      destruct (nth_error (columns st) ti) as [[kt vt]|] eqn:Et; [|discriminate].
      simpl in Hdi, Hti. injection Hdi as ->. injection Hti as ->.
      destruct (move_to_positions di ti _ _ (columns st) Ed Et Hidx) as [P1 [P2 P3]].
      repeat split; intros; rewrite nth_error_map.
      * rewrite P1. reflexivity.
      * rewrite P2 by assumption. reflexivity.
      * rewrite P3 by assumption. reflexivity.
    + apply (Permutation_NoDup (l := JsObject.keys (columns st))); [|exact Hdist].
      apply Permutation_map. symmetry. exact Hperm.
    + unfold plain_keys in Hplain. rewrite forallb_forall in *.
      intros k Hk. apply Hplain.
      apply (Permutation_in k (Permutation_map fst Hperm)). exact Hk.
Qed.

(** ** Task drag-over *)

Lemma holds_task_In (taskId : string) (c : Column.t) :
  holds_task taskId c = true <->
  exists t, In t (Column.tasks c) /\ Task.id t = taskId.
Proof.
  unfold holds_task. rewrite existsb_exists. unfold Task.has_id.
  split; intros [t [Hin E]]; exists t; (split; [exact Hin|]);
    apply String.eqb_eq; exact E.
Qed.

Lemma In_columns_holding (taskId k : string) (cols : Columns) :
  In k (columns_holding taskId cols) <->
  exists c, In (k, c) cols /\ holds_task taskId c = true.
Proof.
  unfold columns_holding, JsObject.keys. rewrite in_map_iff. split.
  - intros [[k' c] [E Hin]]. simpl in E. subst k'.
    apply filter_In in Hin. exists c. exact Hin.
  - intros [c H]. exists (k, c). split; [reflexivity|]. apply filter_In. exact H.
Qed.

Lemma NoDup_keys_filter {V} (p : string * V -> bool) (o : JsObject.t V) :
  NoDup (JsObject.keys o) -> NoDup (JsObject.keys (filter p o)).
Proof.
  unfold JsObject.keys. induction o as [|kv r IH]; simpl; intros Hnd; [constructor|].
  inversion Hnd as [|? ? Hk Hr]; subst.
  destruct (p kv); simpl; [|apply IH; exact Hr].
  constructor; [|apply IH; exact Hr].
  intros Hin. apply Hk. apply in_map_iff in Hin. destruct Hin as [x [E Hx]].
  apply filter_In in Hx. apply in_map_iff. exists x. tauto.
Qed.

Lemma placedb_In (cols : Columns) (k : string) (c : Column.t) (t : Task.t) :
  placedb cols = true -> In (k, c) cols -> In t (Column.tasks c) ->
  Task.columnId t = k.
Proof.
  unfold placedb. rewrite forallb_forall. intros H Hc Ht.
  specialize (H _ Hc). simpl in H. rewrite forallb_forall in H.
  apply String.eqb_eq. apply H. exact Ht.
Qed.

Lemma filter_drops_task (taskId : string) (c : Column.t) :
  holds_task taskId
    (Column.with_tasks
       (filter (fun t => negb (Task.has_id taskId t)) (Column.tasks c)) c) = false.
Proof.
  destruct (holds_task taskId _) eqn:E; [|reflexivity].
  apply holds_task_In in E. destruct E as [t [Hin Hid]]. simpl in Hin.
  apply filter_In in Hin. destruct Hin as [_ Hn].
  unfold Task.has_id in Hn. rewrite Hid, String.eqb_refl in Hn. discriminate.
Qed.

(** The two assignments of the updater, when both columns are keys of
    the state it is applied to. *)
Lemma move_task_updates (taskId source target : string) (idx : Z)
  (src tgt : Column.t) (updated : Task.t) (prev : Columns) (c1 c2 : Column.t) :
  JsObject.get source prev = Some c1 -> JsObject.get target prev = Some c2 ->
  move_task taskId source target idx src tgt updated prev =
  JsObject.update target
    (Column.with_tasks
       (firstn (JsArray.relative_start idx (length (Column.tasks tgt))) (Column.tasks tgt)
        ++ updated
        :: skipn (JsArray.relative_start idx (length (Column.tasks tgt))) (Column.tasks tgt))
       tgt)
    (JsObject.update source
       (Column.with_tasks
          (filter (fun t => negb (Task.has_id taskId t)) (Column.tasks src)) src)
       prev).
Proof.
  intros Hs Ht. unfold move_task, JsObject.spread.
  pose proof (splice_insert idx updated (Column.tasks tgt)) as Hsp.
  destruct (JsArray.splice idx 0 [updated] (Column.tasks tgt)) as [rm tt'].
  cbn [snd] in Hsp. subst tt'.
  rewrite (assign_existing source _ prev c1 Hs).
  destruct (String.eqb_spec target source) as [->|Hne].
  - erewrite assign_existing; [reflexivity|].
    apply (get_update_same source _ prev c1 Hs).
  - erewrite assign_existing; [reflexivity|].
    rewrite get_update_other by exact Hne. exact Ht.
Qed.

(** What the handler does when the dragged task is found and the
    request succeeds. *)
Lemma task_drag_over_resolved (st : AppState) (target : string) (idx : Z)
  (resp : Task.t) (dt : DraggedTask) (src tgt : Column.t) (tk : Task.t) :
  draggedTask st = Some dt ->
  JsObject.get (sourceColumnId dt) (columns st) = Some src ->
  JsObject.get target (columns st) = Some tgt ->
  find (Task.has_id (dragged_id dt)) (Column.tasks src) = Some tk ->
  run (fun cl => handleTaskDragOver cl target idx (Resolved resp)) st =
  (Ok tt,
   mkApp (members st) (boards st) (selectedBoard st)
     (move_task (dragged_id dt) (sourceColumnId dt) target idx src tgt
        (Task.with_columnId target tk) (columns st))
     (selectedMember st) (draggedColumn st) (draggedTask st) (selectedTask st),
   [Request (UpdateTask (Task.with_columnId target tk)); SetState ColumnsVar]).
Proof.
  intros Hdt Hs Ht Hf. unfold run, handleTaskDragOver.
  destruct (draggedTask st) as [dt'|] eqn:E; [|discriminate].
  injection Hdt as ->. rewrite (lookup_own _ _ _ Hs), (lookup_own _ _ _ Ht), Hf.
  try rewrite <- E. reflexivity.
Qed.

Lemma task_drag_over_rejected (st : AppState) (target : string) (idx : Z)
  (dt : DraggedTask) (src tgt : Column.t) (tk : Task.t) :
  draggedTask st = Some dt ->
  JsObject.get (sourceColumnId dt) (columns st) = Some src ->
  JsObject.get target (columns st) = Some tgt ->
  find (Task.has_id (dragged_id dt)) (Column.tasks src) = Some tk ->
  run (fun cl => handleTaskDragOver cl target idx Rejected) st =
  (Ok tt, st,
   [Request (UpdateTask (Task.with_columnId target tk));
    ConsoleError "Failed to move task:"]).
Proof.
  intros Hdt Hs Ht Hf. unfold run, handleTaskDragOver.
  destruct (draggedTask st) as [dt'|] eqn:E; [|discriminate].
  injection Hdt as ->. rewrite (lookup_own _ _ _ Hs), (lookup_own _ _ _ Ht), Hf.
  try rewrite <- E. reflexivity.
Qed.

Lemma find_has_id (taskId : string) (l : list Task.t) (tk : Task.t) :
  find (Task.has_id taskId) l = Some tk -> In tk l /\ Task.id tk = taskId.
Proof.
  intros H. apply find_some in H. destruct H as [Hin E]. split; [exact Hin|].
  apply String.eqb_eq. exact E.
Qed.

Lemma In_inserted {A} (n : nat) (x y : A) (l : list A) :
  In y (firstn n l ++ x :: skipn n l) <-> y = x \/ In y l.
Proof.
  assert (E : In y l <-> In y (firstn n l) \/ In y (skipn n l))
    by (rewrite <- in_app_iff, firstn_skipn; reflexivity).
  rewrite in_app_iff. simpl. rewrite E. intuition congruence.
Qed.

Lemma count_ids_inserted (n : nat) (x : Task.t) (l : list Task.t) :
  count_occ string_dec (map Task.id (firstn n l ++ x :: skipn n l)) (Task.id x) =
  S (count_occ string_dec (map Task.id l) (Task.id x)).
Proof.
  rewrite map_app. cbn [map]. rewrite count_occ_app. cbn [count_occ].
  destruct (string_dec (Task.id x) (Task.id x)); [|contradiction].
  rewrite <- (firstn_skipn n l) at 3. rewrite map_app, count_occ_app. lia.
Qed.

Lemma count_ids_absent (taskId : string) (c : Column.t) :
  holds_task taskId c = false -> count_occ string_dec (task_ids c) taskId = 0%nat.
Proof.
  intros H. apply count_occ_not_In. intros Hin.
  unfold task_ids in Hin. apply in_map_iff in Hin. destruct Hin as [t [E Ht]].
  assert (holds_task taskId c = true)
    by (apply holds_task_In; exists t; split; assumption).
  congruence.
Qed.

(** A move to another column, applied to the state the handler was
    created in (the dragged task is found in its source column, the
    target is another column of the collection, the request succeeds and
    the index is any integer), on a collection where the source is the
    only column that holds the task: the handler queues exactly one state
    update, which replaces both sequences at once; the target column is
    the only column whose sequence holds the task; it holds the task
    once, with [columnId] the target's id; and when every stored task
    named its column before, every stored task with the moved id names
    the target. *)
Lemma move_to_other_column_lands_in_target (st : AppState) (target : string) (idx : Z)
  (resp : Task.t) (dt : DraggedTask) (src tgt : Column.t) (tk : Task.t) :
  draggedTask st = Some dt ->
  JsObject.get (sourceColumnId dt) (columns st) = Some src ->
  JsObject.get target (columns st) = Some tgt ->
  find (Task.has_id (dragged_id dt)) (Column.tasks src) = Some tk ->
  distinct_keys (columns st) = true ->
  columns_holding (dragged_id dt) (columns st) = [sourceColumnId dt] ->
  sourceColumnId dt <> target ->
  let out := run (fun cl => handleTaskDragOver cl target idx (Resolved resp)) st in
  let st' := state_of out in
  trace_of out =
    [Request (UpdateTask (Task.with_columnId target tk)); SetState ColumnsVar] /\
  columns_holding (dragged_id dt) (columns st') = [target] /\
  (exists c', JsObject.get target (columns st') = Some c' /\
              In (Task.with_columnId target tk) (Column.tasks c') /\
              Task.columnId (Task.with_columnId target tk) = target /\
              count_occ string_dec (task_ids c') (dragged_id dt) = 1%nat) /\
  (placedb (columns st) = true ->
   forall k c t, In (k, c) (columns st') -> In t (Column.tasks c) ->
                 Task.id t = dragged_id dt -> Task.columnId t = target).
Proof.
  intros Hdt Hs Ht Hf Hdist Hone Hother out st'. subst out st'.
  rewrite (task_drag_over_resolved st target idx resp dt src tgt tk Hdt Hs Ht Hf).
  unfold state_of, trace_of. cbn [fst snd columns].
  rewrite (move_task_updates _ _ _ idx src tgt _ (columns st) src tgt Hs Ht).
  apply distinct_NoDup in Hdist.
  destruct (find_has_id _ _ _ Hf) as [Htk Hid].
  set (tid := dragged_id dt) in *. set (source := sourceColumnId dt) in *.
  set (p := JsArray.relative_start idx (length (Column.tasks tgt))).
  set (c1 := Column.with_tasks
               (filter (fun t => negb (Task.has_id tid t)) (Column.tasks src)) src).
  set (upd := Task.with_columnId target tk).
  set (c2 := Column.with_tasks
               (firstn p (Column.tasks tgt) ++ upd :: skipn p (Column.tasks tgt)) tgt).
  set (cols1 := JsObject.update source c1 (columns st)).
  assert (Hnd1 : NoDup (JsObject.keys cols1))
    by (unfold cols1; rewrite keys_update; exact Hdist).
  assert (Hin_t : In target (JsObject.keys cols1)).
  { unfold cols1. rewrite keys_update. apply get_In in Ht.
    apply (in_map fst) in Ht. exact Ht. }
  assert (Hc2 : holds_task tid c2 = true).
  { apply holds_task_In. exists upd. split; [|exact Hid].
    apply In_inserted. left. reflexivity. }
  assert (Honly : forall k c, In (k, c) (JsObject.update target c2 cols1) ->
                              holds_task tid c = true -> k = target /\ c = c2).
  { intros k c Hin Hh. apply In_update in Hin; [|exact Hnd1].
    destruct Hin as [[-> [-> _]]|[Hne Hin]]; [split; reflexivity|].
    exfalso. apply In_update in Hin; [|exact Hdist].
    destruct Hin as [[-> [-> _]]|[Hne' Hin]].
    - unfold c1 in Hh. rewrite filter_drops_task in Hh. discriminate.
    - assert (Hk : In k (columns_holding tid (columns st)))
        by (apply In_columns_holding; exists c; split; assumption).
      rewrite Hone in Hk. destruct Hk as [<-|[]]. apply Hne'. reflexivity. }
  repeat split.
  - apply NoDup_singleton_In.
    + apply NoDup_keys_filter. rewrite keys_update. exact Hnd1.
    + intros k. rewrite In_columns_holding. split.
      * intros [c [Hin Hh]]. apply (Honly k c Hin Hh).
      * intros ->. exists c2. split; [|exact Hc2].
        apply In_update; [exact Hnd1|]. left. auto.
  - exists c2. split; [|split; [|split; [reflexivity|]]].
    + assert (Hg : exists c, JsObject.get target cols1 = Some c).
      { destruct (JsObject.get target cols1) eqn:E; [eexists; reflexivity|].
        apply get_None in E. contradiction. }
      destruct Hg as [c Hg]. apply (get_update_same target c2 cols1 c Hg).
    + apply In_inserted. left. reflexivity.
    + unfold c2, task_ids. cbn [Column.tasks Column.with_tasks].
      assert (Hupd : Task.id upd = tid) by exact Hid. rewrite <- Hupd.
      rewrite count_ids_inserted. rewrite Hupd. f_equal.
      apply (count_ids_absent tid tgt).
      destruct (holds_task tid tgt) eqn:Eh; [|reflexivity]. exfalso.
      assert (Hk : In target (columns_holding tid (columns st))).
      { apply In_columns_holding. exists tgt. split; [apply get_In; exact Ht | exact Eh]. }
      rewrite Hone in Hk. destruct Hk as [E|[]]. apply Hother. exact E.
  - intros Hpl k c t Hin Hint Ht_id.
    assert (Hh : holds_task tid c = true)
      by (apply holds_task_In; exists t; split; assumption).
    destruct (Honly k c Hin Hh) as [-> ->].
    apply In_inserted in Hint. destruct Hint as [->|Hold]; [reflexivity|].
    apply (placedb_In (columns st) target tgt t Hpl); [|exact Hold].
    apply get_In. exact Ht.
Qed.

(** Moving within one column: the inserted copy is added to the
    sequence the task is still part of, so the sequence grows by one
    occurrence of the task's id. *)
Lemma same_column_move_grows (st : AppState) (idx : Z) (resp : Task.t)
  (dt : DraggedTask) (c : Column.t) (tk : Task.t) :
  draggedTask st = Some dt ->
  JsObject.get (sourceColumnId dt) (columns st) = Some c ->
  find (Task.has_id (dragged_id dt)) (Column.tasks c) = Some tk ->
  let st' := state_of (run (fun cl =>
               handleTaskDragOver cl (sourceColumnId dt) idx (Resolved resp)) st) in
  exists c', JsObject.get (sourceColumnId dt) (columns st') = Some c' /\
             count_occ string_dec (task_ids c') (dragged_id dt) =
             S (count_occ string_dec (task_ids c) (dragged_id dt)).
Proof.
  intros Hdt Hs Hf st'. subst st'.
  rewrite (task_drag_over_resolved st _ idx resp dt c c tk Hdt Hs Hs Hf).
  unfold state_of. cbn [fst snd columns].
  rewrite (move_task_updates _ _ _ idx c c _ (columns st) c c Hs Hs).
  destruct (find_has_id _ _ _ Hf) as [_ Hid].
  eexists. split.
  - eapply get_update_same. eapply get_update_same. exact Hs.
  - unfold task_ids. cbn [Column.tasks Column.with_tasks].
    rewrite <- Hid.
    change (Task.id tk) with (Task.id (Task.with_columnId (sourceColumnId dt) tk)).
    apply count_ids_inserted.
Qed.

(** C1 (the code departs from the claim). With [todo = [T1, T2]], the
    card of [T2] (index 1) is dragged over the card of [T1], index 0 of
    the same column, and the request succeeds: the handler queues one
    state update, which inserts the moved task at the index but does not
    remove it from the sequence it was in, so the column holds the task
    twice where the claim has it once. The defect is the one that breaks
    the rearrangement of a same-column move. *)
Theorem same_column_move_keeps_old_occurrence :
  let st := state_of (handleTaskDragStart "T2" "todo" 1 (Sample.app Sample.two_columns)) in
  let out := run (fun cl =>
               handleTaskDragOver cl "todo" 0 (Resolved (Sample.task "T2" "todo"))) st in
  draggedTask st = Some (mkDraggedTask "T2" "todo" 1) /\
  trace_of out = [Request (UpdateTask (Sample.task "T2" "todo")); SetState ColumnsVar] /\
  option_map Column.tasks (JsObject.get "todo" (columns (state_of out))) =
    Some [Sample.task "T2" "todo"; Sample.task "T1" "todo"; Sample.task "T2" "todo"] /\
  option_map (fun c => count_occ string_dec (task_ids c) "T2")
    (JsObject.get "todo" (columns (state_of out))) = Some 2%nat.
Proof. repeat split. Qed.

(** Two drag-over events of one render, over [doing] and then over
    [done], both with the request succeeding: each handler works from
    the columns of the render it was created in, where the task is still
    in [todo], so the second update does not take the task out of
    [doing] and two columns hold it. *)
Lemma two_drag_overs_of_one_render :
  let st := Sample.dragging_task "T1" "todo" Sample.lanes in
  let st1 := state_of (handleTaskDragOver st "doing" 0
                         (Resolved (Sample.task "T1" "doing")) st) in
  let st2 := state_of (handleTaskDragOver st "done" 0
                         (Resolved (Sample.task "T1" "done")) st1) in
  columns_holding "T1" (columns st) = ["todo"] /\
  columns_holding "T1" (columns st1) = ["doing"] /\
  columns_holding "T1" (columns st2) = ["doing"; "done"].
Proof. repeat split. Qed.

(** C3 (the code departs from the claim). Dragging [T1] of
    [todo = [T1, T2]] over its own column at its own index 0 leaves [T1]
    twice in the sequence: the ids of the column are no longer a
    rearrangement of what they were. *)
Theorem same_column_move_duplicates_task :
  let st := Sample.dragging_task "T1" "todo" Sample.two_columns in
  let st' := state_of (run (fun cl =>
               handleTaskDragOver cl "todo" 0 (Resolved (Sample.task "T1" "todo"))) st) in
  option_map task_ids (JsObject.get "todo" (columns st)) = Some ["T1"; "T2"] /\
  option_map task_ids (JsObject.get "todo" (columns st')) = Some ["T1"; "T1"; "T2"] /\
  ~ Permutation ["T1"; "T1"; "T2"] ["T1"; "T2"].
Proof.
  repeat split; try reflexivity.
  intros H. apply Permutation_length in H. discriminate.
Qed.

(** C4 (as amended). The target index never makes the task drag-over
    handler fail: for any two integer indices and either outcome of the
    request the handler completes in the same way and with the same
    requests, messages and failures. The handler throws in one case
    only, whatever the index: a task is being dragged, its source column
    id is no key of the collection but a name inherited from
    [Object.prototype], and the target id is a key or such a name. Its
    state update fails in one case only, whatever the index: the move
    takes place from a source that is a key and holds the task, the
    request succeeds, and the target id is no key but an inherited name.
    When the handler moves a task, the task is inserted into the target
    column's sequence at the start position that [splice] computes: at
    the end for an index at or beyond the length; at the front for index
    0 and for a negative index at or below minus the length; and, for a
    negative index [-n] above minus the length, [n] places before the
    end. *)
Theorem task_move_insert_position :
  (forall (st : AppState) (target : string) (idx idx' : Z) (resp : response Task.t),
     let out := run (fun cl => handleTaskDragOver cl target idx resp) st in
     let out' := run (fun cl => handleTaskDragOver cl target idx' resp) st in
     fst (fst out) = fst (fst out') /\ trace_of out = trace_of out') /\
  (forall (st : AppState) (target : string) (idx : Z) (resp : response Task.t),
     fst (fst (run (fun cl => handleTaskDragOver cl target idx resp) st)) = Thrown <->
     exists dt, draggedTask st = Some dt /\
                JsObject.lookup (sourceColumnId dt) (columns st) = JsObject.Inherited /\
                JsObject.lookup target (columns st) <> JsObject.Undefined) /\
  (forall (st : AppState) (target : string) (idx : Z) (resp : response Task.t),
     In RenderError (trace_of (run (fun cl => handleTaskDragOver cl target idx resp) st)) <->
     exists dt src tk r,
       draggedTask st = Some dt /\
       JsObject.get (sourceColumnId dt) (columns st) = Some src /\
       find (Task.has_id (dragged_id dt)) (Column.tasks src) = Some tk /\
       JsObject.lookup target (columns st) = JsObject.Inherited /\
       resp = Resolved r) /\
  (forall (st : AppState) (target : string) (idx : Z) (resp : Task.t)
          (dt : DraggedTask) (src tgt : Column.t) (tk : Task.t),
     draggedTask st = Some dt ->
     JsObject.get (sourceColumnId dt) (columns st) = Some src ->
     JsObject.get target (columns st) = Some tgt ->
     find (Task.has_id (dragged_id dt)) (Column.tasks src) = Some tk ->
     let out := run (fun cl => handleTaskDragOver cl target idx (Resolved resp)) st in
     let old := Column.tasks tgt in
     let moved := Task.with_columnId target tk in
     let len := Z.of_nat (length old) in
     exists c', JsObject.get target (columns (state_of out)) = Some c' /\
       ((len <= idx)%Z -> Column.tasks c' = old ++ [moved]) /\
       ((idx = 0 \/ idx <= - len)%Z -> Column.tasks c' = moved :: old) /\
       ((- len < idx < 0)%Z ->
          Column.tasks c' = firstn (Z.to_nat (len + idx)) old
                            ++ moved :: skipn (Z.to_nat (len + idx)) old)).
Proof.
  split; [|split; [|split]].
  - intros st target idx idx' resp out out'. subst out out'.
    unfold run, handleTaskDragOver, trace_of.
    destruct (draggedTask st) as [dt|]; [|split; reflexivity].
    destruct (JsObject.lookup (sourceColumnId dt) (columns st)) as [sc| |];
      destruct (JsObject.lookup target (columns st)) as [tc| |];
      try (split; reflexivity);
      destruct (find (Task.has_id (dragged_id dt)) (Column.tasks sc));
      try (split; reflexivity);
      destruct resp; split; reflexivity.
  - intros st target idx resp. unfold run, handleTaskDragOver.
    destruct (draggedTask st) as [dt|] eqn:Edt.
    2:{ split; [discriminate | intros [dt [H _]]; discriminate]. }
    split.
    + intros H. exists dt. split; [reflexivity|]. revert H.
      destruct (JsObject.lookup (sourceColumnId dt) (columns st)) as [sc| |];
        destruct (JsObject.lookup target (columns st)) as [tc| |];
        try discriminate;
        try (intros _; split; [reflexivity | discriminate]);
        destruct (find (Task.has_id (dragged_id dt)) (Column.tasks sc));
        try discriminate; destruct resp; discriminate.
    + intros [dt' [H [Hs Ht]]]. injection H as <-. rewrite Hs.
      destruct (JsObject.lookup target (columns st)) as [tc| |];
        [reflexivity | reflexivity | contradiction].
  - intros st target idx resp. unfold run, handleTaskDragOver, trace_of.
    destruct (draggedTask st) as [dt|] eqn:Edt.
    2:{ split; [intros [] | intros (dt & src & tk & r & H & _); discriminate]. }
    split.
    + destruct (JsObject.lookup (sourceColumnId dt) (columns st)) as [sc| |] eqn:Es;
        [apply lookup_Own_get in Es| |];
        destruct (JsObject.lookup target (columns st)) as [tc| |] eqn:Et;
        try (intros []; fail);
        destruct (find (Task.has_id (dragged_id dt)) (Column.tasks sc)) as [tk|] eqn:Ef;
        try (intros []; fail);
        destruct resp as [r|]; cbn; intros H;
        try (exfalso; intuition discriminate).
      exists dt, sc, tk, r. repeat split; assumption.
    + intros (dt' & src & tk & r & H & Hg & Hf & Ht & ->). injection H as <-.
      rewrite (lookup_own _ _ _ Hg), Ht, Hf. cbn. right. right. left. reflexivity.
  - intros st target idx resp dt src tgt tk Hdt Hs Ht Hf out old moved len.
    subst out.
    rewrite (task_drag_over_resolved st target idx resp dt src tgt tk Hdt Hs Ht Hf).
    unfold state_of. cbn [fst snd columns].
    rewrite (move_task_updates _ _ _ idx src tgt _ (columns st) src tgt Hs Ht).
    eexists. split.
    + assert (Hg : exists c, JsObject.get target
                     (JsObject.update (sourceColumnId dt)
                        (Column.with_tasks
                           (filter (fun t => negb (Task.has_id (dragged_id dt) t))
                                   (Column.tasks src)) src) (columns st)) = Some c).
      { destruct (String.eqb_spec target (sourceColumnId dt)) as [->|Hne].
        - eexists. eapply get_update_same. exact Hs.
        - exists tgt. rewrite get_update_other by exact Hne. exact Ht. }
      destruct Hg as [c Hg]. eapply get_update_same. exact Hg.
    + cbn [Column.tasks Column.with_tasks]. fold old. fold moved.
      unfold JsArray.relative_start. fold len. repeat split.
      * intros Hge. destruct (idx <? 0)%Z eqn:E; [apply Z.ltb_lt in E; lia|].
        replace (Z.to_nat (Z.min idx len)) with (length old) by lia.
        rewrite firstn_all, skipn_all. reflexivity.
      * intros Hfront. destruct (idx <? 0)%Z eqn:E.
        -- apply Z.ltb_lt in E.
           replace (Z.to_nat (Z.max (len + idx) 0)) with 0%nat by lia. reflexivity.
        -- apply Z.ltb_ge in E.
           replace (Z.to_nat (Z.min idx len)) with 0%nat by lia. reflexivity.
      * intros [Hlo Hhi]. destruct (idx <? 0)%Z eqn:E; [|apply Z.ltb_ge in E; lia].
        replace (Z.max (len + idx) 0) with (len + idx)%Z by lia. reflexivity.
Qed.

(** ** Members, boards and selection *)

(** C10. After a successful member deletion the member list is the old
    list without the members of that id. A selection of another member
    (or none) is kept. When the deleted member was the selected one, the
    new selection is the id of the first member of the list before the
    deletion if that list had two or more members (the deleted member's
    own id when it was the first), and [null] if it had one or none. *)
Theorem remove_member_selection (st : AppState) (id : string) :
  let st' := state_of (run (fun cl => handleRemoveMember cl id (Resolved tt)) st) in
  members st' =
    filter (fun m => negb (String.eqb (TeamMember.id m) id)) (members st) /\
  (selectedMember st <> Some id -> selectedMember st' = selectedMember st) /\
  (selectedMember st = Some id ->
   ((2 <= length (members st))%nat ->
    exists m0, hd_error (members st) = Some m0 /\
               selectedMember st' = Some (TeamMember.id m0) /\
               (TeamMember.id m0 = id -> selectedMember st' = Some id)) /\
   ((length (members st) <= 1)%nat -> selectedMember st' = None)).
Proof.
  intros st'. subst st'. unfold run, handleRemoveMember, state_of.
  assert (Hsame : opt_eqb (selectedMember st) (Some id) = true <->
                  selectedMember st = Some id).
  { destruct (selectedMember st) as [s|]; simpl.
    - rewrite String.eqb_eq. split; congruence.
    - split; discriminate. }
  destruct (opt_eqb (selectedMember st) (Some id)) eqn:Esel.
  - assert (Hsel : selectedMember st = Some id) by (apply Hsame; reflexivity).
    destruct (Nat.ltb_spec 1 (length (members st))) as [Hlen|Hlen].
    + destruct (members st) as [|m0 ms] eqn:Em; [simpl in Hlen; lia|].
      cbn. split; [reflexivity|]. split; [intros Hne; contradiction|].
      intros _. split.
      * intros _. exists m0. split; [reflexivity|]. split; [reflexivity|].
        intros ->. reflexivity.
      * intros Hle. simpl in Hle, Hlen. lia.
    + cbn. split; [reflexivity|]. split; [intros Hne; contradiction|].
      intros _. split; [intros Hge; lia | intros _; reflexivity].
  - assert (Hsel : selectedMember st <> Some id).
    { intros E. apply Hsame in E. discriminate. }
    cbn. split; [reflexivity|]. split; [intros _; reflexivity|].
    intros E. contradiction.
Qed.

Lemma columns_replace_task (st : AppState) (task updated : Task.t) :
  columns (state_of (run (fun _ => handleEditTask task (Resolved updated)) st)) =
  replace_task (Task.id task) updated (columns st).
Proof. reflexivity. Qed.

(** C9. After a successful task edit the columns keep their keys and
    order, and each column's sequence is the old one with every task of
    the edited id replaced in place by the task the request returned:
    the length is the same, no task changes column (whatever [columnId]
    the returned task carries), and, the returned task having the edited
    id, the order of the task ids is the same. *)
Theorem edit_task_keeps_positions (st : AppState) (task updated : Task.t) :
  let st' := state_of (run (fun _ => handleEditTask task (Resolved updated)) st) in
  JsObject.keys (columns st') = JsObject.keys (columns st) /\
  Forall2
    (fun kc' kc =>
       fst kc' = fst kc /\
       Column.tasks (snd kc') =
         map (fun t => if Task.has_id (Task.id task) t then updated else t)
             (Column.tasks (snd kc)) /\
       length (Column.tasks (snd kc')) = length (Column.tasks (snd kc)) /\
       (Task.id updated = Task.id task -> task_ids (snd kc') = task_ids (snd kc)))
    (columns st') (columns st).
Proof.
  intros st'. subst st'. rewrite columns_replace_task.
  unfold replace_task, JsObject.spread, JsObject.map_values, JsObject.keys.
  split.
  - rewrite map_map. reflexivity.
  - induction (columns st) as [|[k c] r IH]; simpl; constructor; [|exact IH].
    simpl. repeat split.
    + rewrite length_map. reflexivity.
    + intros Hid. unfold task_ids. simpl. rewrite map_map.
      apply map_ext. intros t. unfold Task.has_id.
      destruct (String.eqb_spec (Task.id t) (Task.id task)); congruence.
Qed.

Lemma select_board_state (st : AppState) (boardId : string) :
  state_of (selectBoard boardId st) =
  let st1 := mkApp (members st) (boards st) (Some boardId) (columns st)
                   (selectedMember st) (draggedColumn st) (draggedTask st)
                   (selectedTask st) in
  if opt_eqb (selectedBoard st) (Some boardId) then st1
  else if String.eqb boardId "" then st1
  else match find (fun b => String.eqb (Board.id b) boardId) (boards st) with
       | Some board =>
           mkApp (members st) (boards st) (Some boardId) (Board.columns board)
                 (selectedMember st) (draggedColumn st) (draggedTask st)
                 (selectedTask st)
       | None => st1
       end.
Proof.
  unfold selectBoard, state_of, selectedBoardEffect. cbn.
  destruct (opt_eqb (selectedBoard st) (Some boardId)); [reflexivity|].
  destruct (String.eqb boardId ""); [reflexivity|]. cbn.
  destruct (find _ (boards st)); reflexivity.
Qed.

(** C8. Selecting a board never changes [selectedMember]. When the id is
    not the id of a board of the local list, the rendered columns stay
    as they are. When it is (a non-empty id, other than the one selected
    so far), the rendered columns become the columns of the first board
    of that id. *)
Theorem select_board_switches_columns (st : AppState) (boardId : string) :
  let st' := state_of (selectBoard boardId st) in
  selectedMember st' = selectedMember st /\
  selectedBoard st' = Some boardId /\
  (find (fun b => String.eqb (Board.id b) boardId) (boards st) = None ->
   columns st' = columns st) /\
  (forall board,
     boardId <> "" -> selectedBoard st <> Some boardId ->
     find (fun b => String.eqb (Board.id b) boardId) (boards st) = Some board ->
     In board (boards st) /\ Board.id board = boardId /\
     columns st' = Board.columns board).
Proof.
  intros st'. subst st'. rewrite select_board_state. cbv zeta.
  assert (Hsame : opt_eqb (selectedBoard st) (Some boardId) = true ->
                  selectedBoard st = Some boardId).
  { destruct (selectedBoard st) as [s|]; [|discriminate].
    simpl. intros E. apply String.eqb_eq in E. congruence. }
  destruct (opt_eqb (selectedBoard st) (Some boardId)) eqn:Esel.
  - split; [reflexivity|]. split; [reflexivity|]. split; [reflexivity|].
    intros board _ Hne _. exfalso. apply Hne, Hsame. reflexivity.
  - destruct (String.eqb_spec boardId "") as [->|Hnz].
    + split; [reflexivity|]. split; [reflexivity|]. split; [reflexivity|].
      intros board Hne. contradiction.
    + destruct (find _ (boards st)) as [b|] eqn:Ef.
      * split; [reflexivity|]. split; [reflexivity|]. split; [discriminate|].
        intros board _ _ [= <-]. apply find_some in Ef. destruct Ef as [Hin E].
        apply String.eqb_eq in E. auto.
      * split; [reflexivity|]. split; [reflexivity|]. split; [reflexivity|].
        intros board _ _ Hb. discriminate.
Qed.

Lemma remaining_boards_nonempty (bs : list Board.t) (boardId : string) :
  (2 <= length bs)%nat -> distinct (map Board.id bs) = true ->
  filter (fun b => negb (String.eqb (Board.id b) boardId)) bs <> [].
Proof.
  intros Hlen Hd Hnil. destruct bs as [|b1 [|b2 r]]; simpl in Hlen; try lia.
  apply distinct_NoDup in Hd. simpl in Hd.
  assert (H1 : String.eqb (Board.id b1) boardId = true).
  { destruct (String.eqb (Board.id b1) boardId) eqn:E; [reflexivity|].
    simpl in Hnil. rewrite E in Hnil. discriminate. }
  assert (H2 : String.eqb (Board.id b2) boardId = true).
  { destruct (String.eqb (Board.id b2) boardId) eqn:E; [reflexivity|].
    simpl in Hnil. rewrite H1, E in Hnil. discriminate. }
  apply String.eqb_eq in H1, H2. inversion Hd as [|? ? Hnot _]; subst.
  apply Hnot. left. congruence.
Qed.

(** C7. With one board or none, the board-delete handler stops at its
    guard: it alerts, issues no request and leaves the state as it is.
    With two or more boards it issues the delete request; when the
    request succeeds the boards of that id are removed from the list, a
    selection of another board is kept, and, the deleted board being the
    selected one (board ids pairwise different), the first board of the
    remaining list, a board of another id, becomes selected and its
    columns are shown. *)
Theorem remove_board_guard (st : AppState) (boardId : string) :
  (forall resp, (length (boards st) <= 1)%nat ->
     run (fun cl => handleRemoveBoard cl boardId resp) st =
     (Ok tt, st, [Alert "Cannot delete the last board"])) /\
  (forall resp, (2 <= length (boards st))%nat ->
     hd_error (trace_of (run (fun cl => handleRemoveBoard cl boardId resp) st)) =
     Some (Request (DeleteBoard boardId))) /\
  ((2 <= length (boards st))%nat ->
   let st' := state_of (run (fun cl => handleRemoveBoard cl boardId (Resolved tt)) st) in
   boards st' =
     filter (fun b => negb (String.eqb (Board.id b) boardId)) (boards st) /\
   (selectedBoard st <> Some boardId -> selectedBoard st' = selectedBoard st) /\
   (selectedBoard st = Some boardId ->
    distinct (map Board.id (boards st)) = true ->
    exists b, hd_error (boards st') = Some b /\
              selectedBoard st' = Some (Board.id b) /\
              Board.id b <> boardId /\
              columns st' = Board.columns b)).
Proof.
  assert (Hsame : opt_eqb (selectedBoard st) (Some boardId) = true <->
                  selectedBoard st = Some boardId).
  { destruct (selectedBoard st) as [s|]; simpl.
    - rewrite String.eqb_eq. split; congruence.
    - split; discriminate. }
  split; [|split].
  - intros resp Hle. unfold run, handleRemoveBoard.
    destruct (Nat.leb_spec (length (boards st)) 1); [reflexivity | lia].
  - intros resp Hge. unfold run, handleRemoveBoard.
    destruct (Nat.leb_spec (length (boards st)) 1); [lia|].
    destruct resp as [[]|]; [|reflexivity].
    unfold trace_of, try_catch, bind, await. cbn.
    destruct (opt_eqb (selectedBoard st) (Some boardId)); [|reflexivity].
    destruct (filter _ (boards st)); reflexivity.
  - intros Hge st'. subst st'. unfold run, handleRemoveBoard, state_of.
    destruct (Nat.leb_spec (length (boards st)) 1); [lia|].
    destruct (opt_eqb (selectedBoard st) (Some boardId)) eqn:Esel.
    + assert (Hsel : selectedBoard st = Some boardId) by (apply Hsame; reflexivity).
      destruct (filter (fun b => negb (String.eqb (Board.id b) boardId)) (boards st))
        as [|b rest] eqn:Ef.
      * cbn. split; [reflexivity|].
        split; [intros Hne; contradiction|]. intros _ Hd. exfalso.
        apply (remaining_boards_nonempty (boards st) boardId Hge Hd). exact Ef.
      * cbn. split; [reflexivity|].
        split; [intros Hne; contradiction|]. intros _ _. exists b.
        split; [reflexivity|]. split; [reflexivity|]. split; [|reflexivity].
        assert (Hin : In b (filter (fun b => negb (String.eqb (Board.id b) boardId))
                                   (boards st))) by (rewrite Ef; left; reflexivity).
        apply filter_In in Hin. destruct Hin as [_ Hn].
        intros E. rewrite E, String.eqb_refl in Hn. discriminate.
    + assert (Hsel : selectedBoard st <> Some boardId).
      { intros E. apply Hsame in E. discriminate. }
      cbn. split; [reflexivity|]. split; [intros _; reflexivity|].
      intros E. contradiction.
Qed.

(** ** Requests and local state *)


(** ** The handlers on the sample states *)

(** The scenario of the specification: moving [T1] from [todo] index 0 to
    [doing] index 0 yields [todo = [T2]], [doing = [T1]] with
    [T1.columnId = 'doing']. *)
Example scenario_move_to_empty_column :
  let st := Sample.dragging_task "T1" "todo" Sample.two_columns in
  let st' := state_of (run (fun cl =>
               handleTaskDragOver cl "doing" 0 (Resolved (Sample.task "T1" "doing"))) st) in
  columns st' =
  [ ("todo", Sample.column "todo" [Sample.task "T2" "todo"]);
    ("doing", Sample.column "doing" [Sample.task "T1" "doing"]) ].
Proof. reflexivity. Qed.

(** Array-index keys come back in ascending order from
    [Object.fromEntries], whatever the order of the entries. *)
Example numbered_columns_keep_order :
  let st := Sample.dragging_column "2" Sample.numbered_columns in
  let st' := state_of (run (fun cl => handleColumnDragOver cl "1") st) in
  JsObject.keys (columns st') = ["1"; "2"; "backlog"].
Proof. reflexivity. Qed.


(** Index [-1] on [doing = [A, B]] inserts between [A] and [B], not at the
    front. *)
Lemma negative_index_counts_from_end :
  let st := Sample.dragging_task "T1" "todo" Sample.busy_columns in
  let st' := state_of (run (fun cl =>
               handleTaskDragOver cl "doing" (-1) (Resolved (Sample.task "T1" "doing"))) st) in
  option_map task_ids (JsObject.get "doing" (columns st')) = Some ["A"; "T1"; "B"] /\
  option_map task_ids (JsObject.get "doing" (columns st')) <> Some ["T1"; "A"; "B"].
Proof. split; [reflexivity | discriminate]. Qed.

(** Dragging [todo] over [testing], two places ahead: [todo] takes the
    index of [testing], and [testing] is before it, not after it. *)
Lemma drag_forward_lands_after_target :
  let st := Sample.dragging_column "todo" Sample.three_columns in
  let st' := state_of (run (fun cl => handleColumnDragOver cl "testing") st) in
  JsObject.keys (columns st') = ["progress"; "testing"; "todo"] /\
  immediately_before "todo" "testing" (JsObject.keys (columns st')) = false.
Proof. split; reflexivity. Qed.

Lemma move_to_other_column_lands_in_target_example :
  let st := Sample.dragging_task "T1" "todo" Sample.two_columns in
  let st' := state_of (run (fun cl =>
               handleTaskDragOver cl "doing" 1 (Resolved (Sample.task "T1" "doing"))) st) in
  columns_holding "T1" (columns st') = ["doing"].
Proof.
  intros st st'.
  refine (proj1 (proj2
    (move_to_other_column_lands_in_target st "doing" 1 (Sample.task "T1" "doing")
       (mkDraggedTask "T1" "todo" 0)
       (Sample.column "todo" [Sample.task "T1" "todo"; Sample.task "T2" "todo"])
       (Sample.column "doing" [])
       (Sample.task "T1" "todo")
       eq_refl eq_refl eq_refl eq_refl eq_refl eq_refl _))).
  discriminate.
Defined.


Lemma task_move_insert_position_example :
  let st := Sample.dragging_task "T1" "todo" Sample.busy_columns in
  let out := run (fun cl =>
               handleTaskDragOver cl "doing" 5 (Resolved (Sample.task "T1" "doing"))) st in
  exists c', JsObject.get "doing" (columns (state_of out)) = Some c' /\
             Column.tasks c' =
             [Sample.task "A" "doing"; Sample.task "B" "doing"; Sample.task "T1" "doing"].
Proof.
  intros st out.
  destruct (proj2 (proj2 (proj2 task_move_insert_position)) st "doing" 5%Z
              (Sample.task "T1" "doing")
              (mkDraggedTask "T1" "todo" 0)
              (Sample.column "todo" [Sample.task "T1" "todo"])
              (Sample.column "doing" [Sample.task "A" "doing"; Sample.task "B" "doing"])
              (Sample.task "T1" "todo")
              eq_refl eq_refl eq_refl eq_refl)
    as [c' [Hget [Hend _]]].
  exists c'. split; [exact Hget|]. apply Hend. simpl. lia.
Defined.

Lemma column_drag_over_takes_target_index_example :
  let st := Sample.dragging_column "testing" Sample.three_columns in
  let st' := state_of (run (fun cl => handleColumnDragOver cl "todo") st) in
  nth_error (JsObject.keys (columns st')) 0 = Some "testing" /\
  nth_error (JsObject.keys (columns st')) 1 = Some "todo".
Proof.
  intros st st'.
  assert (Hne : "testing" <> "todo") by discriminate.
  assert (Hnz : "testing" <> "") by discriminate.
  destruct (proj2 (column_drag_over_takes_target_index st "todo") "testing" 2%nat 0%nat
              eq_refl eq_refl eq_refl eq_refl eq_refl Hne Hnz)
    as [_ [H0 [H1 _]]].
  split; [exact H0 | apply H1; lia].
Defined.

Lemma column_reorders_permute_example :
  let st := Sample.dragging_column "todo" Sample.three_columns in
  Permutation
    (columns (gestures [ColumnDragOver "testing"; ColumnDragStart "progress";
                        ColumnDragOver "todo"; DragEnd] st))
    (columns st).
Proof.
  intros st. apply (column_reorders_permute _ st). reflexivity.
Defined.

Lemma remove_board_guard_example :
  let st := Sample.app Sample.two_columns in
  let st' := state_of (run (fun cl => handleRemoveBoard cl "b1" (Resolved tt)) st) in
  exists b, hd_error (boards st') = Some b /\ selectedBoard st' = Some (Board.id b) /\
            Board.id b <> "b1" /\ columns st' = Board.columns b.
Proof.
  intros st st'.
  assert (Hlen : (2 <= length (boards st))%nat) by (simpl; lia).
  exact (proj2 (proj2 (proj2 (proj2 (remove_board_guard st "b1")) Hlen)) eq_refl eq_refl).
Defined.

Lemma select_board_switches_columns_example :
  let st := Sample.app Sample.two_columns in
  columns (state_of (selectBoard "b2" st)) = Sample.three_columns.
Proof.
  intros st.
  assert (Hnz : "b2" <> "") by discriminate.
  assert (Hsel : selectedBoard st <> Some "b2") by discriminate.
  exact (proj2 (proj2
    (proj2 (proj2 (proj2 (select_board_switches_columns st "b2")))
       Sample.board2 Hnz Hsel eq_refl))).
Defined.

Lemma edit_task_keeps_positions_example :
  let st := Sample.app Sample.two_columns in
  let st' := state_of (run (fun _ =>
               handleEditTask (Sample.task "T1" "doing")
                              (Resolved (Sample.task "T1" "doing"))) st) in
  JsObject.keys (columns st') = ["todo"; "doing"].
Proof.
  intros st st'.
  exact (proj1 (edit_task_keeps_positions st (Sample.task "T1" "doing")
                  (Sample.task "T1" "doing"))).
Defined.

Lemma remove_member_selection_example :
  let st := Sample.app Sample.two_columns in
  let st' := state_of (run (fun cl => handleRemoveMember cl "m1" (Resolved tt)) st) in
  members st' = [Sample.bob] /\ selectedMember st' = Some "m1".
Proof.
  intros st st'.
  destruct (remove_member_selection st "m1") as [Hm [_ Hsel]].
  split; [exact Hm|].
  assert (Hlen : (2 <= length (members st))%nat) by (simpl; lia).
  destruct (proj1 (Hsel eq_refl) Hlen) as [m0 [Hhd [_ Hown]]].
  apply Hown. simpl in Hhd. injection Hhd as <-. reflexivity.
Defined.

(** The one place where a local change comes before the request chain:
    the draft of the edited task in [TaskDetails], set before
    [onUpdate] is called. *)
Example details_draft_precedes_update :
  trace_of (run (fun cl =>
     handleUpdate cl (fun t => Task.with_columnId "doing" t)) Sample.details) =
  [ SetState EditedTask; SetState IsSubmitting;
    OnUpdate (Sample.task "T1" "doing"); SetState IsSubmitting ].
Proof. reflexivity. Qed.

(** * Further properties of the handlers, the components and the server *)

(** ** More on objects *)

Section ObjectFacts2.
Context {V : Type}.
Implicit Types (o : JsObject.t V) (k : string) (v : V).

Lemma get_app k o o' :
  JsObject.get k (o ++ o') =
  match JsObject.get k o with Some v => Some v | None => JsObject.get k o' end.
Proof.
  induction o as [|[k0 v0] r IH]; simpl; [reflexivity|].
  destruct (String.eqb k0 k); [reflexivity | exact IH].
Qed.

Lemma get_insert_index (n : N) k k' v o :
  JsObject.get k o = None ->
  JsObject.get k' (JsObject.insert_index n k v o) =
  if String.eqb k k' then Some v else JsObject.get k' o.
Proof.
  induction o as [|[k0 v0] r IH]; simpl; intros Hk.
  - reflexivity.
  - destruct (String.eqb_spec k0 k) as [->|Hne0]; [discriminate|].
    destruct (JsObject.array_index k0) as [m|]; [destruct (m <? n)%N|]; simpl;
      try reflexivity.
    rewrite (IH Hk).
    destruct (String.eqb_spec k0 k') as [->|Hne]; [|reflexivity].
    destruct (String.eqb_spec k k'); [congruence | reflexivity].
Qed.

(** Reading back what was assigned. *)
Lemma get_set k k' v o :
  JsObject.get k' (JsObject.set k v o) =
  if String.eqb k k' then Some v else JsObject.get k' o.
Proof.
  unfold JsObject.set, JsObject.has.
  destruct (JsObject.get k o) as [c|] eqn:Hk.
  - destruct (String.eqb_spec k k') as [<-|Hne].
    + apply (get_update_same k v o c Hk).
    + apply get_update_other. congruence.
  - destruct (JsObject.array_index k) as [n|].
    + apply get_insert_index. exact Hk.
    + rewrite get_app. simpl.
      destruct (String.eqb_spec k k') as [<-|Hne].
      * rewrite Hk. reflexivity.
      * destruct (JsObject.get k' o); reflexivity.
Qed.

Lemma keys_set_existing k v o c :
  JsObject.get k o = Some c -> JsObject.keys (JsObject.set k v o) = JsObject.keys o.
Proof. intros H. rewrite (set_existing k v o c H). apply keys_update. Qed.

Lemma rest_without_fresh k o :
  JsObject.get k o = None -> JsObject.rest_without k o = o.
Proof.
  unfold JsObject.rest_without.
  induction o as [|[k0 v0] r IH]; simpl; intros Hk; [reflexivity|].
  destruct (String.eqb_spec k0 k) as [->|Hne]; [discriminate|]. simpl.
  f_equal. apply IH. exact Hk.
Qed.

Lemma rest_without_insert_index (n : N) k v o :
  JsObject.get k o = None ->
  JsObject.rest_without k (JsObject.insert_index n k v o) = o.
Proof.
  unfold JsObject.rest_without.
  induction o as [|[k0 v0] r IH]; simpl; intros Hk.
  - rewrite String.eqb_refl. reflexivity.
  - destruct (String.eqb_spec k0 k) as [->|Hne]; [discriminate|].
    assert (Hrest : filter (fun kv => negb (String.eqb (fst kv) k)) r = r)
      by (apply rest_without_fresh; exact Hk).
    destruct (JsObject.array_index k0) as [m|]; [destruct (m <? n)%N|]; simpl.
    + destruct (String.eqb_spec k0 k); [contradiction|]. simpl. f_equal.
      apply IH. exact Hk.
    + rewrite String.eqb_refl. simpl.
      destruct (String.eqb_spec k0 k); [contradiction|]. simpl. f_equal. exact Hrest.
    + rewrite String.eqb_refl. simpl.
      destruct (String.eqb_spec k0 k); [contradiction|]. simpl. f_equal. exact Hrest.
Qed.

(** Adding a key and taking it out again gives the object back. *)
Lemma rest_without_set_fresh k v o :
  JsObject.get k o = None -> JsObject.rest_without k (JsObject.set k v o) = o.
Proof.
  intros Hk. unfold JsObject.set, JsObject.has. rewrite Hk.
  destruct (JsObject.array_index k) as [n|].
  - apply rest_without_insert_index. exact Hk.
  - unfold JsObject.rest_without. rewrite filter_app. simpl.
    rewrite String.eqb_refl. simpl. rewrite app_nil_r.
    apply rest_without_fresh. exact Hk.
Qed.

Lemma get_rest_without k k' o :
  JsObject.get k' (JsObject.rest_without k o) =
  if String.eqb k k' then None else JsObject.get k' o.
Proof.
  unfold JsObject.rest_without.
  induction o as [|[k0 v0] r IH]; simpl.
  - destruct (String.eqb k k'); reflexivity.
  - destruct (String.eqb_spec k0 k) as [->|Hne]; simpl.
    + rewrite IH. destruct (String.eqb_spec k k'); reflexivity.
    + rewrite IH. destruct (String.eqb_spec k0 k') as [->|Hne'].
      * destruct (String.eqb_spec k k'); [congruence | reflexivity].
      * reflexivity.
Qed.

Lemma In_set k v o k' v' :
  In (k', v') (JsObject.set k v o) -> (k' = k /\ v' = v) \/ In (k', v') o.
Proof.
  unfold JsObject.set, JsObject.has.
  destruct (JsObject.get k o) as [c|] eqn:Hk.
  - clear Hk. induction o as [|[k0 v0] r IH]; simpl; [tauto|].
    destruct (String.eqb_spec k0 k) as [->|Hne]; simpl.
    + intros [[= <- <-]|H]; auto.
    + intros [H|H]; [auto|]. destruct (IH H); auto.
  - destruct (JsObject.array_index k) as [n|].
    + intros H. apply (Permutation_in _ (insert_index_perm n k v o)) in H.
      destruct H as [[= <- <-]|H]; auto.
    + intros H. apply in_app_or in H. destruct H as [H|[[= <- <-]|[]]]; auto.
Qed.

(** An assignment never makes two properties of one key. *)
Lemma NoDup_keys_set k v o :
  NoDup (JsObject.keys o) -> NoDup (JsObject.keys (JsObject.set k v o)).
Proof.
  intros Hnd. destruct (JsObject.get k o) as [c|] eqn:Hk.
  - rewrite (keys_set_existing k v o c Hk). exact Hnd.
  - apply (Permutation_NoDup (l := JsObject.keys (o ++ [(k, v)]))).
    + apply Permutation_map. symmetry. apply set_new_perm. exact Hk.
    + unfold JsObject.keys in *. rewrite map_app. simpl.
      apply (Permutation_NoDup (l := k :: map fst o)).
      * apply Permutation_cons_append.
      * constructor; [|exact Hnd]. apply get_None. exact Hk.
Qed.

End ObjectFacts2.

(** ** Columns: add, rename, remove *)

Lemma truthy_or_empty (s : option string) :
  truthy s = true -> s = Some (or_empty s).
Proof.
  unfold or_empty. intros H. rewrite H. destruct s; [reflexivity | discriminate].
Qed.

(** X1. Without a selected board the add-column handler does nothing,
    and without a selected board or a selected member the add-task
    handler does nothing: no request is issued and the state is kept. *)
Theorem add_handlers_need_selection (st : AppState) :
  (truthy (selectedBoard st) = false ->
   forall uuid resp,
     run (fun cl => handleAddColumn cl uuid resp) st = (Ok tt, st, [])) /\
  (truthy (selectedBoard st) = false \/ truthy (selectedMember st) = false ->
   forall columnId uuid today resp,
     run (fun cl => handleAddTask cl columnId uuid today resp) st = (Ok tt, st, [])).
Proof.
  split.
  - intros H uuid resp. unfold run, handleAddColumn. rewrite H. reflexivity.
  - intros H columnId uuid today resp. unfold run, handleAddTask.
    destruct H as [H|H]; rewrite H; simpl; [rewrite orb_true_r|]; reflexivity.
Qed.

Lemma add_handlers_need_selection_example :
  run (fun cl => handleAddTask cl "todo" "t9" "2024-01-01" Rejected)
      (mkApp [] [] None Sample.two_columns None None None None)
  = (Ok tt, mkApp [] [] None Sample.two_columns None None None None, []).
Proof.
  apply (proj2 (add_handlers_need_selection
                  (mkApp [] [] None Sample.two_columns None None None None))).
  left. reflexivity.
Defined.

(** X2. With a board selected, a successful add-column request for a
    column id that is not yet a key sends a column titled 'New Column'
    with no tasks and the selected board's id, and stores the returned
    column under the new id without touching any other column (last in
    order when the id is not an array index); deleting that column
    afterwards gives back the column collection as it was. *)
Theorem add_then_remove_column (st : AppState) (uuid : string) (created : Column.t) :
  truthy (selectedBoard st) = true ->
  JsObject.get uuid (columns st) = None ->
  let out1 := run (fun cl => handleAddColumn cl uuid (Resolved created)) st in
  let st1 := state_of out1 in
  let st2 := state_of (run (fun cl => handleRemoveColumn cl uuid (Resolved tt)) st1) in
  trace_of out1 =
    [Request (CreateColumn (Column.mk uuid "New Column" [] (or_empty (selectedBoard st))));
     SetState ColumnsVar] /\
  selectedBoard st = Some (or_empty (selectedBoard st)) /\
  JsObject.get uuid (columns st1) = Some created /\
  (forall k, k <> uuid -> JsObject.get k (columns st1) = JsObject.get k (columns st)) /\
  (JsObject.plain_key uuid = true ->
   JsObject.keys (columns st1) = JsObject.keys (columns st) ++ [uuid]) /\
  st2 = st.
Proof.
  intros Hsel Hfresh out1 st1 st2. subst out1 st1 st2.
  unfold run, handleAddColumn, handleRemoveColumn, state_of, trace_of.
  rewrite Hsel. cbn -[JsObject.set JsObject.rest_without JsObject.get JsObject.keys].
  unfold JsObject.spread.
  split; [reflexivity|]. split; [apply truthy_or_empty; exact Hsel|].
  split; [rewrite get_set, String.eqb_refl; reflexivity|].
  split.
  - intros k Hne. rewrite get_set.
    destruct (String.eqb_spec uuid k); [congruence | reflexivity].
  - split.
    + intros Hplain. rewrite (set_new_plain uuid created (columns st) Hfresh Hplain).
      unfold JsObject.keys. rewrite map_app. reflexivity.
    + rewrite rest_without_set_fresh by exact Hfresh. destruct st; reflexivity.
Qed.

Lemma add_then_remove_column_example :
  let st := Sample.app Sample.two_columns in
  let st1 := state_of (run (fun cl =>
               handleAddColumn cl "c9" (Resolved (Sample.column "c9" []))) st) in
  JsObject.keys (columns st1) = ["todo"; "doing"; "c9"].
Proof.
  intros st st1.
  apply (proj1 (proj2 (proj2 (proj2 (proj2
           (add_then_remove_column st "c9" (Sample.column "c9" []) eq_refl eq_refl)))))).
  reflexivity.
Defined.

(** X3. A successful rename of a column that is a key of the collection
    replaces its title and nothing else: the keys and their order, the
    column's id, tasks and board id, and every other column are as
    before. *)
Theorem edit_column_changes_title_only (st : AppState) (columnId title : string)
  (c : Column.t) :
  JsObject.get columnId (columns st) = Some c ->
  let st' := state_of (run (fun _ => handleEditColumn columnId title (Resolved tt)) st) in
  JsObject.keys (columns st') = JsObject.keys (columns st) /\
  (exists c', JsObject.get columnId (columns st') = Some c' /\
              Column.title c' = title /\ Column.id c' = Column.id c /\
              Column.tasks c' = Column.tasks c /\ Column.boardId c' = Column.boardId c) /\
  (forall k, k <> columnId ->
             JsObject.get k (columns st') = JsObject.get k (columns st)).
Proof.
  intros Hc st'. subst st'. unfold run, handleEditColumn, state_of. cbn.
  unfold retitle_column, JsObject.spread. rewrite Hc.
  split; [apply (keys_set_existing _ _ _ c Hc)|]. split.
  - exists (Column.with_title title c).
    rewrite get_set, String.eqb_refl. repeat split.
  - intros k Hne. rewrite get_set.
    destruct (String.eqb_spec columnId k); [congruence | reflexivity].
Qed.

Lemma edit_column_changes_title_only_example :
  let st := Sample.app Sample.two_columns in
  let st' := state_of (run (fun _ =>
               handleEditColumn "doing" "In progress" (Resolved tt)) st) in
  JsObject.keys (columns st') = ["todo"; "doing"].
Proof.
  intros st st'.
  exact (proj1 (edit_column_changes_title_only st "doing" "In progress"
                  (Sample.column "doing" []) eq_refl)).
Defined.

(** ** Tasks: add, copy, remove *)

Lemma append_task_found (columnId : string) (task : Task.t) (prev : Columns)
  (c : Column.t) :
  JsObject.get columnId prev = Some c ->
  append_task columnId task prev =
  Some (JsObject.update columnId (Column.with_tasks (Column.tasks c ++ [task]) c) prev).
Proof.
  intros H. unfold append_task, JsObject.spread. rewrite H.
  rewrite (set_existing columnId _ prev c H). reflexivity.
Qed.

Lemma filter_absent_id (taskId : string) (ts : list Task.t) :
  existsb (Task.has_id taskId) ts = false ->
  filter (fun t => negb (Task.has_id taskId t)) ts = ts.
Proof.
  induction ts as [|x xs IH]; simpl; intros H; [reflexivity|].
  apply orb_false_iff in H. destruct H as [Ex Exs].
  rewrite Ex. simpl. f_equal. apply IH. exact Exs.
Qed.

Lemma drop_task_column_absent (taskId : string) (c : Column.t) :
  holds_task taskId c = false ->
  Column.with_tasks
    (filter (fun t => negb (Task.has_id taskId t)) (Column.tasks c)) c = c.
Proof.
  intros H. destruct c as [i t ts b]. unfold Column.with_tasks. simpl. f_equal.
  apply filter_absent_id. exact H.
Qed.

Lemma drop_task_absent (taskId : string) (cols : Columns) :
  columns_holding taskId cols = [] -> drop_task taskId cols = cols.
Proof.
  unfold drop_task, JsObject.spread, JsObject.map_values, columns_holding,
    JsObject.keys.
  induction cols as [|[k c] r IH]; simpl; intros H; [reflexivity|].
  destruct (holds_task taskId c) eqn:Eh; [discriminate|].
  f_equal; [|apply IH; exact H]. f_equal.
  apply drop_task_column_absent. exact Eh.
Qed.

Lemma drop_task_appended (taskId k : string) (c : Column.t) (task : Task.t)
  (cols : Columns) :
  Task.id task = taskId ->
  columns_holding taskId cols = [] ->
  JsObject.get k cols = Some c ->
  drop_task taskId
    (JsObject.update k (Column.with_tasks (Column.tasks c ++ [task]) c) cols) = cols.
Proof.
  intros Hid. unfold drop_task, JsObject.spread, JsObject.map_values.
  induction cols as [|[k0 c0] r IH]; simpl; intros Hh Hg; [discriminate|].
  unfold columns_holding in Hh. simpl in Hh.
  destruct (holds_task taskId c0) eqn:Eh; [discriminate|].
  destruct (String.eqb_spec k0 k) as [->|Hne].
  - injection Hg as ->. simpl. f_equal.
    + f_equal. destruct c as [i t ts b]. unfold Column.with_tasks. simpl. f_equal.
      rewrite filter_app. simpl. unfold Task.has_id at 2.
      rewrite Hid, String.eqb_refl. simpl. rewrite app_nil_r.
      apply filter_absent_id. exact Eh.
    + apply (drop_task_absent taskId r). exact Hh.
  - simpl. f_equal.
    + f_equal. apply drop_task_column_absent. exact Eh.
    + apply IH; assumption.
Qed.

(** X4. With a member and a board selected, the add-task handler sends
    a task titled 'New Task' for the given column, assigned to and
    requested by the selected member on the selected board, with effort 1
    and no comments. When the request succeeds and the column is a key of
    the collection, the returned task is appended to the end of that
    column's sequence and no other column changes; removing that task
    again (its id being new) gives back the collection as it was. *)
Theorem add_task_appends (st : AppState) (columnId uuid today : string)
  (created : Task.t) (c : Column.t) :
  truthy (selectedMember st) = true ->
  truthy (selectedBoard st) = true ->
  JsObject.get columnId (columns st) = Some c ->
  let out1 := run (fun cl =>
                handleAddTask cl columnId uuid today (Resolved created)) st in
  let st1 := state_of out1 in
  let st2 := state_of (run (fun _ =>
                handleRemoveTask (Task.id created) (Resolved tt)) st1) in
  trace_of out1 =
    [Request (CreateTask
       (Task.mk uuid "New Task" "Task description" (or_empty (selectedMember st))
                today 1 columnId medium (or_empty (selectedMember st))
                (or_empty (selectedBoard st)) []));
     SetState ColumnsVar] /\
  JsObject.keys (columns st1) = JsObject.keys (columns st) /\
  (exists c', JsObject.get columnId (columns st1) = Some c' /\
              Column.tasks c' = Column.tasks c ++ [created]) /\
  (forall k, k <> columnId ->
             JsObject.get k (columns st1) = JsObject.get k (columns st)) /\
  (columns_holding (Task.id created) (columns st) = [] ->
   columns st2 = columns st).
Proof.
  intros Hm Hb Hc out1 st1 st2. subst out1 st1 st2.
  unfold run, handleAddTask, handleRemoveTask, state_of, trace_of.
  rewrite Hm, Hb. unfold_monad.
  cbn -[append_task drop_task JsObject.get JsObject.keys].
  rewrite (append_task_found columnId created _ c Hc).
  cbn -[drop_task JsObject.get JsObject.keys JsObject.update].
  split; [reflexivity|]. split; [apply keys_update|]. split.
  - eexists. split; [apply (get_update_same columnId _ _ c Hc) | reflexivity].
  - split.
    + intros k Hne. apply get_update_other. exact Hne.
    + intros Hnew. apply drop_task_appended; [reflexivity | exact Hnew | exact Hc].
Qed.

Lemma add_task_appends_example :
  let st := Sample.app Sample.two_columns in
  let st1 := state_of (run (fun cl =>
               handleAddTask cl "doing" "T9" "2024-02-01"
                 (Resolved (Sample.task "T9" "doing"))) st) in
  JsObject.keys (columns st1) = ["todo"; "doing"].
Proof.
  intros st st1.
  exact (proj1 (proj2 (add_task_appends st "doing" "T9" "2024-02-01"
                         (Sample.task "T9" "doing") (Sample.column "doing" [])
                         eq_refl eq_refl eq_refl))).
Defined.

(** X5. The copy-task handler sends the task with the new id, the title
    followed by ' (Copy)', no comments and every other field unchanged;
    on success the returned task is appended to the end of the column
    that the original's [columnId] names, and no other column changes. *)
Theorem copy_task_appends (st : AppState) (task created : Task.t) (uuid : string)
  (c : Column.t) :
  JsObject.get (Task.columnId task) (columns st) = Some c ->
  let out := run (fun _ => handleCopyTask task uuid (Resolved created)) st in
  (exists sent,
     trace_of out = [Request (CreateTask sent); SetState ColumnsVar] /\
     Task.id sent = uuid /\
     Task.title sent = (Task.title task ++ " (Copy)")%string /\
     Task.comments sent = [] /\
     Task.description sent = Task.description task /\
     Task.memberId sent = Task.memberId task /\
     Task.startDate sent = Task.startDate task /\
     Task.effort sent = Task.effort task /\
     Task.columnId sent = Task.columnId task /\
     Task.priority sent = Task.priority task /\
     Task.requesterId sent = Task.requesterId task /\
     Task.boardId sent = Task.boardId task) /\
  JsObject.keys (columns (state_of out)) = JsObject.keys (columns st) /\
  (exists c', JsObject.get (Task.columnId task) (columns (state_of out)) = Some c' /\
              Column.tasks c' = Column.tasks c ++ [created]) /\
  (forall k, k <> Task.columnId task ->
             JsObject.get k (columns (state_of out)) = JsObject.get k (columns st)).
Proof.
  intros Hc out. subst out. unfold run, handleCopyTask, state_of, trace_of.
  unfold_monad. cbn -[append_task JsObject.get JsObject.keys].
  rewrite (append_task_found _ created _ c Hc).
  cbn -[JsObject.get JsObject.keys JsObject.update].
  split.
  - eexists. split; [reflexivity|]. repeat split.
  - split; [apply keys_update|]. split.
    + eexists. split; [apply (get_update_same _ _ _ c Hc) | reflexivity].
    + intros k Hne. apply get_update_other. exact Hne.
Qed.

Lemma copy_task_appends_example :
  let st := Sample.app Sample.two_columns in
  let st' := state_of (run (fun _ =>
               handleCopyTask (Sample.task "T1" "todo") "T9"
                 (Resolved (Sample.task "T9" "todo"))) st) in
  JsObject.keys (columns st') = ["todo"; "doing"].
Proof.
  intros st st'.
  exact (proj1 (proj2 (copy_task_appends st (Sample.task "T1" "todo")
                         (Sample.task "T9" "todo") "T9"
                         (Sample.column "todo"
                            [Sample.task "T1" "todo"; Sample.task "T2" "todo"])
                         eq_refl))).
Defined.

(** X6. After a successful task deletion no column holds a task of that
    id; the columns keep their keys and order, each sequence keeps its
    other tasks in their order, and deleting the same id again changes
    nothing. *)
Theorem remove_task_everywhere (st : AppState) (taskId : string) :
  let st' := state_of (run (fun _ => handleRemoveTask taskId (Resolved tt)) st) in
  let st'' := state_of (run (fun _ => handleRemoveTask taskId (Resolved tt)) st') in
  JsObject.keys (columns st') = JsObject.keys (columns st) /\
  columns_holding taskId (columns st') = [] /\
  Forall2
    (fun kc' kc =>
       fst kc' = fst kc /\
       Column.tasks (snd kc') =
         filter (fun t => negb (Task.has_id taskId t)) (Column.tasks (snd kc)) /\
       Column.id (snd kc') = Column.id (snd kc) /\
       Column.title (snd kc') = Column.title (snd kc) /\
       Column.boardId (snd kc') = Column.boardId (snd kc))
    (columns st') (columns st) /\
  columns st'' = columns st'.
Proof.
  intros st' st''. subst st' st''. unfold run, handleRemoveTask, state_of.
  cbn -[drop_task].
  assert (Hnone : columns_holding taskId (drop_task taskId (columns st)) = []).
  { unfold drop_task, JsObject.spread, JsObject.map_values, columns_holding,
      JsObject.keys.
    induction (columns st) as [|[k c] r IH]; simpl; [reflexivity|].
    rewrite filter_drops_task. exact IH. }
  split; [|split; [exact Hnone|split]].
  - unfold drop_task, JsObject.spread, JsObject.map_values, JsObject.keys.
    rewrite map_map. reflexivity.
  - clear Hnone. unfold drop_task, JsObject.spread, JsObject.map_values.
    induction (columns st) as [|[k c] r IH]; simpl; [constructor|].
    constructor; [|exact IH]. simpl. repeat split.
  - apply drop_task_absent. exact Hnone.
Qed.

(** ** Members and boards *)

Lemma filter_fresh_member (id : string) (ms : list TeamMember.t) :
  ~ In id (map TeamMember.id ms) ->
  filter (fun m => negb (String.eqb (TeamMember.id m) id)) ms = ms.
Proof.
  induction ms as [|m r IH]; simpl; intros H; [reflexivity|].
  destruct (String.eqb_spec (TeamMember.id m) id) as [E|Hne].
  - exfalso. apply H. left. exact E.
  - simpl. f_equal. apply IH. intros Hin. apply H. right. exact Hin.
Qed.

Lemma filter_fresh_board (id : string) (bs : list Board.t) :
  ~ In id (map Board.id bs) ->
  filter (fun b => negb (String.eqb (Board.id b) id)) bs = bs.
Proof.
  induction bs as [|b r IH]; simpl; intros H; [reflexivity|].
  destruct (String.eqb_spec (Board.id b) id) as [E|Hne].
  - exfalso. apply H. left. exact E.
  - simpl. f_equal. apply IH. intros Hin. apply H. right. exact Hin.
Qed.

(** X7. A successful add-member request appends the returned member to
    the end of the list and selects it only when no member was selected.
    Deleting that member again (no other member having its id) gives the
    list back; the selection is as before when a member was selected,
    and otherwise falls on the first member of the list, if any. *)
Theorem add_then_remove_member (st : AppState) (member created : TeamMember.t) :
  ~ In (TeamMember.id created) (map TeamMember.id (members st)) ->
  selectedMember st <> Some (TeamMember.id created) ->
  let st1 := state_of (run (fun cl => handleAddMember cl member (Resolved created)) st) in
  let st2 := state_of (run (fun cl =>
               handleRemoveMember cl (TeamMember.id created) (Resolved tt)) st1) in
  members st1 = members st ++ [created] /\
  members st2 = members st /\
  (truthy (selectedMember st) = true ->
   selectedMember st1 = selectedMember st /\ selectedMember st2 = selectedMember st) /\
  (truthy (selectedMember st) = false ->
   selectedMember st1 = Some (TeamMember.id created) /\
   selectedMember st2 = option_map TeamMember.id (hd_error (members st))).
Proof.
  intros Hfresh Hsel st1 st2. subst st1 st2.
  unfold run, handleAddMember, handleRemoveMember, state_of.
  assert (Hfilter :
    filter (fun m => negb (String.eqb (TeamMember.id m) (TeamMember.id created)))
           (members st ++ [created]) = members st).
  { rewrite filter_app. simpl. rewrite String.eqb_refl. simpl. rewrite app_nil_r.
    apply filter_fresh_member. exact Hfresh. }
  destruct (truthy (selectedMember st)) eqn:Et.
  - cbn -[filter].
    assert (Hne : opt_eqb (selectedMember st) (Some (TeamMember.id created)) = false).
    { destruct (selectedMember st) as [s|]; [|reflexivity]. simpl.
      destruct (String.eqb_spec s (TeamMember.id created)); [congruence | reflexivity]. }
    rewrite Hne. cbn -[filter]. rewrite Hfilter.
    split; [reflexivity|]. split; [reflexivity|].
    split; [intros _; split; reflexivity | discriminate].
  - unfold_monad. cbn -[filter app hd_error Nat.ltb length].
    rewrite String.eqb_refl, Hfilter, length_app, Nat.add_1_r.
    destruct (members st) as [|m0 ms]; cbn;
      (split; [reflexivity|]); (split; [reflexivity|]);
      (split; [discriminate | intros _; split; reflexivity]).
Qed.

Lemma add_then_remove_member_example :
  let st := mkApp [Sample.alice] [] None [] None None None None in
  let st1 := state_of (run (fun cl =>
               handleAddMember cl Sample.bob (Resolved Sample.bob)) st) in
  let st2 := state_of (run (fun cl => handleRemoveMember cl "m2" (Resolved tt)) st1) in
  members st2 = [Sample.alice] /\ selectedMember st2 = Some "m1".
Proof.
  intros st st1 st2.
  assert (Hfresh : ~ In (TeamMember.id Sample.bob) (map TeamMember.id (members st))).
  { simpl. intros [H|[]]. discriminate. }
  assert (Hsel : selectedMember st <> Some (TeamMember.id Sample.bob)) by discriminate.
  destruct (add_then_remove_member st Sample.bob Sample.bob Hfresh Hsel)
    as [_ [Hm [_ Hnone]]].
  split; [exact Hm | exact (proj2 (Hnone eq_refl))].
Defined.

(** X8. The add-board handler sends a board titled 'New Board' whose
    columns are todo, progress, testing and completed in this order,
    each keyed by its id, with no tasks, and carrying as [boardId] the id
    of the board selected so far (or the empty string), not the id of the
    new board. On success the returned board is appended to the list,
    becomes the selected board and its columns are shown. *)
Theorem add_board_defaults (st : AppState) (uuid : string) (created : Board.t) :
  let out := run (fun cl => handleAddBoard cl uuid (Resolved created)) st in
  (exists sent,
     hd_error (trace_of out) = Some (Request (CreateBoard sent)) /\
     Board.id sent = uuid /\ Board.title sent = "New Board" /\
     JsObject.keys (Board.columns sent) = ["todo"; "progress"; "testing"; "completed"] /\
     Forall (fun kc => Column.id (snd kc) = fst kc /\
                       Column.tasks (snd kc) = [] /\
                       Column.boardId (snd kc) = or_empty (selectedBoard st))
            (Board.columns sent)) /\
  boards (state_of out) = boards st ++ [created] /\
  selectedBoard (state_of out) = Some (Board.id created) /\
  columns (state_of out) = Board.columns created /\
  members (state_of out) = members st /\
  selectedMember (state_of out) = selectedMember st.
Proof.
  intros out. subst out. unfold run, handleAddBoard, state_of, trace_of. cbn.
  split; [|repeat split].
  eexists. split; [reflexivity|]. repeat split.
  repeat constructor.
Qed.

(** X9. Adding a board and deleting it again (its id being new) gives
    the board list back when there was a board before, and then selects
    the first board of the list and shows its columns, whichever board
    was selected before; when there was no board before, the new board
    is the last one and the delete handler refuses to delete it. *)
Theorem add_then_remove_board (st : AppState) (uuid : string) (created : Board.t)
  (resp : response unit) :
  ~ In (Board.id created) (map Board.id (boards st)) ->
  let st1 := state_of (run (fun cl => handleAddBoard cl uuid (Resolved created)) st) in
  let out2 := run (fun cl => handleRemoveBoard cl (Board.id created) resp) st1 in
  (boards st = [] ->
   out2 = (Ok tt, st1, [Alert "Cannot delete the last board"])) /\
  (forall b0 bs, boards st = b0 :: bs -> resp = Resolved tt ->
   boards (state_of out2) = boards st /\
   selectedBoard (state_of out2) = Some (Board.id b0) /\
   columns (state_of out2) = Board.columns b0).
Proof.
  intros Hfresh st1 out2. subst st1 out2.
  unfold run, handleAddBoard, handleRemoveBoard, state_of. cbn -[filter app length Nat.leb].
  split.
  - intros Hnil. rewrite Hnil. reflexivity.
  - intros b0 bs Hb ->.
    assert (Hfilter :
      filter (fun b => negb (String.eqb (Board.id b) (Board.id created)))
             (boards st ++ [created]) = boards st).
    { rewrite filter_app. simpl. rewrite String.eqb_refl. simpl.
      rewrite app_nil_r. apply filter_fresh_board. exact Hfresh. }
    replace (length (boards st ++ [created]) <=? 1)%nat with false
      by (symmetry; apply Nat.leb_gt; rewrite length_app, Hb; simpl; lia).
    unfold_monad. cbn -[filter app]. rewrite String.eqb_refl, Hfilter, Hb.
    cbn. repeat split.
Qed.

Lemma add_then_remove_board_example :
  let st := mkApp [] [Sample.board1; Sample.board2] (Some "b2") Sample.three_columns
                  None None None None in
  let st1 := state_of (run (fun cl =>
               handleAddBoard cl "b3" (Resolved (Board.mk "b3" "New Board" []))) st) in
  let st2 := state_of (run (fun cl => handleRemoveBoard cl "b3" (Resolved tt)) st1) in
  selectedBoard st2 = Some "b1".
Proof.
  intros st st1 st2.
  assert (Hfresh : ~ In (Board.id (Board.mk "b3" "New Board" []))
                        (map Board.id (boards st))).
  { simpl. intros [H|[H|[]]]; discriminate. }
  exact (proj1 (proj2 (proj2 (add_then_remove_board st "b3"
           (Board.mk "b3" "New Board" []) (Resolved tt) Hfresh)
           Sample.board1 [Sample.board2] eq_refl eq_refl))).
Defined.

Lemma find_retitled (s boardId title : string) (bs : list Board.t) :
  find (fun b => String.eqb (Board.id b) s)
       (map (fun b => if String.eqb (Board.id b) boardId
                      then Board.with_title title b else b) bs) =
  option_map (fun b => if String.eqb (Board.id b) boardId
                       then Board.with_title title b else b)
             (find (fun b => String.eqb (Board.id b) s) bs).
Proof.
  induction bs as [|b r IH]; simpl; [reflexivity|].
  destruct (String.eqb (Board.id b) boardId) eqn:Eb; simpl;
    destruct (String.eqb (Board.id b) s); simpl; try exact IH;
    rewrite ?Eb; reflexivity.
Qed.

(** X10. A successful board rename keeps the ids, the order and the
    columns of all boards and gives the new title to the boards of that
    id. The board list being a new array, the effect on the selected
    board runs again: the rendered columns are replaced by the stored
    columns of the selected board, whatever they were before. *)
Theorem rename_board_resets_columns (st : AppState) (boardId title s : string)
  (b : Board.t) :
  selectedBoard st = Some s -> s <> "" ->
  find (fun b => String.eqb (Board.id b) s) (boards st) = Some b ->
  let st1 := state_of (run (fun _ => handleEditBoard boardId title (Resolved tt)) st) in
  let st2 := state_of (selectedBoardEffect st1 st1) in
  map Board.id (boards st1) = map Board.id (boards st) /\
  map Board.columns (boards st1) = map Board.columns (boards st) /\
  map Board.title (boards st1) =
    map (fun b => if String.eqb (Board.id b) boardId then title else Board.title b)
        (boards st) /\
  columns st1 = columns st /\
  columns st2 = Board.columns b.
Proof.
  intros Hsel Hnz Hfind st1 st2. subst st1 st2.
  unfold run, handleEditBoard, state_of, selectedBoardEffect. cbn -[find].
  rewrite Hsel. cbn -[find].
  destruct (String.eqb_spec s "") as [|_]; [contradiction|]. cbn -[find].
  rewrite !map_map.
  split; [apply map_ext; intros x; destruct (String.eqb (Board.id x) boardId); reflexivity|].
  split; [apply map_ext; intros x; destruct (String.eqb (Board.id x) boardId); reflexivity|].
  split; [apply map_ext; intros x; destruct (String.eqb (Board.id x) boardId); reflexivity|].
  split; [reflexivity|].
  rewrite (find_retitled s boardId title (boards st)), Hfind. cbn.
  destruct (String.eqb (Board.id b) boardId); reflexivity.
Qed.

Lemma rename_board_resets_columns_example :
  let st := Sample.app Sample.three_columns in
  let st1 := state_of (run (fun _ => handleEditBoard "b2" "Later" (Resolved tt)) st) in
  columns (state_of (selectedBoardEffect st1 st1)) = Sample.two_columns.
Proof.
  intros st st1.
  assert (Hnz : "b1" <> "") by discriminate.
  exact (proj2 (proj2 (proj2 (proj2
    (rename_board_resets_columns st "b2" "Later" "b1" Sample.board1
       eq_refl Hnz eq_refl))))).
Defined.

(** X11. Selecting another board and then the first one again shows the
    stored columns of that board, whatever the rendered columns were:
    reorders, moves and additions that were made on the rendered columns
    only are not shown any more. *)
Theorem switch_away_and_back (st : AppState) (b1 b2 : string) (board1 : Board.t) :
  selectedBoard st = Some b1 -> b1 <> "" -> b2 <> b1 ->
  find (fun b => String.eqb (Board.id b) b1) (boards st) = Some board1 ->
  let st' := state_of (selectBoard b1 (state_of (selectBoard b2 st))) in
  columns st' = Board.columns board1 /\ selectedBoard st' = Some b1 /\
  boards st' = boards st.
Proof.
  intros Hsel Hnz Hne Hfind st'. subst st'.
  rewrite (select_board_state (state_of (selectBoard b2 st)) b1).
  rewrite (select_board_state st b2). rewrite Hsel. cbn -[find].
  destruct (String.eqb_spec b1 b2) as [E|_]; [congruence|].
  destruct (String.eqb_spec b1 "") as [|_]; [contradiction|].
  destruct (String.eqb b2 ""); cbn -[find].
  - destruct (String.eqb_spec b2 b1) as [E|_]; [congruence|].
    rewrite Hfind. repeat split.
  - destruct (find (fun b => String.eqb (Board.id b) b2) (boards st)); cbn -[find];
      (destruct (String.eqb_spec b2 b1) as [E|_]; [congruence|]);
      rewrite Hfind; repeat split.
Qed.

Lemma switch_away_and_back_example :
  let st := Sample.dragging_column "todo" Sample.three_columns in
  let st1 := state_of (run (fun cl => handleColumnDragOver cl "testing") st) in
  columns (state_of (selectBoard "b1" (state_of (selectBoard "b2" st1))))
  = Sample.two_columns.
Proof.
  intros st st1.
  assert (Hnz : "b1" <> "") by discriminate.
  assert (Hne : "b2" <> "b1") by discriminate.
  exact (proj1 (switch_away_and_back st1 "b1" "b2" Sample.board1
                  eq_refl Hnz Hne eq_refl)).
Defined.

(** X12. The initial load issues both requests. When either is rejected
    the error is logged and the state is kept as it was. When both
    succeed the members and boards are replaced; with no board loaded the
    selection and the columns stay as they were, and with at least one
    board the first one is selected and, also after the effect that
    follows, its columns are the rendered ones. *)
Theorem load_initial_data (st : AppState) :
  (forall rm rb, rm = Rejected \/ rb = Rejected ->
     loadInitialData rm rb st =
     (Ok tt, st,
      [Fetch GetMembers; Fetch GetBoards;
       Effect (ConsoleError "Failed to load initial data:")])) /\
  (forall ms,
     let st' := loadAndRender (Resolved ms) (Resolved []) st in
     members st' = ms /\ boards st' = [] /\
     selectedBoard st' = selectedBoard st /\ columns st' = columns st) /\
  (forall ms b0 bs,
     let out := loadInitialData (Resolved ms) (Resolved (b0 :: bs)) st in
     let st' := loadAndRender (Resolved ms) (Resolved (b0 :: bs)) st in
     firstn 2 (snd out) = [Fetch GetMembers; Fetch GetBoards] /\
     columns (snd (fst out)) = Board.columns b0 /\
     members st' = ms /\ boards st' = b0 :: bs /\
     selectedBoard st' = Some (Board.id b0) /\ columns st' = Board.columns b0).
Proof.
  split; [|split].
  - intros rm rb [->| ->]; [reflexivity|]. destruct rm; reflexivity.
  - intros ms st'. subst st'. unfold loadAndRender, loadInitialData, state_of,
      selectedBoardEffect. cbn.
    destruct (truthy (selectedBoard st)); repeat split.
  - intros ms b0 bs out st'. subst out st'.
    unfold loadAndRender, loadInitialData, state_of, selectedBoardEffect. cbn.
    destruct (String.eqb (Board.id b0) ""); cbn; [repeat split|].
    rewrite String.eqb_refl. repeat split.
Qed.

(** X13. The grid has exactly four columns while the board has at most
    four, one per board column for five or six, and exactly six for more
    than six; the number of board columns is the number of keys of the
    collection. *)
Theorem grid_columns_bounds (cols : Columns) :
  columnCount cols = length cols /\
  ((columnCount cols <= 4)%nat -> gridCols cols = 4%nat) /\
  ((5 <= columnCount cols <= 6)%nat -> gridCols cols = columnCount cols) /\
  ((6 < columnCount cols)%nat -> gridCols cols = 6%nat).
Proof.
  unfold gridCols, columnCount, JsObject.keys. rewrite length_map.
  destruct (Nat.leb_spec (length cols) 4); repeat split; lia.
Qed.

(** ** More on the reorder engine *)

Lemma find_absent_id (taskId : string) (ts : list Task.t) :
  existsb (Task.has_id taskId) ts = false -> find (Task.has_id taskId) ts = None.
Proof.
  induction ts as [|x xs IH]; simpl; intros H; [reflexivity|].
  apply orb_false_iff in H. destruct H as [Ex Exs]. rewrite Ex. apply IH. exact Exs.
Qed.

(** X14. The task drag-over handler issues a request exactly when a task
    is being dragged, its source column id is a key of the collection,
    the source sequence holds the task, and the target id is a key of
    the collection or a name inherited from [Object.prototype]. It
    throws exactly when a task is being dragged, its source column id is
    no key but an inherited name, and the target id is a key or an
    inherited name. Whenever it issues no request it changes no state
    and emits nothing. *)
Theorem task_drag_over_request_iff (st : AppState) (target : string) (idx : Z)
  (resp : response Task.t) :
  let out := run (fun cl => handleTaskDragOver cl target idx resp) st in
  (existsb is_request (trace_of out) = true <->
   exists dt src tk,
     draggedTask st = Some dt /\
     JsObject.get (sourceColumnId dt) (columns st) = Some src /\
     find (Task.has_id (dragged_id dt)) (Column.tasks src) = Some tk /\
     JsObject.lookup target (columns st) <> JsObject.Undefined) /\
  (fst (fst out) = Thrown <->
   exists dt,
     draggedTask st = Some dt /\
     JsObject.lookup (sourceColumnId dt) (columns st) = JsObject.Inherited /\
     JsObject.lookup target (columns st) <> JsObject.Undefined) /\
  (existsb is_request (trace_of out) = false ->
   state_of out = st /\ trace_of out = []).
Proof.
  intros out. subst out. unfold run, handleTaskDragOver, trace_of, state_of.
  destruct (draggedTask st) as [dt|] eqn:Edt.
  2:{ cbn. split; [|split].
      - split; [discriminate|]. intros [dt [src [tk [H _]]]]. discriminate.
      - split; [discriminate|]. intros [dt [H _]]. discriminate.
      - intros _. split; reflexivity. }
  assert (Hsrc : forall dt' src, Some dt = Some dt' ->
            JsObject.get (sourceColumnId dt') (columns st) = Some src ->
            JsObject.lookup (sourceColumnId dt) (columns st) = JsObject.Own src).
  { intros dt' src H Hg. injection H as <-. apply lookup_Own_get. exact Hg. }
  assert (Hinh : forall dt', Some dt = Some dt' ->
            JsObject.lookup (sourceColumnId dt') (columns st) = JsObject.Inherited ->
            JsObject.lookup (sourceColumnId dt) (columns st) = JsObject.Inherited).
  { intros dt' H Hg. injection H as <-. exact Hg. }
  destruct (JsObject.lookup (sourceColumnId dt) (columns st)) as [sc| |] eqn:Es.
  - apply lookup_Own_get in Es.
    assert (Hnot : ~ exists dt', Some dt = Some dt' /\
              JsObject.lookup (sourceColumnId dt') (columns st) = JsObject.Inherited /\
              JsObject.lookup target (columns st) <> JsObject.Undefined).
    { intros [dt' [H [Hi _]]]. specialize (Hinh dt' H Hi). discriminate. }
    destruct (JsObject.lookup target (columns st)) as [tc| |] eqn:Et.
    + destruct (find (Task.has_id (dragged_id dt)) (Column.tasks sc)) as [tk|] eqn:Ef.
      * split; [|split].
        -- split; [|destruct resp; reflexivity].
           intros _. exists dt, sc, tk. repeat split; try assumption. discriminate.
        -- split; [destruct resp; discriminate | intros H; contradiction].
        -- destruct resp; discriminate.
      * cbn. split; [|split].
        -- split; [discriminate|].
           intros [dt' [src [tk [H [Hg [Hf _]]]]]]. specialize (Hsrc dt' src H Hg).
           injection H as <-. injection Hsrc as <-. congruence.
        -- split; [discriminate | intros H; contradiction].
        -- intros _. split; reflexivity.
    + destruct (find (Task.has_id (dragged_id dt)) (Column.tasks sc)) as [tk|] eqn:Ef.
      * split; [|split].
        -- split; [|destruct resp; reflexivity].
           intros _. exists dt, sc, tk. repeat split; try assumption. discriminate.
        -- split; [destruct resp; discriminate | intros H; contradiction].
        -- destruct resp; discriminate.
      * cbn. split; [|split].
        -- split; [discriminate|].
           intros [dt' [src [tk [H [Hg [Hf _]]]]]]. specialize (Hsrc dt' src H Hg).
           injection H as <-. injection Hsrc as <-. congruence.
        -- split; [discriminate | intros H; contradiction].
        -- intros _. split; reflexivity.
    + cbn. split; [|split].
      * split; [discriminate|].
        intros [dt' [src [tk [_ [_ [_ H]]]]]]. contradiction.
      * split; [discriminate | intros H; contradiction].
      * intros _. split; reflexivity.
  - assert (Hnot : ~ exists dt' src tk, Some dt = Some dt' /\
              JsObject.get (sourceColumnId dt') (columns st) = Some src /\
              find (Task.has_id (dragged_id dt')) (Column.tasks src) = Some tk /\
              JsObject.lookup target (columns st) <> JsObject.Undefined).
    { intros [dt' [src [tk [H [Hg _]]]]]. specialize (Hsrc dt' src H Hg). discriminate. }
    destruct (JsObject.lookup target (columns st)) as [tc| |] eqn:Et; cbn.
    + split; [|split].
      * split; [discriminate | intros H; contradiction].
      * split; [|reflexivity]. intros _. exists dt.
        split; [reflexivity | split; [exact Es | discriminate]].
      * intros _. split; reflexivity.
    + split; [|split].
      * split; [discriminate | intros H; contradiction].
      * split; [|reflexivity]. intros _. exists dt.
        split; [reflexivity | split; [exact Es | discriminate]].
      * intros _. split; reflexivity.
    + split; [|split].
      * split; [discriminate | intros H; contradiction].
      * split; [discriminate|]. intros [dt' [_ [_ H]]]. contradiction.
      * intros _. split; reflexivity.
  - assert (Hnot : ~ exists dt' src tk, Some dt = Some dt' /\
              JsObject.get (sourceColumnId dt') (columns st) = Some src /\
              find (Task.has_id (dragged_id dt')) (Column.tasks src) = Some tk /\
              JsObject.lookup target (columns st) <> JsObject.Undefined).
    { intros [dt' [src [tk [H [Hg _]]]]]. specialize (Hsrc dt' src H Hg). discriminate. }
    assert (Hnot' : ~ exists dt', Some dt = Some dt' /\
              JsObject.lookup (sourceColumnId dt') (columns st) = JsObject.Inherited /\
              JsObject.lookup target (columns st) <> JsObject.Undefined).
    { intros [dt' [H [Hi _]]]. specialize (Hinh dt' H Hi). discriminate. }
    destruct (JsObject.lookup target (columns st)) as [tc| |] eqn:Et; cbn;
      (split; [|split];
       [ split; [discriminate | intros H; contradiction]
       | split; [discriminate | intros H; contradiction]
       | intros _; split; reflexivity ]).
Qed.

(** X15. After a task was moved to another column, further drag-over
    events of the same drag do nothing: the source recorded at drag
    start no longer holds the task, so no request is sent and no state
    changes, whatever the target, the index and the outcome. *)
Theorem repeated_drag_over_is_inert (st : AppState) (target : string) (idx : Z)
  (resp : Task.t) (dt : DraggedTask) (src tgt : Column.t) (tk : Task.t) :
  draggedTask st = Some dt ->
  JsObject.get (sourceColumnId dt) (columns st) = Some src ->
  JsObject.get target (columns st) = Some tgt ->
  find (Task.has_id (dragged_id dt)) (Column.tasks src) = Some tk ->
  sourceColumnId dt <> target ->
  let st1 := state_of (run (fun cl =>
               handleTaskDragOver cl target idx (Resolved resp)) st) in
  forall target' idx' resp',
    run (fun cl => handleTaskDragOver cl target' idx' resp') st1 = (Ok tt, st1, []).
Proof.
  intros Hdt Hs Ht Hf Hne st1 target' idx' resp'. subst st1.
  rewrite (task_drag_over_resolved st target idx resp dt src tgt tk Hdt Hs Ht Hf).
  unfold state_of. cbn [fst snd].
  rewrite (move_task_updates _ _ _ idx src tgt _ (columns st) src tgt Hs Ht).
  unfold run, handleTaskDragOver. cbn [draggedTask columns]. rewrite Hdt.
  erewrite lookup_own.
  2:{ rewrite (get_update_other target (sourceColumnId dt)) by exact Hne.
      apply (get_update_same (sourceColumnId dt) _ (columns st) src Hs). }
  cbn [Column.tasks Column.with_tasks].
  rewrite find_absent_id.
  2:{ pose proof (filter_drops_task (dragged_id dt) src) as Hd.
      unfold holds_task in Hd. exact Hd. }
  destruct (JsObject.lookup target' _); reflexivity.
Qed.

Lemma repeated_drag_over_is_inert_example :
  let st := Sample.dragging_task "T1" "todo" Sample.two_columns in
  let st1 := state_of (run (fun cl =>
               handleTaskDragOver cl "doing" 0 (Resolved (Sample.task "T1" "doing"))) st) in
  run (fun cl => handleTaskDragOver cl "doing" 0 (Resolved (Sample.task "T1" "doing"))) st1
  = (Ok tt, st1, []).
Proof.
  intros st st1.
  assert (Hne : "todo" <> "doing") by discriminate.
  exact (repeated_drag_over_is_inert st "doing" 0 (Sample.task "T1" "doing")
           (mkDraggedTask "T1" "todo" 0)
           (Sample.column "todo" [Sample.task "T1" "todo"; Sample.task "T2" "todo"])
           (Sample.column "doing" []) (Sample.task "T1" "todo")
           eq_refl eq_refl eq_refl eq_refl Hne
           "doing" 0%Z (Resolved (Sample.task "T1" "doing"))).
Defined.

Lemma length_filter_out_id (taskId : string) (ts : list Task.t) :
  (length (filter (fun t => negb (Task.has_id taskId t)) ts)
   + count_occ string_dec (map Task.id ts) taskId = length ts)%nat.
Proof.
  induction ts as [|x xs IH]; simpl; [reflexivity|].
  unfold Task.has_id at 1.
  destruct (String.eqb_spec (Task.id x) taskId) as [E|Hne]; simpl.
  - destruct (string_dec (Task.id x) taskId); [lia | contradiction].
  - destruct (string_dec (Task.id x) taskId); [contradiction | lia].
Qed.

(** X16. A move to another column keeps the keys and the order of the
    columns, leaves every column other than source and target as it is,
    takes out of the source sequence exactly the tasks of the dragged id
    (the others keep their order), makes the target sequence one longer,
    keeps id, title and board id of both columns, and changes no state
    variable other than the columns; when the source held the task once,
    the two sequences together hold as many tasks as before. *)
Theorem task_move_frame (st : AppState) (target : string) (idx : Z)
  (resp : Task.t) (dt : DraggedTask) (src tgt : Column.t) (tk : Task.t) :
  draggedTask st = Some dt ->
  JsObject.get (sourceColumnId dt) (columns st) = Some src ->
  JsObject.get target (columns st) = Some tgt ->
  find (Task.has_id (dragged_id dt)) (Column.tasks src) = Some tk ->
  sourceColumnId dt <> target ->
  let st' := state_of (run (fun cl =>
               handleTaskDragOver cl target idx (Resolved resp)) st) in
  JsObject.keys (columns st') = JsObject.keys (columns st) /\
  (forall k, k <> sourceColumnId dt -> k <> target ->
             JsObject.get k (columns st') = JsObject.get k (columns st)) /\
  (exists s' t',
     JsObject.get (sourceColumnId dt) (columns st') = Some s' /\
     JsObject.get target (columns st') = Some t' /\
     Column.tasks s' =
       filter (fun t => negb (Task.has_id (dragged_id dt) t)) (Column.tasks src) /\
     length (Column.tasks t') = S (length (Column.tasks tgt)) /\
     (Column.id s', Column.title s', Column.boardId s') =
       (Column.id src, Column.title src, Column.boardId src) /\
     (Column.id t', Column.title t', Column.boardId t') =
       (Column.id tgt, Column.title tgt, Column.boardId tgt) /\
     (count_occ string_dec (task_ids src) (dragged_id dt) = 1%nat ->
      (length (Column.tasks s') + length (Column.tasks t')
       = length (Column.tasks src) + length (Column.tasks tgt))%nat)) /\
  (members st', boards st', selectedBoard st', selectedMember st',
   draggedColumn st', draggedTask st', selectedTask st') =
  (members st, boards st, selectedBoard st, selectedMember st,
   draggedColumn st, draggedTask st, selectedTask st).
Proof.
  intros Hdt Hs Ht Hf Hne st'. subst st'.
  rewrite (task_drag_over_resolved st target idx resp dt src tgt tk Hdt Hs Ht Hf).
  unfold state_of.
  cbn [fst snd columns members boards selectedBoard selectedMember draggedColumn
       draggedTask selectedTask].
  rewrite (move_task_updates _ _ _ idx src tgt _ (columns st) src tgt Hs Ht).
  split; [rewrite !keys_update; reflexivity|].
  split; [intros k Hk1 Hk2; rewrite !get_update_other by assumption; reflexivity|].
  split; [|reflexivity].
  eexists. eexists.
  split.
  { rewrite (get_update_other target (sourceColumnId dt)) by exact Hne.
    apply (get_update_same _ _ _ src Hs). }
  split.
  { eapply get_update_same. rewrite get_update_other by congruence. exact Ht. }
  cbn [Column.tasks Column.with_tasks Column.id Column.title Column.boardId].
  split; [reflexivity|].
  assert (Hlen : length (firstn (JsArray.relative_start idx (length (Column.tasks tgt)))
                           (Column.tasks tgt)
                         ++ Task.with_columnId target tk
                            :: skipn (JsArray.relative_start idx (length (Column.tasks tgt)))
                                 (Column.tasks tgt))
                 = S (length (Column.tasks tgt))).
  { rewrite length_app. simpl. rewrite Nat.add_succ_r, <- length_app, firstn_skipn.
    reflexivity. }
  split; [exact Hlen|]. split; [reflexivity|]. split; [reflexivity|].
  intros Hone. rewrite Hlen.
  pose proof (length_filter_out_id (dragged_id dt) (Column.tasks src)) as Hf'.
  unfold task_ids in Hone. rewrite Hone in Hf'. lia.
Qed.

Lemma task_move_frame_example :
  let st := Sample.dragging_task "T1" "todo" Sample.busy_columns in
  let st' := state_of (run (fun cl =>
               handleTaskDragOver cl "doing" 1 (Resolved (Sample.task "T1" "doing"))) st) in
  JsObject.keys (columns st') = ["todo"; "doing"].
Proof.
  intros st st'.
  assert (Hne : "todo" <> "doing") by discriminate.
  exact (proj1 (task_move_frame st "doing" 1 (Sample.task "T1" "doing")
                  (mkDraggedTask "T1" "todo" 0)
                  (Sample.column "todo" [Sample.task "T1" "todo"])
                  (Sample.column "doing" [Sample.task "A" "doing"; Sample.task "B" "doing"])
                  (Sample.task "T1" "todo")
                  eq_refl eq_refl eq_refl eq_refl Hne)).
Defined.

(** X17. A column drag-over never issues a request and changes no state
    variable other than the columns: the order of the columns lives in
    the rendered collection only, and the dragged column stays recorded.
    No handler of a mutation, no selection of a board and no start of a
    task drag changes the dragged column either, so once
    [handleColumnDragStart] has set it, a later column drag-over over
    another column reorders again with the same dragged column. It is
    [handleTaskDragEnd], the handler of a task card's drag end, that
    clears the dragged column and the dragged task, keeping the columns;
    in the state it leaves, column and task drag-over events do
    nothing. *)
Theorem column_drag_is_local (st : AppState) (target : string) :
  let out := run (fun cl => handleColumnDragOver cl target) st in
  let ended := state_of (handleTaskDragEnd st) in
  filter is_request (trace_of out) = [] /\
  (members (state_of out), boards (state_of out), selectedBoard (state_of out),
   selectedMember (state_of out), draggedColumn (state_of out),
   draggedTask (state_of out), selectedTask (state_of out)) =
  (members st, boards st, selectedBoard st, selectedMember st,
   draggedColumn st, draggedTask st, selectedTask st) /\
  (forall m, draggedColumn (state_of (run (handler_of m) st)) = draggedColumn st) /\
  (forall boardId, draggedColumn (state_of (selectBoard boardId st)) = draggedColumn st) /\
  (forall taskId source index,
     draggedColumn (state_of (handleTaskDragStart taskId source index st)) =
     draggedColumn st) /\
  (forall columnId,
     draggedColumn (state_of (handleColumnDragStart columnId st)) = Some columnId) /\
  (forall dragged target',
     draggedColumn st = Some dragged -> dragged <> "" -> dragged <> target' ->
     columns (state_of (run (fun cl => handleColumnDragOver cl target') (state_of out))) =
     reorder_columns dragged target' (columns (state_of out))) /\
  (draggedColumn ended, draggedTask ended, columns ended) = (None, None, columns st) /\
  run (fun cl => handleColumnDragOver cl target) ended = (Ok tt, ended, []) /\
  (forall idx resp,
     run (fun cl => handleTaskDragOver cl target idx resp) ended = (Ok tt, ended, [])).
Proof.
  intros out ended. subst out ended.
  split; [|split; [|split; [|split; [|split; [|split; [|split; [|split; [|split]]]]]]]].
  - unfold run, handleColumnDragOver, state_of, trace_of.
    destruct (draggedColumn st) as [d|]; [|reflexivity].
    destruct (negb (truthy (Some d)) || String.eqb d target); reflexivity.
  - unfold run, handleColumnDragOver, state_of, trace_of.
    destruct (draggedColumn st) as [d|] eqn:E; [|cbn; rewrite E; reflexivity].
    destruct (negb (truthy (Some d)) || String.eqb d target); cbn; rewrite E;
      reflexivity.
  - intros m.
    destruct m as [member resp|id resp|uuid resp|boardId title resp|boardId resp
                  |columnId uuid today resp|task resp|taskId resp|task uuid resp
                  |columnId title resp|columnId resp|uuid resp|target' idx resp];
      destruct resp; unfold run, handler_of, state_of.
    all: try (destruct st; unfold handleAddMember, handleRemoveMember, handleAddBoard,
      handleEditBoard, handleRemoveBoard, handleAddTask, handleEditTask,
      handleRemoveTask, handleCopyTask, handleEditColumn, handleRemoveColumn,
      handleAddColumn, handleTaskDragOver, setColumns_partial;
      run_handler; reflexivity).
  - intros boardId. unfold selectBoard, selectedBoardEffect, state_of.
    destruct st; run_handler; reflexivity.
  - intros taskId source index. reflexivity.
  - intros columnId. reflexivity.
  - intros dragged target' Hd Hnz Hne.
    assert (Hkeep : draggedColumn
              (state_of (run (fun cl => handleColumnDragOver cl target) st)) = Some dragged).
    { unfold run, handleColumnDragOver, state_of. rewrite Hd.
      destruct (negb (truthy (Some dragged)) || String.eqb dragged target); cbn;
        exact Hd. }
    set (st1 := state_of (run (fun cl => handleColumnDragOver cl target) st)) in *.
    unfold run at 1. unfold handleColumnDragOver at 1. rewrite Hkeep.
    unfold truthy.
    destruct (String.eqb_spec dragged "") as [E|_]; [contradiction|].
    destruct (String.eqb_spec dragged target') as [E|_]; [contradiction|].
    reflexivity.
  - reflexivity.
  - reflexivity.
  - intros idx resp. reflexivity.
Qed.

Section MoveBack.
Context {A : Type}.
Implicit Types (l : list A).

Lemma nth_error_move_to (i j n : nat) (x : A) l :
  nth_error l i = Some x -> (j < length l)%nat ->
  nth_error (move_to i j l) n =
  if (n <? j)%nat
  then (if (n <? i)%nat then nth_error l n else nth_error l (S n))
  else if (n =? j)%nat then Some x
       else (if (n - 1 <? i)%nat then nth_error l (n - 1) else nth_error l (S (n - 1))).
Proof.
  intros Hx Hj. unfold move_to. rewrite Hx.
  rewrite nth_error_inserted by (rewrite (length_without i x l Hx); lia).
  rewrite !nth_error_without. reflexivity.
Qed.

Lemma length_move_to (i j : nat) l : length (move_to i j l) = length l.
Proof. apply Permutation_length. apply move_to_perm. Qed.

(** Moving an element from [i] to [j] and then from [j] back to [i]. *)
Lemma move_to_back (i j : nat) l :
  (i < length l)%nat -> (j < length l)%nat -> move_to j i (move_to i j l) = l.
Proof.
  intros Hi Hj.
  destruct (nth_error l i) as [x|] eqn:Hx; [|apply nth_error_None in Hx; lia].
  assert (Hxj : nth_error (move_to i j l) j = Some x).
  { rewrite (nth_error_move_to i j j x l Hx Hj).
    destruct (Nat.ltb_spec j j); [lia|]. rewrite Nat.eqb_refl. reflexivity. }
  apply nth_error_ext. intros n.
  rewrite (nth_error_move_to j i n x (move_to i j l) Hxj)
    by (rewrite length_move_to; exact Hi).
  rewrite !(nth_error_move_to i j _ x l Hx Hj).
  assert (Hout : forall m, (length l <= m)%nat -> nth_error l m = None)
    by (intros m Hm; apply nth_error_None; exact Hm).
  repeat match goal with
         | |- context [(?a <? ?b)%nat] => destruct (Nat.ltb_spec a b)
         | |- context [(?a =? ?b)%nat] => destruct (Nat.eqb_spec a b)
         end;
    subst; try lia; try (symmetry; exact Hx);
    try (f_equal; lia);
    try (replace (S (n - 1)) with n by lia; reflexivity).
Qed.

End MoveBack.

Lemma reorder_columns_plain (cols : Columns) (dragged target : string) (di ti : nat) :
  NoDup (JsObject.keys cols) -> plain_keys cols = true ->
  nth_error (JsObject.keys cols) di = Some dragged ->
  nth_error (JsObject.keys cols) ti = Some target ->
  reorder_columns dragged target cols = move_to di ti cols.
Proof.
  intros Hnd Hplain Hdi Hti.
  rewrite (reorder_columns_found dragged target cols di ti)
    by (apply findIndex_of_key; assumption).
  assert (Hperm : Permutation (move_to di ti cols) cols) by apply move_to_perm.
  apply fromEntries_plain.
  - apply (Permutation_NoDup (l := JsObject.keys cols)); [|exact Hnd].
    apply Permutation_map. symmetry. exact Hperm.
  - unfold plain_keys in Hplain. rewrite forallb_forall in *.
    intros k Hk. apply Hplain.
    apply (Permutation_in k (Permutation_map fst Hperm)). exact Hk.
Qed.

Lemma drag_over_keeps_dragged (st : AppState) (target : string) :
  draggedColumn (state_of (run (fun cl => handleColumnDragOver cl target) st)) =
  draggedColumn st.
Proof.
  unfold run, handleColumnDragOver, state_of.
  destruct (draggedColumn st) as [d|] eqn:E; [|cbn; exact E].
  destruct (negb (truthy (Some d)) || String.eqb d target); cbn; exact E.
Qed.

(** X18. For column ids that are not array indices: after a column was
    dragged over a target, dragging it over the column that now stands
    where it started puts every column back in its original place. *)
Theorem column_drag_back_restores (st : AppState) (dragged target back : string)
  (di ti : nat) :
  draggedColumn st = Some dragged ->
  distinct_keys (columns st) = true ->
  plain_keys (columns st) = true ->
  nth_error (JsObject.keys (columns st)) di = Some dragged ->
  nth_error (JsObject.keys (columns st)) ti = Some target ->
  dragged <> target -> dragged <> "" ->
  let st1 := state_of (run (fun cl => handleColumnDragOver cl target) st) in
  nth_error (JsObject.keys (columns st1)) di = Some back ->
  columns (state_of (run (fun cl => handleColumnDragOver cl back) st1)) = columns st.
Proof.
  intros Hdr Hdist Hplain Hdi Hti Hne Hnz st1 Hback.
  apply distinct_NoDup in Hdist.
  assert (Hst1 : columns st1 = move_to di ti (columns st)).
  { subst st1. rewrite columns_after_drag_over, Hdr.
    destruct (String.eqb_spec dragged ""); [contradiction|].
    destruct (String.eqb_spec dragged target); [contradiction|]. cbn [orb].
    apply reorder_columns_plain; assumption. }
  assert (Hidx : di <> ti) by (intros ->; congruence).
  assert (Hleni : (di < length (columns st))%nat).
  { unfold JsObject.keys in Hdi. rewrite <- (length_map fst).
    apply nth_error_Some. congruence. }
  assert (Hlenj : (ti < length (columns st))%nat).
  { unfold JsObject.keys in Hti. rewrite <- (length_map fst).
    apply nth_error_Some. congruence. }
  assert (Hperm : Permutation (columns st1) (columns st))
    by (rewrite Hst1; apply move_to_perm).
  assert (Hnd1 : NoDup (JsObject.keys (columns st1))).
  { apply (Permutation_NoDup (l := JsObject.keys (columns st))); [|exact Hdist].
    apply Permutation_map. symmetry. exact Hperm. }
  assert (Hplain1 : plain_keys (columns st1) = true).
  { unfold plain_keys in *. rewrite forallb_forall in *. intros k Hk. apply Hplain.
    apply (Permutation_in k (Permutation_map fst Hperm)). exact Hk. }
  assert (Hti1 : nth_error (JsObject.keys (columns st1)) ti = Some dragged).
  { rewrite Hst1. unfold JsObject.keys in *. rewrite nth_error_map in *.
    destruct (nth_error (columns st) di) as [[kd vd]|] eqn:Ed; [|discriminate].
    destruct (nth_error (columns st) ti) as [[kt vt]|] eqn:Et; [|discriminate].
    simpl in Hdi. injection Hdi as ->.
    rewrite (proj1 (move_to_positions di ti _ _ (columns st) Ed Et Hidx)).
    reflexivity. }
  assert (Hbne : dragged <> back).
  { intros <-. apply Hidx.
    apply (proj1 (NoDup_nth_error (JsObject.keys (columns st1))) Hnd1).
    - apply nth_error_Some. congruence.
    - congruence. }
  rewrite columns_after_drag_over.
  replace (draggedColumn st1) with (Some dragged)
    by (subst st1; rewrite drag_over_keeps_dragged; symmetry; exact Hdr).
  destruct (String.eqb_spec dragged ""); [contradiction|].
  destruct (String.eqb_spec dragged back); [contradiction|]. cbn [orb].
  rewrite (reorder_columns_plain (columns st1) dragged back ti di Hnd1 Hplain1 Hti1 Hback).
  rewrite Hst1. apply move_to_back; assumption.
Qed.

Lemma column_drag_back_restores_example :
  let st := Sample.dragging_column "todo" Sample.three_columns in
  let st1 := state_of (run (fun cl => handleColumnDragOver cl "testing") st) in
  columns (state_of (run (fun cl => handleColumnDragOver cl "progress") st1))
  = Sample.three_columns.
Proof.
  intros st st1.
  assert (Hne : "todo" <> "testing") by discriminate.
  assert (Hnz : "todo" <> "") by discriminate.
  exact (column_drag_back_restores st "todo" "testing" "progress" 0 2
           eq_refl eq_refl eq_refl eq_refl eq_refl Hne Hnz eq_refl).
Defined.

(** ** The column and card components *)

Lemma In_indexed {A} (l : list A) : forall (k i : nat) (x : A),
  In (i, x) (KanbanColumn.indexed k l) ->
  (k <= i)%nat /\ nth_error l (i - k) = Some x.
Proof.
  induction l as [|y r IH]; simpl; intros k i x H; [contradiction|].
  destruct H as [[= <- <-]|H].
  - split; [lia|]. rewrite Nat.sub_diag. reflexivity.
  - destruct (IH (S k) i x H) as [Hle Hn]. split; [lia|].
    replace (i - k)%nat with (S (i - S k)) by lia. exact Hn.
Qed.

Lemma get_after_update {V} (s t : string) (v a b : V) (o : JsObject.t V) :
  JsObject.get s o = Some a -> JsObject.get t o = Some b ->
  exists c, JsObject.get t (JsObject.update s v o) = Some c.
Proof.
  intros Hs Ht. destruct (String.eqb_spec t s) as [->|Hne].
  - exists v. apply (get_update_same s v o a Hs).
  - exists b. rewrite get_update_other by exact Hne. exact Ht.
Qed.

(** X19. Every card of a column carries the index of its task among the
    tasks of the column's board; the task is assigned to a known member;
    and the index is below the length of the column's sequence. A
    drag-over event from that card therefore inserts the moved task at
    exactly that index of the column's sequence, the tasks before it
    staying where they are. *)
Theorem card_index_is_insert_position (st : AppState) (column : Column.t)
  (i : nat) (t : Task.t) (resp : Task.t) (dt : DraggedTask) (src : Column.t)
  (tk : Task.t) :
  In (i, t) (KanbanColumn.cards (members st) column) ->
  JsObject.get (Column.id column) (columns st) = Some column ->
  draggedTask st = Some dt ->
  JsObject.get (sourceColumnId dt) (columns st) = Some src ->
  find (Task.has_id (dragged_id dt)) (Column.tasks src) = Some tk ->
  let st' := state_of (run (fun cl =>
               KanbanColumn.handleTaskDragOver cl column i (Resolved resp)) st) in
  nth_error (KanbanColumn.columnTasks column) i = Some t /\
  (exists m, In m (members st) /\ TeamMember.id m = Task.memberId t) /\
  (i < length (Column.tasks column))%nat /\
  (exists c', JsObject.get (Column.id column) (columns st') = Some c' /\
              nth_error (Column.tasks c') i =
                Some (Task.with_columnId (Column.id column) tk) /\
              firstn i (Column.tasks c') = firstn i (Column.tasks column)).
Proof.
  intros Hcard Hcol Hdt Hs Hf st'. subst st'.
  unfold KanbanColumn.cards in Hcard. apply filter_In in Hcard.
  destruct Hcard as [Hin Hmem]. apply In_indexed in Hin.
  destruct Hin as [_ Hnth]. rewrite Nat.sub_0_r in Hnth.
  assert (Hlt : (i < length (Column.tasks column))%nat).
  { assert (i < length (KanbanColumn.columnTasks column))%nat
      by (apply nth_error_Some; congruence).
    pose proof (filter_length_le
                  (fun task => String.eqb (Task.boardId task) (Column.boardId column))
                  (Column.tasks column)).
    unfold KanbanColumn.columnTasks in *. lia. }
  split; [exact Hnth|]. split.
  { apply existsb_exists in Hmem. destruct Hmem as [m [Hm E]].
    exists m. split; [exact Hm|]. apply String.eqb_eq. exact E. }
  split; [exact Hlt|].
  unfold KanbanColumn.handleTaskDragOver.
  rewrite (task_drag_over_resolved st (Column.id column) (Z.of_nat i) resp dt src
             column tk Hdt Hs Hcol Hf).
  unfold state_of. cbn [fst snd columns].
  rewrite (move_task_updates _ _ _ (Z.of_nat i) src column _ (columns st) src column
             Hs Hcol).
  rewrite relative_start_nat. replace (Nat.min i (length (Column.tasks column))) with i by lia.
  destruct (get_after_update (sourceColumnId dt) (Column.id column)
              (Column.with_tasks
                 (filter (fun t => negb (Task.has_id (dragged_id dt) t))
                         (Column.tasks src)) src)
              src column (columns st) Hs Hcol) as [c0 Hc0].
  eexists. split.
  - apply (get_update_same _ _ _ c0 Hc0).
  - cbn [Column.tasks Column.with_tasks]. split.
    + rewrite nth_error_inserted by lia.
      destruct (Nat.ltb_spec i i); [lia|]. rewrite Nat.eqb_refl. reflexivity.
    + rewrite firstn_app, firstn_firstn, length_firstn.
      replace (Nat.min i i) with i by lia.
      replace (i - Nat.min i (length (Column.tasks column)))%nat with 0%nat by lia.
      simpl. apply app_nil_r.
Qed.

Lemma card_index_is_insert_position_example :
  let st := Sample.dragging_task "T1" "todo" Sample.busy_columns in
  let column := Sample.column "doing" [Sample.task "A" "doing"; Sample.task "B" "doing"] in
  nth_error (KanbanColumn.columnTasks column) 1 = Some (Sample.task "B" "doing").
Proof.
  intros st column.
  refine (proj1 (card_index_is_insert_position st column 1 (Sample.task "B" "doing")
                   (Sample.task "T1" "doing") (mkDraggedTask "T1" "todo" 0)
                   (Sample.column "todo" [Sample.task "T1" "todo"])
                   (Sample.task "T1" "todo") _ eq_refl eq_refl eq_refl eq_refl)).
  simpl. right. left. reflexivity.
Defined.

(** X20. The task area of a column reacts to a drag-over only while the
    column shows no task of its board; the moved task then becomes the
    first of the column's sequence. *)
Theorem area_drag_over_front (st : AppState) (column : Column.t)
  (resp : response Task.t) :
  (KanbanColumn.columnTasks column <> [] ->
   run (fun cl => KanbanColumn.areaDragOver cl column resp) st = (Ok tt, st, [])) /\
  (forall served dt src tk,
     KanbanColumn.columnTasks column = [] ->
     resp = Resolved served ->
     JsObject.get (Column.id column) (columns st) = Some column ->
     draggedTask st = Some dt ->
     JsObject.get (sourceColumnId dt) (columns st) = Some src ->
     find (Task.has_id (dragged_id dt)) (Column.tasks src) = Some tk ->
     exists c',
       JsObject.get (Column.id column)
         (columns (state_of (run (fun cl =>
            KanbanColumn.areaDragOver cl column resp) st))) = Some c' /\
       Column.tasks c' =
         Task.with_columnId (Column.id column) tk :: Column.tasks column).
Proof.
  split.
  - intros Hne. unfold run, KanbanColumn.areaDragOver.
    destruct (KanbanColumn.columnTasks column); [contradiction | reflexivity].
  - intros served dt src tk Hnil -> Hcol Hdt Hs Hf.
    unfold KanbanColumn.areaDragOver. rewrite Hnil. cbn [length Nat.eqb].
    rewrite (task_drag_over_resolved st (Column.id column) 0 served dt src
               column tk Hdt Hs Hcol Hf).
    unfold state_of. cbn [fst snd columns].
    rewrite (move_task_updates _ _ _ 0%Z src column _ (columns st) src column Hs Hcol).
    destruct (get_after_update (sourceColumnId dt) (Column.id column)
                (Column.with_tasks
                   (filter (fun t => negb (Task.has_id (dragged_id dt) t))
                           (Column.tasks src)) src)
                src column (columns st) Hs Hcol) as [c0 Hc0].
    eexists. split.
    + apply (get_update_same _ _ _ c0 Hc0).
    + cbn [Column.tasks Column.with_tasks].
      replace (JsArray.relative_start 0 (length (Column.tasks column))) with 0%nat
        by (unfold JsArray.relative_start; simpl; lia).
      reflexivity.
Qed.

Lemma area_drag_over_front_example :
  let st := Sample.dragging_task "T1" "todo" Sample.two_columns in
  run (fun cl => KanbanColumn.areaDragOver cl
         (Sample.column "todo" [Sample.task "T1" "todo"; Sample.task "T2" "todo"])
         Rejected) st
  = (Ok tt, st, []).
Proof.
  intros st. apply (proj1 (area_drag_over_front st _ Rejected)). discriminate.
Defined.

(** X21. A card starts a drag with its task's [columnId] as the source
    column. When that column is not a key of the collection, or does not
    hold the task (the task sits in a column that its [columnId] does
    not name), every drag-over of that drag sends no request, changes
    no state and emits nothing: the task cannot be moved. The handler
    then returns normally, except that it throws when the task's
    [columnId] is no key but a name inherited from [Object.prototype]
    and the target id is a key or such a name. *)
Theorem misplaced_card_cannot_move (st : AppState) (task : Task.t) (index : nat) :
  (forall c, JsObject.get (Task.columnId task) (columns st) = Some c ->
             holds_task (Task.id task) c = false) ->
  let st1 := state_of (TaskCard.handleDragStart task index st) in
  draggedTask st1 =
    Some (mkDraggedTask (Task.id task) (Task.columnId task) (Z.of_nat index)) /\
  columns st1 = columns st /\
  forall target idx resp,
    let out := run (fun cl => handleTaskDragOver cl target idx resp) st1 in
    state_of out = st1 /\ trace_of out = [] /\
    (fst (fst out) = Thrown <->
     JsObject.lookup (Task.columnId task) (columns st) = JsObject.Inherited /\
     JsObject.lookup target (columns st) <> JsObject.Undefined).
Proof.
  intros Hmis st1. subst st1.
  unfold TaskCard.handleDragStart, handleTaskDragStart, state_of. cbn.
  split; [reflexivity|]. split; [reflexivity|].
  intros target idx resp. unfold run, handleTaskDragOver, trace_of. cbn.
  destruct (JsObject.lookup (Task.columnId task) (columns st)) as [c| |] eqn:Ec.
  - apply lookup_Own_get in Ec.
    assert (Hf : find (Task.has_id (Task.id task)) (Column.tasks c) = None)
      by (apply find_absent_id; apply (Hmis c Ec)).
    destruct (JsObject.lookup target (columns st)) as [tc| |]; try rewrite Hf;
      (split; [reflexivity|]; split; [reflexivity|];
       split; [discriminate | intros [H _]; discriminate]).
  - destruct (JsObject.lookup target (columns st)) as [tc| |];
      (split; [reflexivity|]; split; [reflexivity|]; split).
    + intros _. split; [reflexivity | discriminate].
    + reflexivity.
    + intros _. split; [reflexivity | discriminate].
    + reflexivity.
    + discriminate.
    + intros [_ H]. contradiction.
  - destruct (JsObject.lookup target (columns st)) as [tc| |];
      (split; [reflexivity|]; split; [reflexivity|];
       split; [discriminate | intros [H _]; discriminate]).
Qed.

Lemma misplaced_card_cannot_move_example :
  let st := Sample.app
              [("todo", Sample.column "todo" [Sample.task "T1" "doing"]);
               ("doing", Sample.column "doing" [])] in
  let st1 := state_of (TaskCard.handleDragStart (Sample.task "T1" "doing") 0 st) in
  let out := run (fun cl =>
               handleTaskDragOver cl "doing" 0 (Resolved (Sample.task "T1" "doing"))) st1 in
  state_of out = st1 /\ trace_of out = [].
Proof.
  intros st st1 out.
  assert (Hmis : forall c, JsObject.get "doing" (columns st) = Some c ->
                           holds_task "T1" c = false).
  { intros c Hc. simpl in Hc. injection Hc as <-. reflexivity. }
  destruct (proj2 (proj2 (misplaced_card_cannot_move st (Sample.task "T1" "doing") 0 Hmis))
              "doing" 0%Z (Resolved (Sample.task "T1" "doing"))) as [H1 [H2 _]].
  split; [exact H1 | exact H2].
Defined.

(** ** The details panel *)

(** X22. While a submission is under way the comment handler and the
    update handler of the details panel drop the call. Otherwise the
    comment handler sends a comment for the edited task whose author is
    the task's assignee; on success the saved comment is appended to the
    end of the task's comments, [onUpdate] is called once with that task
    and the panel is no longer submitting; on rejection the panel state
    is as before, both a console error and an alert are raised, and
    [onUpdate] is not called. *)
Theorem add_comment_appends (d : DetailsState) (content uuid now : string)
  (atts : list Attachment.t) (saved : Comment.t) :
  (isSubmitting d = true ->
   (forall resp,
      run (fun cl => handleAddComment cl content atts uuid now resp) d = (Ok tt, d, [])) /\
   (forall updatedFields,
      run (fun cl => handleUpdate cl updatedFields) d = (Ok tt, d, []))) /\
  (isSubmitting d = false ->
   let sent := Comment.mk uuid content (Task.memberId (editedTask d)) now atts
                          (Task.id (editedTask d)) in
   let after := Task.with_comments (Task.comments (editedTask d) ++ [saved])
                                   (editedTask d) in
   run (fun cl => handleAddComment cl content atts uuid now (Resolved saved)) d =
     (Ok tt, mkDetails after false,
      [SetState IsSubmitting; Request (CreateComment sent); SetState EditedTask;
       OnUpdate after; SetState IsSubmitting]) /\
   run (fun cl => handleAddComment cl content atts uuid now Rejected) d =
     (Ok tt, d,
      [SetState IsSubmitting; Request (CreateComment sent);
       ConsoleError "Failed to add comment:";
       Alert "Failed to add comment. Please try again."; SetState IsSubmitting])).
Proof.
  destruct d as [t sub]. split; intros Hsub; simpl in Hsub; subst sub.
  - split; intros; reflexivity.
  - split; reflexivity.
Qed.

Lemma add_comment_appends_example :
  Task.comments (editedTask (state_of (run (fun cl =>
     handleAddComment cl "Looks good" [] "c1" "2024-01-02T00:00:00.000Z"
       (Resolved Sample.comment)) Sample.details)))
  = [Sample.comment].
Proof.
  exact (f_equal (fun x => Task.comments (editedTask (state_of x)))
           (proj1 (proj2 (add_comment_appends Sample.details "Looks good" "c1"
                            "2024-01-02T00:00:00.000Z" [] Sample.comment) eq_refl))).
Defined.

(** ** The server *)

Lemma In_keys_get {V} (k : string) (o : JsObject.t V) :
  In k (JsObject.keys o) <-> JsObject.get k o <> None.
Proof.
  split.
  - intros H Hn. apply get_None in Hn. contradiction.
  - intros H. destruct (in_dec string_dec k (JsObject.keys o)) as [Hin|Hnot];
      [exact Hin|]. exfalso. apply H. apply get_None. exact Hnot.
Qed.

Lemma In_keys_set {V} (k k' : string) (v : V) (o : JsObject.t V) :
  In k' (JsObject.keys (JsObject.set k v o)) <-> k = k' \/ In k' (JsObject.keys o).
Proof.
  rewrite !In_keys_get, get_set.
  destruct (String.eqb_spec k k') as [E|Hne].
  - split; [intros _; left; exact E | intros _; discriminate].
  - split; [intros H; right; exact H | intros [E|H]; [contradiction | exact H]].
Qed.

Lemma In_keys_assign {V} (k k' : string) (v : V) (o : JsObject.t V) :
  In k' (JsObject.keys (JsObject.assign k v o)) <->
  (k = k' /\ k' <> "__proto__") \/ In k' (JsObject.keys o).
Proof.
  unfold JsObject.assign.
  destruct (String.eqb_spec k "__proto__") as [E|Hne];
    destruct (JsObject.has k o) eqn:Eh; cbn [andb negb].
  - rewrite In_keys_set. split; [|tauto].
    intros [<-|H]; [|right; exact H]. right. apply In_keys_get.
    unfold JsObject.has in Eh. destruct (JsObject.get k o); [discriminate|discriminate].
  - split; [tauto|]. intros [[<- H]|H]; [contradiction | exact H].
  - rewrite In_keys_set. split; [|tauto].
    intros [<-|H]; [left; split; [reflexivity | exact Hne] | right; exact H].
  - rewrite In_keys_set. split; [|tauto].
    intros [<-|H]; [left; split; [reflexivity | exact Hne] | right; exact H].
Qed.

Lemma columnsObj_fold (tasks : list Task.t) (rows : list Server.ColumnRow) :
  forall acc : Columns,
  Server.assembled tasks acc ->
  let obj :=
    fold_left
      (fun o column =>
         JsObject.assign (Server.id column)
           (Column.mk (Server.id column) (Server.title column)
              (filter (fun task => String.eqb (Task.columnId task) (Server.id column))
                      tasks)
              (Server.boardId column))
           o)
      rows acc in
  Server.assembled tasks obj /\
  forall k, In k (JsObject.keys obj) <->
            In k (JsObject.keys acc) \/ (In k (map Server.id rows) /\ k <> "__proto__").
Proof.
  induction rows as [|row rows IH]; intros acc Hacc; simpl.
  - split; [exact Hacc|]. intros k. tauto.
  - match goal with
    | |- context [fold_left _ rows ?a] =>
        assert (Hnext : Server.assembled tasks a)
    end.
    { unfold JsObject.assign.
      destruct (String.eqb (Server.id row) "__proto__"
                && negb (JsObject.has (Server.id row) acc)); [exact Hacc|].
      destruct Hacc as [Hnd Hin]. split; [apply NoDup_keys_set; exact Hnd|].
      intros k c H. apply In_set in H. destruct H as [[-> ->]|H].
      - split; reflexivity.
      - apply Hin. exact H. }
    destruct (IH _ Hnext) as [Hgood Hkeys]. split; [exact Hgood|].
    intros k. rewrite Hkeys, In_keys_assign. tauto.
Qed.

Lemma assembled_placed (tasks : list Task.t) (obj : Columns) :
  Server.assembled tasks obj -> distinct_keys obj = true /\ placedb obj = true.
Proof.
  intros [Hnd Hin]. split; [apply distinct_NoDup; exact Hnd|].
  unfold placedb. apply forallb_forall. intros [k c] Hkc. simpl.
  apply forallb_forall. intros t Ht.
  destruct (Hin k c Hkc) as [_ Htasks]. rewrite Htasks in Ht.
  apply filter_In in Ht. tauto.
Qed.

(** X23. The columns object that the server assembles for a board has
    one property per column id returned by the columns query, except
    that a row whose id is [__proto__] gets none (the assignment
    replaces the prototype of the object instead). It stores each column
    under its own id, and puts into each column exactly the tasks of the
    tasks query whose [columnId] is that id, in the order of the query:
    every stored task names the column it is stored in, and a task that
    names no stored column is left out. The same holds for the columns
    of every board of the response, whose ids and titles are those of
    the board rows. *)
Theorem columns_object_is_placed (rows : list Server.ColumnRow) (tasks : list Task.t) :
  let obj := Server.columnsObj rows tasks in
  distinct_keys obj = true /\ placedb obj = true /\
  (forall k, In k (JsObject.keys obj) <->
             In k (map Server.id rows) /\ k <> "__proto__") /\
  (forall k c, JsObject.get k obj = Some c ->
     Column.id c = k /\
     Column.tasks c = filter (fun task => String.eqb (Task.columnId task) k) tasks) /\
  (forall boards columnsStmt tasksStmt,
     let bs := Server.boardsWithData boards columnsStmt tasksStmt in
     map Board.id bs = map Server.board_id boards /\
     map Board.title bs = map Server.board_title boards /\
     Forall (fun b => distinct_keys (Board.columns b) = true /\
                      placedb (Board.columns b) = true) bs).
Proof.
  assert (Hempty : forall ts, Server.assembled ts (@JsObject.empty Column.t)).
  { intros ts. split; [constructor | intros k c []]. }
  intros obj. subst obj. unfold Server.columnsObj.
  destruct (columnsObj_fold tasks rows JsObject.empty (Hempty tasks)) as [Hgood Hkeys].
  destruct (assembled_placed tasks _ Hgood) as [Hd Hp].
  split; [exact Hd|]. split; [exact Hp|]. split.
  - intros k. rewrite Hkeys. simpl. tauto.
  - split.
    + intros k c Hget. apply (proj2 Hgood). apply get_In. exact Hget.
    + intros boards columnsStmt tasksStmt. cbv zeta. unfold Server.boardsWithData.
      rewrite !map_map. simpl. split; [reflexivity|]. split; [reflexivity|].
      apply Forall_forall. intros b Hb. apply in_map_iff in Hb.
      destruct Hb as [row [<- _]]. simpl. unfold Server.columnsObj.
      apply (assembled_placed (tasksStmt (Server.board_id row))).
      apply (columnsObj_fold _ _ JsObject.empty (Hempty _)).
Qed.

Lemma query_id_inj (n m : N) : Server.query_id n = Server.query_id m -> n = m.
Proof.
  unfold Server.query_id. intros H. simpl in H. injection H as H.
  apply (f_equal NilEmpty.uint_of_string) in H. rewrite !NilEmpty.usu in H.
  injection H as H. apply (f_equal N.of_uint) in H.
  rewrite !DecimalN.Unsigned.of_to in H. exact H.
Qed.

Lemma log_step_ok (s : Server.LogState) (x : Server.log_step) :
  Server.log_ok s -> (Server.queryId s < 9007199254740992)%N ->
  Server.log_ok (Server.log_step_run s x) /\
  Server.queryId (Server.log_step_run s x) =
    (Server.queryId s
     + match x with Server.Query _ _ _ _ _ _ => 1 | Server.Clear => 0 end)%N /\
  (length (Server.queryLogs (Server.log_step_run s x)) <=
   length (Server.queryLogs s)
   + match x with Server.Query _ _ _ _ _ _ => 1 | Server.Clear => 0 end)%nat.
Proof.
  intros [Hnd Hids] Hlt.
  assert (Hinc : Server.increment (Server.queryId s) = (Server.queryId s + 1)%N).
  { unfold Server.increment. destruct (N.ltb_spec (Server.queryId s) 9007199254740992);
      [reflexivity | lia]. }
  destruct x as [m type source params failure now|].
  - assert (Hstep : exists e,
              Server.log_step_run s (Server.Query m type source params failure now) =
              Server.mkLogState (Server.queryLogs s ++ [e])
                                (Server.increment (Server.queryId s)) /\
              Server.log_id e = Server.query_id (Server.queryId s)).
    { destruct failure; simpl; eexists; split; reflexivity. }
    destruct Hstep as [e [-> He]]. simpl. rewrite Hinc.
    split; [|split; [reflexivity | rewrite length_app; simpl; lia]].
    split.
    + simpl. rewrite map_app. simpl.
      apply (Permutation_NoDup (l := Server.log_id e :: map Server.log_id (Server.queryLogs s))).
      * apply Permutation_cons_append.
      * constructor; [|exact Hnd]. intros Hin. apply in_map_iff in Hin.
        destruct Hin as [e' [E He']]. destruct (Hids e' He') as [n [Hn Hid]].
        rewrite He, Hid in E. apply query_id_inj in E. lia.
    + simpl. intros e' Hin. apply in_app_or in Hin. destruct Hin as [Hin|[<-|[]]].
      * destruct (Hids e' Hin) as [n [Hn Hid]]. exists n. split; [lia | exact Hid].
      * exists (Server.queryId s). split; [lia | exact He].
  - simpl. split; [|split; [lia | lia]].
    split; [constructor | intros e []].
Qed.



(** ** Moving a task away and back *)

Section UpdateFacts.
Context {V : Type}.
Implicit Types (o : JsObject.t V) (k : string) (v : V).

Lemma update_update k v v' o :
  JsObject.update k v (JsObject.update k v' o) = JsObject.update k v o.
Proof.
  induction o as [|[k0 v0] r IH]; simpl; [reflexivity|].
  destruct (String.eqb_spec k0 k) as [->|Hne]; simpl.
  - rewrite String.eqb_refl. reflexivity.
  - destruct (String.eqb_spec k0 k); [contradiction|]. f_equal. exact IH.
Qed.

Lemma update_comm k k' v v' o :
  k <> k' ->
  JsObject.update k v (JsObject.update k' v' o) =
  JsObject.update k' v' (JsObject.update k v o).
Proof.
  intros Hne. induction o as [|[k0 v0] r IH]; simpl; [reflexivity|].
  destruct (String.eqb k0 k') eqn:E'; destruct (String.eqb k0 k) eqn:E; simpl;
    rewrite ?E, ?E'.
  - apply String.eqb_eq in E, E'. congruence.
  - apply String.eqb_eq in E'. subst k0. simpl.
    rewrite ?E, ?String.eqb_refl. reflexivity.
  - apply String.eqb_eq in E. subst k0. simpl.
    rewrite ?E', ?String.eqb_refl. reflexivity.
  - f_equal. exact IH.
Qed.

Lemma update_same k v o : JsObject.get k o = Some v -> JsObject.update k v o = o.
Proof.
  induction o as [|[k0 v0] r IH]; simpl; [reflexivity|].
  destruct (String.eqb_spec k0 k) as [->|Hne].
  - intros [= ->]. reflexivity.
  - intros H. f_equal. apply IH. exact H.
Qed.

End UpdateFacts.

Lemma with_tasks_back (c : Column.t) (ts : list Task.t) :
  Column.with_tasks (Column.tasks c) (Column.with_tasks ts c) = c.
Proof. destruct c; reflexivity. Qed.

Lemma tasks_with_tasks (c : Column.t) (ts : list Task.t) :
  Column.tasks (Column.with_tasks ts c) = ts.
Proof. reflexivity. Qed.

Lemma with_columnId_back (A B : string) (tk : Task.t) :
  Task.columnId tk = A -> Task.with_columnId A (Task.with_columnId B tk) = tk.
Proof. intros <-. destruct tk; reflexivity. Qed.

Lemma count_zero_absent (taskId : string) (ts : list Task.t) :
  count_occ string_dec (map Task.id ts) taskId = 0%nat ->
  existsb (Task.has_id taskId) ts = false.
Proof.
  induction ts as [|x xs IH]; simpl; [reflexivity|].
  unfold Task.has_id at 1.
  destruct (string_dec (Task.id x) taskId) as [E|Hne]; [discriminate|].
  intros H. destruct (String.eqb_spec (Task.id x) taskId); [contradiction|].
  simpl. apply IH. exact H.
Qed.

Lemma existsb_firstn_skipn (taskId : string) (n : nat) (ts : list Task.t) :
  existsb (Task.has_id taskId) ts = false ->
  existsb (Task.has_id taskId) (firstn n ts) = false /\
  existsb (Task.has_id taskId) (skipn n ts) = false.
Proof.
  intros H. rewrite <- (firstn_skipn n ts), existsb_app in H.
  apply orb_false_iff in H. exact H.
Qed.

(** Taking out the only task of an id removes one position. *)
Lemma filter_only_occurrence (taskId : string) (i : nat) (x : Task.t)
  (ts : list Task.t) :
  nth_error ts i = Some x -> Task.id x = taskId ->
  count_occ string_dec (map Task.id ts) taskId = 1%nat ->
  filter (fun t => negb (Task.has_id taskId t)) ts = firstn i ts ++ skipn (S i) ts /\
  firstn i (firstn i ts ++ skipn (S i) ts) ++ x :: skipn i (firstn i ts ++ skipn (S i) ts)
  = ts.
Proof.
  intros Hn Hid Hone.
  destruct (nth_error_split ts i Hn) as [l1 [l2 [-> Hlen]]]. subst i.
  assert (E : firstn (length l1) (l1 ++ x :: l2)
              ++ skipn (S (length l1)) (l1 ++ x :: l2) = l1 ++ l2).
  { clear. induction l1 as [|a r IH]; simpl; [reflexivity | f_equal; exact IH]. }
  rewrite E. rewrite map_app, count_occ_app in Hone. simpl in Hone.
  destruct (string_dec (Task.id x) taskId) as [_|Hne]; [|contradiction].
  assert (H1 : existsb (Task.has_id taskId) l1 = false)
    by (apply count_zero_absent; lia).
  assert (H2 : existsb (Task.has_id taskId) l2 = false)
    by (apply count_zero_absent; lia).
  split.
  - rewrite filter_app. simpl. unfold Task.has_id at 2.
    rewrite Hid, String.eqb_refl. simpl.
    rewrite !filter_absent_id by assumption. reflexivity.
  - rewrite firstn_app, Nat.sub_diag, firstn_all. simpl. rewrite app_nil_r.
    rewrite skipn_app, Nat.sub_diag, skipn_all. reflexivity.
Qed.

Lemma find_inserted_fresh (taskId : string) (n : nat) (x : Task.t) (ts : list Task.t) :
  existsb (Task.has_id taskId) ts = false -> Task.id x = taskId ->
  find (Task.has_id taskId) (firstn n ts ++ x :: skipn n ts) = Some x /\
  filter (fun t => negb (Task.has_id taskId t)) (firstn n ts ++ x :: skipn n ts) = ts.
Proof.
  intros Habs Hid. destruct (existsb_firstn_skipn taskId n ts Habs) as [H1 H2].
  split.
  - generalize (firstn n ts) H1. intros l Hl.
    induction l as [|a r IH]; simpl.
    + unfold Task.has_id. rewrite Hid, String.eqb_refl. reflexivity.
    + simpl in Hl. apply orb_false_iff in Hl. destruct Hl as [Ha Hr].
      rewrite Ha. apply IH. exact Hr.
  - rewrite filter_app. simpl. unfold Task.has_id at 2.
    rewrite Hid, String.eqb_refl. simpl.
    rewrite !filter_absent_id by assumption. apply firstn_skipn.
Qed.

(** X25. Moving a task to another column and then, in a new drag started
    from its card there, back to the index it came from restores the
    column collection exactly, provided the task was the only one of its
    id in its column, named that column, and the other column held no
    task of that id. *)
Theorem task_move_there_and_back (st : AppState) (A B : string) (i index : nat)
  (idx : Z) (a b : Column.t) (tk : Task.t) (resp resp' : Task.t) :
  draggedTask st = Some (mkDraggedTask (Task.id tk) A (Z.of_nat i)) ->
  JsObject.get A (columns st) = Some a ->
  JsObject.get B (columns st) = Some b ->
  A <> B ->
  nth_error (Column.tasks a) i = Some tk ->
  Task.columnId tk = A ->
  count_occ string_dec (task_ids a) (Task.id tk) = 1%nat ->
  holds_task (Task.id tk) b = false ->
  let st1 := state_of (run (fun cl => handleTaskDragOver cl B idx (Resolved resp)) st) in
  let st2 := state_of (TaskCard.handleDragStart (Task.with_columnId B tk) index st1) in
  let st3 := state_of (run (fun cl =>
               handleTaskDragOver cl A (Z.of_nat i) (Resolved resp')) st2) in
  columns st3 = columns st.
Proof.
  intros Hdt Ha Hb Hne Hnth Hcol Hone Hnone st1 st2 st3.
  destruct (filter_only_occurrence (Task.id tk) i tk (Column.tasks a) Hnth eq_refl Hone)
    as [Hfilter Hback].
  assert (Hfind : find (Task.has_id (Task.id tk)) (Column.tasks a) = Some tk).
  { destruct (nth_error_split _ i Hnth) as [l1 [l2 [E Hlen]]].
    unfold task_ids in Hone. rewrite E in *. rewrite map_app, count_occ_app in Hone.
    simpl in Hone. destruct (string_dec (Task.id tk) (Task.id tk)); [|contradiction].
    assert (H1 : existsb (Task.has_id (Task.id tk)) l1 = false)
      by (apply count_zero_absent; lia).
    clear -H1. induction l1 as [|x r IH]; simpl.
    - unfold Task.has_id. rewrite String.eqb_refl. reflexivity.
    - simpl in H1. apply orb_false_iff in H1. destruct H1 as [Hx Hr].
      rewrite Hx. apply IH. exact Hr. }
  set (p := JsArray.relative_start idx (length (Column.tasks b))).
  set (a1 := Column.with_tasks
               (filter (fun t => negb (Task.has_id (Task.id tk) t)) (Column.tasks a)) a).
  set (b2 := Column.with_tasks
               (firstn p (Column.tasks b) ++ Task.with_columnId B tk
                :: skipn p (Column.tasks b)) b).
  assert (Hst1 : columns st1 =
                 JsObject.update B b2 (JsObject.update A a1 (columns st))).
  { subst st1.
    rewrite (task_drag_over_resolved st B idx resp _ a b tk Hdt Ha Hb Hfind).
    unfold state_of. cbn [fst snd columns dragged_id sourceColumnId].
    apply (move_task_updates _ _ _ idx a b _ (columns st) a b Ha Hb). }
  assert (Hga : JsObject.get A (columns st1) = Some a1).
  { rewrite Hst1. rewrite get_update_other by exact Hne.
    apply (get_update_same A a1 (columns st) a Ha). }
  assert (Hgb : JsObject.get B (columns st1) = Some b2).
  { rewrite Hst1. eapply get_update_same.
    rewrite get_update_other by congruence. exact Hb. }
  destruct (find_inserted_fresh (Task.id tk) p (Task.with_columnId B tk)
              (Column.tasks b) Hnone eq_refl) as [Hfind2 Hfilter2].
  assert (Hst2c : columns st2 = columns st1) by reflexivity.
  assert (Hst2d : draggedTask st2 =
                  Some (mkDraggedTask (Task.id tk) B (Z.of_nat index))) by reflexivity.
  subst st3.
  rewrite (task_drag_over_resolved st2 A (Z.of_nat i) resp' _ b2 a1
             (Task.with_columnId B tk) Hst2d
             ltac:(rewrite Hst2c; exact Hgb) ltac:(rewrite Hst2c; exact Hga) Hfind2).
  unfold state_of. cbn [fst snd columns dragged_id sourceColumnId].
  rewrite (move_task_updates _ _ _ (Z.of_nat i) b2 a1 _ (columns st2) b2 a1
             ltac:(rewrite Hst2c; exact Hgb) ltac:(rewrite Hst2c; exact Hga)).
  rewrite Hst2c, Hst1.
  assert (Hb3 : Column.with_tasks
                  (filter (fun t => negb (Task.has_id (Task.id tk) t)) (Column.tasks b2))
                  b2 = b).
  { unfold b2. rewrite tasks_with_tasks, Hfilter2. apply with_tasks_back. }
  assert (Hlen : (i <= length (Column.tasks a1))%nat).
  { unfold a1. cbn [Column.tasks Column.with_tasks]. rewrite Hfilter.
    rewrite (length_without i tk _ Hnth).
    assert (i < length (Column.tasks a))%nat by (apply nth_error_Some; congruence). lia. }
  assert (Ha3 : Column.with_tasks
                  (firstn (JsArray.relative_start (Z.of_nat i) (length (Column.tasks a1)))
                          (Column.tasks a1)
                   ++ Task.with_columnId A (Task.with_columnId B tk)
                   :: skipn (JsArray.relative_start (Z.of_nat i) (length (Column.tasks a1)))
                        (Column.tasks a1))
                  a1 = a).
  { rewrite relative_start_nat.
    replace (Nat.min i (length (Column.tasks a1))) with i by lia.
    rewrite (with_columnId_back A B tk Hcol).
    unfold a1. rewrite tasks_with_tasks, Hfilter, Hback. apply with_tasks_back. }
  rewrite Hb3, Ha3.
  rewrite update_update.
  rewrite (update_comm B A b a1 (columns st)) by congruence.
  rewrite update_update.
  rewrite (update_same B b (columns st) Hb).
  apply update_same. exact Ha.
Qed.

Lemma task_move_there_and_back_example :
  let st := Sample.dragging_task "T1" "todo" Sample.two_columns in
  let st1 := state_of (run (fun cl =>
               handleTaskDragOver cl "doing" 0 (Resolved (Sample.task "T1" "doing"))) st) in
  let st2 := state_of (TaskCard.handleDragStart (Sample.task "T1" "doing") 0 st1) in
  let st3 := state_of (run (fun cl =>
               handleTaskDragOver cl "todo" 0 (Resolved (Sample.task "T1" "todo"))) st2) in
  columns st3 = Sample.two_columns.
Proof.
  intros st st1 st2 st3.
  assert (Hne : "todo" <> "doing") by discriminate.
  exact (task_move_there_and_back st "todo" "doing" 0 0 0%Z
           (Sample.column "todo" [Sample.task "T1" "todo"; Sample.task "T2" "todo"])
           (Sample.column "doing" []) (Sample.task "T1" "todo")
           (Sample.task "T1" "doing") (Sample.task "T1" "todo")
           eq_refl eq_refl eq_refl Hne eq_refl eq_refl eq_refl eq_refl).
Defined.

Lemma load_initial_data_example :
  let st := mkApp [] [] None [] None None None None in
  let st' := loadAndRender (Resolved [Sample.alice])
                           (Resolved [Sample.board1; Sample.board2]) st in
  selectedBoard st' = Some "b1" /\ columns st' = Sample.two_columns /\
  loadInitialData (Resolved [Sample.alice]) Rejected st =
    (Ok tt, st,
     [Fetch GetMembers; Fetch GetBoards;
      Effect (ConsoleError "Failed to load initial data:")]).
Proof.
  intros st st'.
  destruct (load_initial_data st) as [Hrej [_ Hok]].
  destruct (Hok [Sample.alice] Sample.board1 [Sample.board2])
    as [_ [_ [_ [_ [Hsel Hcols]]]]].
  split; [exact Hsel|]. split; [exact Hcols|].
  apply Hrej. right. reflexivity.
Defined.

Lemma column_drag_is_local_example :
  let st := Sample.dragging_column "todo" Sample.three_columns in
  let st1 := state_of (run (fun cl => handleColumnDragOver cl "progress") st) in
  let st2 := state_of (run (fun cl => handleColumnDragOver cl "testing") st1) in
  JsObject.keys (columns st1) = ["progress"; "todo"; "testing"] /\
  JsObject.keys (columns st2) = ["progress"; "testing"; "todo"].
Proof.
  intros st st1 st2. split; [reflexivity|]. subst st2 st1.
  assert (Hnz : "todo" <> "") by discriminate.
  assert (Hne : "todo" <> "testing") by discriminate.
  rewrite (proj1 (proj2 (proj2 (proj2 (proj2 (proj2 (proj2
             (column_drag_is_local st "progress")))))))
             "todo" "testing" eq_refl Hnz Hne).
  reflexivity.
Defined.

Lemma grid_columns_bounds_example :
  gridCols Sample.three_columns = 4%nat.
Proof.
  apply (proj1 (proj2 (grid_columns_bounds Sample.three_columns))).
  unfold columnCount, JsObject.keys. simpl. lia.
Defined.

Lemma task_drag_over_request_iff_example :
  let out := run (fun cl => handleTaskDragOver cl "doing" 0 Rejected)
                 (Sample.app Sample.two_columns) in
  state_of out = Sample.app Sample.two_columns /\ trace_of out = [].
Proof.
  apply (proj2 (proj2 (task_drag_over_request_iff (Sample.app Sample.two_columns)
                         "doing" 0 Rejected))).
  reflexivity.
Defined.
